(** * Synthetic table generators of [new_sample_data_generator.py]

    A shallow embedding of the six chunked CSV generators
    ([create_sales_dataset], [create_customers_dataset],
    [create_ratings_dataset], [create_products_dataset],
    [create_transactions_dataset], [create_orders_dataset]) and of the
    NumPy / pandas / pathlib operations they call.

    - Python [int] is [Z]; NumPy [float64] is Rocq's primitive binary64
      [float], so that [round], [clip] and the arithmetic compute what the
      program computes.
    - Where an integer of the caller enters NumPy, the limits of int64
      are written out: [default_rng] refuses a negative seed and
      [rng.integers] refuses bounds outside int64, both with
      [ValueError]; [astype(int)] saturates. [np.arange] leaves int64
      when an end does not fit: such a run is marked [OutsideModel] and
      nothing is stated about it. Arrays too large for the memory are
      outside the model, like the refusals of the filesystem.
    - NumPy's random [Generator] is an interface: the type class
      [Generator] holds the state type and the sampling methods the
      program calls, [GeneratorLaws] the part of their documented contract
      that the properties below rely on (array sizes, value ranges).
      [StreamRng] is a small instance that draws everything from one
      counter stream.
    - The filesystem is a state: the set of directories, the content of
      every file as a list of CSV lines, and the log of [to_csv] calls.
      Generators are computations in the state-and-exception monad [io].
      The filesystem accepts every operation: permission and disk
      failures are outside the model. *)

From Stdlib Require Import ZArith List String Ascii Bool Lia Floats Uint63.
From Stdlib Require Import DecimalString.
From stdpp Require Import gmap strings list.

Set Warnings "-inexact-float".
Local Open Scope string_scope.
Local Open Scope Z_scope.

(** ** Python results: a value or a raised exception *)

(** [OutsideModel] is no Python exception: it marks a run that leaves
    the part of NumPy this development describes (see [arange_int64]);
    nothing is stated about what the program does from there on. *)
Inductive exn : Type :=
| ValueError (msg : string)
| KeyError (key : string)
| IndexError (msg : string)
| OutsideModel (what : string).

Inductive result (A : Type) : Type :=
| Ok (a : A)
| Raise (e : exn).
Arguments Ok {A} a.
Arguments Raise {A} e.

Definition rbind {A B : Type} (r : result A) (k : A → result B) : result B :=
  match r with
  | Ok a => k a
  | Raise e => Raise e
  end.

(** [[f(x) for x in xs]] where [f] may raise. *)
Fixpoint rmap {A B : Type} (f : A → result B) (xs : list A) : result (list B) :=
  match xs with
  | [] => Ok []
  | x :: xs' =>
      rbind (f x) (fun y => rbind (rmap f xs') (fun ys => Ok (y :: ys)))
  end.

(** ** float64 *)

Module F.
Local Open Scope float_scope.

Definition two52 : float := 4503599627370496.

Definition is_nan (x : float) : bool := negb (PrimFloat.eqb x x).

Definition signbit (x : float) : bool :=
  match PrimFloat.classify x with
  | NNormal | NSubn | NZero | NInf => true
  | _ => false
  end.

(** [np.rint]: round to the nearest integer, ties to even. Every binary64
    of magnitude at least 2^52 is an integer already; below, adding and
    subtracting 2^52 rounds in the current (nearest-even) mode. *)
Definition rint (x : float) : float :=
  let a := PrimFloat.abs x in
  if PrimFloat.ltb a two52 then
    let r := (a + two52) - two52 in
    if signbit x then - r else r
  else x.

(** [x.round(decimals)] for [decimals > 0]: NumPy multiplies by
    [10**decimals], calls [rint], and divides again. *)
Definition round (x : float) (pow10 : float) : float := rint (x * pow10) / pow10.
Definition round2 (x : float) : float := round x 100.
Definition round4 (x : float) : float := round x 10000.

(** [np.maximum] / [np.minimum] propagate NaN. *)
Definition maximum (a b : float) : float :=
  if is_nan a then a else if is_nan b then b
  else if PrimFloat.ltb a b then b else a.
Definition minimum (a b : float) : float :=
  if is_nan a then a else if is_nan b then b
  else if PrimFloat.ltb b a then b else a.

(** [np.clip(x, lo, hi)] is [minimum(maximum(x, lo), hi)]. *)
Definition clip (x lo hi : float) : float := minimum (maximum x lo) hi.

(** int64 to float64. *)
Definition of_Z (z : Z) : float :=
  if (z <? 0)%Z then - PrimFloat.of_uint63 (Uint63.of_Z (- z))
  else PrimFloat.of_uint63 (Uint63.of_Z z).

(** [x.astype(int)]: truncation towards zero; NaN, the infinities and
    the values outside int64 become the smallest int64, as on x86-64. *)
Definition to_Z (x : float) : Z :=
  match Prim2SF x with
  | S754_zero _ => 0%Z
  | S754_finite s m e =>
      let v := if (0 <=? e)%Z then (Z.pos m * 2 ^ e)%Z
               else (Z.pos m / 2 ^ (- e))%Z in
      let z := if s then (- v)%Z else v in
      if ((- 2 ^ 63 <=? z) && (z <? 2 ^ 63))%Z then z else (- 2 ^ 63)%Z
  | _ => (- 2 ^ 63)%Z
  end.

(** [abs(a - b) <= tol] *)
Definition close (a b tol : float) : bool :=
  PrimFloat.leb (PrimFloat.abs (a - b)) tol.

End F.

(** Integer [np.clip]. *)
Definition clipZ (x lo hi : Z) : Z := Z.min (Z.max x lo) hi.

(** ** Calendar: [np.datetime64] with unit [D] is a day count from
    1970-01-01 in the proleptic Gregorian calendar *)

Record civil : Type := mk_date { c_year : Z; c_month : Z; c_day : Z }.

Definition is_leap (y : Z) : bool :=
  ((y mod 4 =? 0) && negb (y mod 100 =? 0)) || (y mod 400 =? 0).

Definition days_in_month (y m : Z) : Z :=
  if m =? 2 then (if is_leap y then 29 else 28)
  else if (m =? 4) || (m =? 6) || (m =? 9) || (m =? 11) then 30
  else 31.

Definition valid_date (d : civil) : bool :=
  (1 <=? c_month d) && (c_month d <=? 12) && (1 <=? c_day d)
  && (c_day d <=? days_in_month (c_year d) (c_month d)).

(** Days from 1970-01-01 to a civil date. *)
Definition days_from_civil (d : civil) : Z :=
  let y := if c_month d <=? 2 then c_year d - 1 else c_year d in
  let era := y / 400 in
  let yoe := y - era * 400 in
  let mp := if 2 <? c_month d then c_month d - 3 else c_month d + 9 in
  let doy := (153 * mp + 2) / 5 + c_day d - 1 in
  let doe := yoe * 365 + yoe / 4 - yoe / 100 + doy in
  era * 146097 + doe - 719468.

(** The civil date of a day count. *)
Definition civil_from_days (z : Z) : civil :=
  let z := z + 719468 in
  let era := z / 146097 in
  let doe := z - era * 146097 in
  let yoe := (doe - doe / 1460 + doe / 36524 - doe / 146096) / 365 in
  let doy := doe - (365 * yoe + yoe / 4 - yoe / 100) in
  let mp := (5 * doy + 2) / 153 in
  let d := doy - (153 * mp + 2) / 5 + 1 in
  let m := if mp <? 10 then mp + 3 else mp - 9 in
  mk_date (if m <=? 2 then yoe + era * 400 + 1 else yoe + era * 400) m d.

(** [np.datetime64(start_date)] for an ISO date string, as a day count;
    NumPy raises [ValueError] on a string that is not a calendar date. *)
Definition np_datetime64 (d : civil) : result Z :=
  if valid_date d then Ok (days_from_civil d)
  else Raise (ValueError "Error parsing datetime string").

(** [(calendar.astype('datetime64[M]') - calendar.astype('datetime64[Y]')).astype(int) + 1] *)
Definition month_of_day (z : Z) : Z := c_month (civil_from_days z).

(** Names of the days of the week, in the order of Python's
    [date.weekday()]: Monday is 0, Sunday is 6. *)
Inductive day_name : Type :=
| Monday | Tuesday | Wednesday | Thursday | Friday | Saturday | Sunday.

Definition day_name_of_index (i : Z) : day_name :=
  match i with
  | 0 => Monday | 1 => Tuesday | 2 => Wednesday | 3 => Thursday
  | 4 => Friday | 5 => Saturday | _ => Sunday
  end.

(** Day of the week of a civil date by Sakamoto's method (0 = Sunday),
    an independent reference for the day-count arithmetic. *)
Definition sakamoto (d : civil) : Z :=
  let t := nth (Z.to_nat (c_month d - 1)) [0; 3; 2; 5; 0; 3; 5; 1; 4; 6; 2; 4] 0 in
  let y := if c_month d <? 3 then c_year d - 1 else c_year d in
  (y + y / 4 - y / 100 + y / 400 + t + c_day d) mod 7.

(** [date.weekday()]: Monday is 0, Sunday is 6. *)
Definition python_weekday (d : civil) : Z := (sakamoto d + 6) mod 7.

(** The day of the week a civil date falls on. *)
Definition weekday_name (d : civil) : day_name :=
  day_name_of_index (python_weekday d).

(** ** Python [range] and NumPy [arange] *)

(** [len(range(start, stop, step))] for [step > 0], as CPython computes it. *)
Definition range_len (start stop step : Z) : nat :=
  if start <? stop then Z.to_nat ((stop - start - 1) / step + 1) else 0%nat.

Definition py_range (start stop step : Z) : list Z :=
  map (fun i : nat => start + Z.of_nat i * step) (seq 0 (range_len start stop step)).

(** [np.arange(start, stop)] *)
Definition arange (start stop : Z) : list Z :=
  map (fun i : nat => start + Z.of_nat i) (seq 0 (Z.to_nat (stop - start))).

(** [2**63]: int64 holds the integers from [- 2**63] to [2**63 - 1]. *)
Definition int64_bound : Z := 9223372036854775808.

Definition fits_int64 (z : Z) : bool := (- int64_bound <=? z) && (z <? int64_bound).

(** [np.arange(start, stop)] on Python integers is an int64 array when
    both ends fit int64. Beyond, NumPy changes the element type, which
    this development does not describe. The ranges whose ends are a row
    count or a table size reach [2**63] only with an array of that many
    elements; the customer identifiers start at an offset of the caller's
    choice, so their range is checked. *)
Definition arange_int64 (start stop : Z) : bool :=
  fits_int64 start && fits_int64 stop.

(** Indexing [a[i]] with bounds check; a negative index counts from the end. *)
Definition np_index {A : Type} (a : list A) (i : Z) : result A :=
  let len := Z.of_nat (length a) in
  let j := if i <? 0 then len + i else i in
  if (0 <=? j) && (j <? len) then
    match nth_error a (Z.to_nat j) with
    | Some x => Ok x
    | None => Raise (IndexError "index out of bounds")
    end
  else Raise (IndexError "index out of bounds").

(** [table[idx]] for an index array. *)
Definition np_take {A : Type} (table : list A) (idx : list Z) : result (list A) :=
  rmap (np_index table) idx.

(** Lookup in a constant table whose index is a weekday or month number. *)
Definition table_at (table : list float) (i : Z) : float :=
  nth (Z.to_nat i) table PrimFloat.nan.

(** Elementwise operations on arrays of one shape. *)
Definition fmul (a b : list float) : list float := zip_with PrimFloat.mul a b.
Definition fscale (a : list float) (k : float) : list float :=
  map (fun x => PrimFloat.div x k) a.

(** [str(i)] for an integer. *)
Definition str (i : Z) : string := NilZero.string_of_int (Z.to_int i).

(** [s.zfill(width)] for a string of digits. *)
Definition zfill (s : string) (width : nat) : string :=
  String.concat "" (repeat "0" (width - String.length s)) ++ s.

(** ** CSV files and the filesystem *)

Definition path : Type := list string.

Inductive cell : Type :=
| CInt (z : Z)
| CFloat (x : float)
| CStr (s : string)
| CDate (epoch_day : Z)
| CTimestamp (epoch_second : Z).

Inductive line : Type :=
| Header (columns : list string)
| Row (cells : list cell).

Inductive write_mode : Type := ModeW | ModeA.

(** One [DataFrame.to_csv] call: target, open mode, whether the header
    line was requested, number of data rows. *)
Record write_event : Type := mk_write {
  w_path : path;
  w_mode : write_mode;
  w_header : bool;
  w_rows : nat
}.

Record filesystem : Type := mk_fs {
  dirs : gset path;
  files : gmap path (list line);
  writes : list write_event
}.

Definition is_header (l : line) : bool :=
  match l with Header _ => true | Row _ => false end.

(** The data rows of a file: every line that is not a header line. *)
Definition data_rows (ls : list line) : list line :=
  List.filter (fun l => negb (is_header l)) ls.

(** The non-empty prefixes of a path: the directory and its ancestors. *)
Definition ancestors (p : path) : list path :=
  map (fun n : nat => take n p) (seq 1 (length p)).

(** [Path.mkdir(parents=True, exist_ok=True)] *)
Definition mkdir_parents (p : path) (fs : filesystem) : filesystem :=
  mk_fs (dirs fs ∪ list_to_set (ancestors p)) (files fs) (writes fs).

(** [df.to_csv(p, mode=mode, header=header, index=False)]: mode ['w']
    truncates the file, mode ['a'] appends to it (creating it if absent). *)
Definition to_csv (p : path) (mode : write_mode) (header : bool)
    (columns : list string) (rows : list (list cell)) (fs : filesystem) : filesystem :=
  let old := match mode with
             | ModeW => []
             | ModeA => default [] (files fs !! p)
             end in
  let new := ((if header then [Header columns] else []) ++ map Row rows)%list in
  mk_fs (dirs fs) (<[p := (old ++ new)%list]> (files fs))
        (writes fs ++ [mk_write p mode header (length rows)])%list.

(** ** The generator monad: filesystem state and exceptions *)

Definition io (A : Type) : Type := filesystem → result A * filesystem.

Definition io_ret {A : Type} (a : A) : io A := fun fs => (Ok a, fs).
Definition io_raise {A : Type} (e : exn) : io A := fun fs => (Raise e, fs).
Definition io_bind {A B : Type} (c : io A) (k : A → io B) : io B :=
  fun fs =>
    match c fs with
    | (Ok a, fs') => k a fs'
    | (Raise e, fs') => (Raise e, fs')
    end.
Definition io_lift {A : Type} (r : result A) : io A := fun fs => (r, fs).
Definition io_effect (f : filesystem → filesystem) : io unit :=
  fun fs => (Ok tt, f fs).

Notation "'let!' x ':=' c1 'in' c2" := (io_bind c1 (fun x => c2))
  (at level 10, x name, c1 at level 100, c2 at level 200).
Notation "'let!' ' pat ':=' c1 'in' c2" :=
  (io_bind c1 (fun x => match x with pat => c2 end))
  (at level 10, pat pattern, c1 at level 100, c2 at level 200).

(** [if cond: raise ValueError(msg)] *)
Definition check (cond : bool) (msg : string) : io unit :=
  if cond then io_raise (ValueError msg) else io_ret tt.

(** [for x in xs: s = body(x, s)] *)
Fixpoint for_each {X S : Type} (xs : list X) (body : X → S → io S) (s : S) : io S :=
  match xs with
  | [] => io_ret s
  | x :: xs' => let! s' := body x s in for_each xs' body s'
  end.

(** ** NumPy's random generator *)

Class Generator : Type := {
  bitgen : Type;
  (** the state of the generator [np.random.default_rng(seed)] returns
      for a seed it accepts *)
  seed_state : Z → bitgen;
  (** [rng.integers(low, high, size=n)]: integers in [[low, high)] *)
  rng_integers : Z → Z → nat → bitgen → list Z * bitgen;
  (** [rng.choice(a, size=n, replace=True, p=p)] *)
  rng_choice : ∀ A : Type, list A → list float → nat → bitgen → list A * bitgen;
  (** [rng.pareto(a=shape, size=n)] *)
  rng_pareto : float → nat → bitgen → list float * bitgen;
  (** [rng.lognormal(mean, sigma, size=n)] *)
  rng_lognormal : float → float → nat → bitgen → list float * bitgen;
  (** [rng.beta(a, b, size=n)] *)
  rng_beta : float → float → nat → bitgen → list float * bitgen;
  (** [rng.normal(loc, scale, size=n)] *)
  rng_normal : float → float → nat → bitgen → list float * bitgen;
  (** [rng.poisson(lam, size=n)] *)
  rng_poisson : float → nat → bitgen → list Z * bitgen;
  (** [rng.random(size=n)] *)
  rng_random : nat → bitgen → list float * bitgen;
  (** [rng.choice] accepts [p]: no NaN, no negative entry, sum 1 up to
      its tolerance; it raises [ValueError] otherwise *)
  choice_accepts : list float → bool;
  (** [a.sum()] of a float array (NumPy fixes the order of the additions) *)
  np_sum : list float → float
}.
Arguments rng_choice {_ A} _ _ _ _.

(** [np.random.default_rng(seed)]: NumPy raises [ValueError] for a
    negative seed; any other integer is accepted. *)
Definition default_rng {G : Generator} (seed : Z) : result bitgen :=
  if seed <? 0 then Raise (ValueError "expected non-negative integer")
  else Ok (seed_state seed).

(** [rng.integers(low, high, size=n)] draws int64 values: NumPy raises
    [ValueError] unless [low < high], [low >= -2**63] and [high <= 2**63]. *)
Definition integers_accepts (lo hi : Z) : bool :=
  (lo <? hi) && (- int64_bound <=? lo) && (hi <=? int64_bound).

Definition bounds_msg : string :=
  "low >= high, or a bound is out of range for int64".

(** The documented contract of the sampling methods, as far as array
    sizes and value ranges go. The laws of [rng_integers] hold for the
    bounds that [rng.integers] accepts. *)
Class GeneratorLaws (G : Generator) : Prop := {
  integers_length : ∀ lo hi n g,
    integers_accepts lo hi = true → length (rng_integers lo hi n g).1 = n;
  integers_range : ∀ lo hi n g x,
    integers_accepts lo hi = true →
    In x (rng_integers lo hi n g).1 → lo <= x < hi;
  choice_length : ∀ A (a : list A) p n g,
    a ≠ [] → length (rng_choice a p n g).1 = n;
  choice_member : ∀ A (a : list A) p n g x,
    In x (rng_choice a p n g).1 → In x a;
  pareto_length : ∀ a n g, length (rng_pareto a n g).1 = n;
  lognormal_length : ∀ m s n g, length (rng_lognormal m s n g).1 = n;
  beta_length : ∀ a b n g, length (rng_beta a b n g).1 = n;
  normal_length : ∀ m s n g, length (rng_normal m s n g).1 = n;
  poisson_length : ∀ lam n g, length (rng_poisson lam n g).1 = n;
  random_length : ∀ n g, length (rng_random n g).1 = n
}.

(** ** The chunk loop shared by the six generators

    [[
    wrote_header = False
    for start in starts:
        df = <chunk>(start)            # samples from rng, may raise
        df.to_csv(output_path,
                  mode='w' if not wrote_header else 'a',
                  header=not wrote_header, index=False)
        wrote_header = True
    ]]
    The loop state is the generator state and [wrote_header]. *)
Definition chunk_step {G : Generator} {R : Type}
    (chunk : Z → bitgen → result (list R * bitgen))
    (output_path : path) (columns : list string) (cells : R → list cell)
    (start : Z) (st : bitgen * bool) : io (bitgen * bool) :=
  let '(rng, wrote_header) := st in
  let! '(df, rng) := io_lift (chunk start rng) in
  let! _ := io_effect (to_csv output_path
                         (if negb wrote_header then ModeW else ModeA)
                         (negb wrote_header) columns (map cells df)) in
  io_ret (rng, true).

Definition write_chunks {G : Generator} {R : Type}
    (chunk : Z → bitgen → result (list R * bitgen))
    (output_path : path) (columns : list string) (cells : R → list cell)
    (starts : list Z) (rng : bitgen) : io unit :=
  let! _ := for_each starts (chunk_step chunk output_path columns cells) (rng, false) in
  io_ret tt.

(** The frames of a run, one per chunk, as a function of the generator
    state alone: the chunk bodies in loop order, without the writes. *)
Fixpoint frames {G : Generator} {R : Type}
    (chunk : Z → bitgen → result (list R * bitgen))
    (starts : list Z) (rng : bitgen) : result (list (list R)) :=
  match starts with
  | [] => Ok []
  | s :: starts' =>
      rbind (chunk s rng) (fun '(df, rng') =>
        rbind (frames chunk starts' rng') (fun dfs => Ok (df :: dfs)))
  end.

(** [pd.DataFrame({...})] needs arrays of one length. *)
Definition same_length (n : nat) (lens : list nat) : bool :=
  forallb (Nat.eqb n) lens.

Definition frame_check (n : nat) (lens : list nat) : result unit :=
  if same_length n lens then Ok tt
  else Raise (ValueError "All arrays must be of the same length").

(** [((calendar.astype('datetime64[D]').astype('int64') + 4) % 7)]: the
    index into [weekday_weights] that the sales, ratings and orders
    generators compute for a day count. *)
Definition weekday_index (epoch_day : Z) : Z := (epoch_day + 4) mod 7.

(** ** 1. large_sales_data.csv *)

Module Sales.

Record config : Type := mk_config {
  folder : path;
  csv_file : string;
  num_rows : Z;
  seed : Z;
  chunk_size : Z;
  num_products : Z;
  num_customers : Z;
  num_stores : Z;
  start_date : civil;
  days : Z;
  seasonality : bool
}.

(** The keyword defaults of [create_sales_dataset]. *)
Definition defaults (folder : path) : config :=
  mk_config folder "large_sales_data.csv" 1000000 42 200000
            10000 500000 500 (mk_date 2024 1 1) 366 true.

Record row : Type := mk_row {
  transaction_id : Z;
  date : Z;
  customer_id : Z;
  store_id : Z;
  channel : string;
  region : string;
  product_id : Z;
  quantity : Z;
  unit_price : float;
  discount_rate : float;
  revenue : float
}.

Definition columns : list string :=
  ["transaction_id"; "date"; "customer_id"; "store_id"; "channel"; "region";
   "product_id"; "quantity"; "unit_price"; "discount_rate"; "revenue"].

Definition cells (r : row) : list cell :=
  [CInt (transaction_id r); CDate (date r); CInt (customer_id r);
   CInt (store_id r); CStr (channel r); CStr (region r); CInt (product_id r);
   CInt (quantity r); CFloat (unit_price r); CFloat (discount_rate r);
   CFloat (revenue r)].

(** [round(quantity * unit_price * (1 - discount_rate), 2)] from the
    values a row shows. *)
Definition recomputed_revenue (r : row) : float :=
  F.round2 (PrimFloat.mul (PrimFloat.mul (F.of_Z (quantity r)) (unit_price r))
                          (PrimFloat.sub 1 (discount_rate r))).

(** The same call with another [chunk_size]. *)
Definition with_chunk_size (cfg : config) (b : Z) : config :=
  mk_config (folder cfg) (csv_file cfg) (num_rows cfg) (seed cfg) b
            (num_products cfg) (num_customers cfg) (num_stores cfg)
            (start_date cfg) (days cfg) (seasonality cfg).

Definition regions : list string :=
  ["North"; "NorthEast"; "NorthWest"; "South"; "SouthEast"; "SouthWest"; "East"; "West"].
Definition region_prob : list float :=
  [0.18; 0.08; 0.07; 0.18; 0.08; 0.07; 0.17; 0.17]%float.

Definition channels : list string := ["online"; "store"; "marketplace"].
Definition channel_prob : list float := [0.55; 0.35; 0.10]%float.

(** Weekday weights (Mon..Sun). Sales commonly rise on Fri-Sun. *)
Definition weekday_weights : list float :=
  [0.95; 0.95; 1.00; 1.02; 1.08; 1.15; 1.12]%float.

(** Month weights (Jan..Dec). Slight lift in Nov/Dec. *)
Definition month_weights : list float :=
  [1.00; 0.98; 1.00; 1.01; 1.02; 1.03; 1.02; 1.02; 1.03; 1.05; 1.12; 1.15]%float.

(** The weight of one calendar day when seasonality is on:
    [weekday_weights[weekday] * month_weights[month - 1]]. *)
Definition day_weight (epoch_day : Z) : float :=
  PrimFloat.mul (table_at weekday_weights (weekday_index epoch_day))
                (table_at month_weights (month_of_day epoch_day - 1)).

(** [chunk_rows = min(chunk_size, num_rows - start_txn_id + 1)] *)
Definition chunk_rows (cfg : config) (start_txn_id : Z) : Z :=
  Z.min (chunk_size cfg) (num_rows cfg - start_txn_id + 1).

(** [range(1, num_rows + 1, chunk_size)] *)
Definition starts (cfg : config) : list Z :=
  py_range 1 (num_rows cfg + 1) (chunk_size cfg).

(** [pd.DataFrame({...})] of one chunk. *)
Definition frame (transaction_id date customer_id store_id : list Z)
    (channel region : list string) (product_id quantity : list Z)
    (unit_price discount_rate revenue : list float) : result (list row) :=
  let n := length transaction_id in
  rbind (frame_check n
           [length date; length customer_id; length store_id; length channel;
            length region; length product_id; length quantity;
            length unit_price; length discount_rate; length revenue])
    (fun _ =>
       Ok (map (fun i : nat =>
                  mk_row (nth i transaction_id 0) (nth i date 0)
                         (nth i customer_id 0) (nth i store_id 0)
                         (nth i channel "") (nth i region "")
                         (nth i product_id 0) (nth i quantity 0)
                         (nth i unit_price PrimFloat.nan)
                         (nth i discount_rate PrimFloat.nan)
                         (nth i revenue PrimFloat.nan))
               (seq 0 n))).

Section WithGenerator.
Context {G : Generator}.

(** What is computed once, before the chunk loop. *)
Record tables : Type := mk_tables {
  product_ids : list Z;
  product_prob : list float;
  product_unit_price : list float;
  start_date_np : Z;
  day_index : list Z;
  date_prob : option (list float)
}.

Definition prepare (cfg : config) (rng : bitgen) : result (tables * bitgen) :=
  (* 1) product popularity: long-tail distribution *)
  let product_ids := arange 1 (num_products cfg + 1) in
  let '(popularity, rng) := rng_pareto 1.25 (Z.to_nat (num_products cfg)) rng in
  let popularity := map (fun x => PrimFloat.add x 1.0) popularity in
  let product_prob := fscale popularity (np_sum popularity) in
  (* 2) product price table: stable price per product *)
  let '(product_unit_price, rng) :=
    rng_lognormal 3.5 0.7 (Z.to_nat (num_products cfg)) rng in
  let product_unit_price :=
    map (fun x => F.round2 (F.clip x 5 500)) product_unit_price in
  (* 4) dates *)
  rbind (np_datetime64 (start_date cfg)) (fun start_date_np =>
  let day_index := arange 0 (days cfg) in
  let calendar := map (fun i => start_date_np + i) day_index in
  let date_prob :=
    if seasonality cfg then
      let weights := map day_weight calendar in
      Some (fscale weights (np_sum weights))
    else None in
  Ok (mk_tables product_ids product_prob product_unit_price
                start_date_np day_index date_prob, rng)).

(** The body of the chunk loop up to the frame. *)
Definition chunk (cfg : config) (t : tables) (start_txn_id : Z) (rng : bitgen)
    : result (list row * bitgen) :=
  let chunk_rows := chunk_rows cfg start_txn_id in
  let n := Z.to_nat chunk_rows in
  let transaction_id := arange start_txn_id (start_txn_id + chunk_rows) in
  if negb (match date_prob t with
           | None => integers_accepts 0 (days cfg)
           | Some _ => true
           end) then Raise (ValueError bounds_msg) else
  let '(day_offsets, rng) :=
    match date_prob t with
    | None => rng_integers 0 (days cfg) n rng
    | Some p => rng_choice (day_index t) p n rng
    end in
  let date := map (fun o => start_date_np t + o) day_offsets in
  let '(product_id, rng) := rng_choice (product_ids t) (product_prob t) n rng in
  if negb (integers_accepts 1 (num_customers cfg + 1))
  then Raise (ValueError bounds_msg) else
  let '(customer_id, rng) := rng_integers 1 (num_customers cfg + 1) n rng in
  if negb (integers_accepts 1 (num_stores cfg + 1))
  then Raise (ValueError bounds_msg) else
  let '(store_id, rng) := rng_integers 1 (num_stores cfg + 1) n rng in
  let '(region, rng) := rng_choice regions region_prob n rng in
  let '(channel, rng) := rng_choice channels channel_prob n rng in
  let '(quantity, rng) := rng_integers 1 6 n rng in
  rbind (np_take (product_unit_price t) (map (fun p => p - 1) product_id))
    (fun unit_price =>
  let '(discount_rate, rng) := rng_beta 2.0 20.0 n rng in
  let discount_rate := map (fun d => F.clip d 0 0.60) discount_rate in
  let revenue :=
    map F.round2
        (fmul (fmul (map F.of_Z quantity) unit_price)
              (map (fun d => PrimFloat.sub 1.0 d) discount_rate)) in
  rbind (frame transaction_id date customer_id store_id channel region
               product_id quantity unit_price
               (map F.round4 discount_rate) revenue)
    (fun df => Ok (df, rng))).

Definition create_sales_dataset (cfg : config) : io path :=
  let! _ := io_effect (mkdir_parents (folder cfg)) in
  let output_path := (folder cfg ++ [csv_file cfg])%list in
  let! _ := check (num_rows cfg <=? 0) "num_rows must be > 0" in
  let! _ := check (chunk_size cfg <=? 0) "chunk_size must be > 0" in
  let! _ := check ((num_products cfg <=? 0) || (num_customers cfg <=? 0)
                   || (num_stores cfg <=? 0))
                  "num_products/num_customers/num_stores must be > 0" in
  let! _ := check (days cfg <=? 0) "days must be > 0" in
  let! rng := io_lift (default_rng (seed cfg)) in
  let! '(t, rng) := io_lift (prepare cfg rng) in
  let! _ := write_chunks (chunk cfg t) output_path columns cells (starts cfg) rng in
  io_ret output_path.

(** The frames of a run, chunk by chunk, as a function of the
    configuration alone. *)
Definition chunks (cfg : config) : result (list (list row)) :=
  rbind (default_rng (seed cfg)) (fun rng =>
  rbind (prepare cfg rng) (fun '(t, rng) =>
    frames (chunk cfg t) (starts cfg) rng)).

(** The rows of a run. *)
Definition table (cfg : config) : result (list row) :=
  rbind (chunks cfg) (fun dfs => Ok (concat dfs)).

End WithGenerator.
End Sales.

(** ** 2. customers.csv *)

Module Customers.

Record config : Type := mk_config {
  folder : path;
  csv_file : string;
  num_rows : Z;
  seed : Z;
  chunk_size : Z;
  start_customer_id : Z;
  start_date : civil;
  days : Z
}.

Definition defaults (folder : path) : config :=
  mk_config folder "customers.csv" 500000 42 200000 1 (mk_date 2019 1 1) (6 * 365).

Record row : Type := mk_row {
  customer_id : Z;
  age : Z;
  purchase_amount : float;
  first_name : string;
  last_name : string;
  email : string;
  phone : string;
  address : string;
  city : string;
  state : string;
  zip_code : string;
  signup_date : Z;
  loyalty_tier : string
}.

Definition columns : list string :=
  ["customer_id"; "age"; "purchase_amount"; "first_name"; "last_name"; "email";
   "phone"; "address"; "city"; "state"; "zip_code"; "signup_date"; "loyalty_tier"].

Definition cells (r : row) : list cell :=
  [CInt (customer_id r); CInt (age r); CFloat (purchase_amount r);
   CStr (first_name r); CStr (last_name r); CStr (email r); CStr (phone r);
   CStr (address r); CStr (city r); CStr (state r); CStr (zip_code r);
   CDate (signup_date r); CStr (loyalty_tier r)].

Definition cities : list string := ["New York"; "Los Angeles"; "Chicago"; "Houston"].
Definition city_prob : list float := [0.35; 0.25; 0.20; 0.20]%float.

Definition state_by_city : gmap string string :=
  list_to_map [("New York", "NY"); ("Los Angeles", "CA");
               ("Chicago", "IL"); ("Houston", "TX")].

(** [state_by_city[c]] *)
Definition state_of (c : string) : result string :=
  match state_by_city !! c with
  | Some s => Ok s
  | None => Raise (KeyError c)
  end.

Definition tiers : list string := ["bronze"; "silver"; "gold"; "platinum"].
Definition tier_prob : list float := [0.55; 0.28; 0.14; 0.03]%float.

(** [chunk_rows = min(chunk_size, num_rows - chunk_start)] *)
Definition chunk_rows (cfg : config) (chunk_start : Z) : Z :=
  Z.min (chunk_size cfg) (num_rows cfg - chunk_start).

(** [range(0, num_rows, chunk_size)] *)
Definition starts (cfg : config) : list Z :=
  py_range 0 (num_rows cfg) (chunk_size cfg).

Definition frame (customer_id age : list Z) (purchase_amount : list float)
    (first_name last_name email phone address city state zip_code : list string)
    (signup_date : list Z) (loyalty_tier : list string) : result (list row) :=
  let n := length customer_id in
  rbind (frame_check n
           [length age; length purchase_amount; length first_name;
            length last_name; length email; length phone; length address;
            length city; length state; length zip_code; length signup_date;
            length loyalty_tier])
    (fun _ =>
       Ok (map (fun i : nat =>
                  mk_row (nth i customer_id 0) (nth i age 0)
                         (nth i purchase_amount PrimFloat.nan)
                         (nth i first_name "") (nth i last_name "")
                         (nth i email "") (nth i phone "") (nth i address "")
                         (nth i city "") (nth i state "") (nth i zip_code "")
                         (nth i signup_date 0) (nth i loyalty_tier ""))
               (seq 0 n))).

Section WithGenerator.
Context {G : Generator}.

Definition chunk (cfg : config) (start_date_np : Z) (chunk_start : Z) (rng : bitgen)
    : result (list row * bitgen) :=
  let chunk_rows := chunk_rows cfg chunk_start in
  let n := Z.to_nat chunk_rows in
  if negb (arange_int64 (start_customer_id cfg + chunk_start)
                        (start_customer_id cfg + chunk_start + chunk_rows))
  then Raise (OutsideModel "np.arange beyond int64") else
  let customer_id :=
    arange (start_customer_id cfg + chunk_start)
           (start_customer_id cfg + chunk_start + chunk_rows) in
  (* ages *)
  let '(age, rng) := rng_normal 41 14 n rng in
  let age := map (fun x => clipZ (F.to_Z (F.rint x)) 18 80) age in
  (* purchase amount: right-skewed *)
  let '(purchase_amount, rng) := rng_lognormal 4.1 0.75 n rng in
  let purchase_amount := map (fun x => F.round2 (F.clip x 5 500)) purchase_amount in
  (* signup date *)
  if negb (integers_accepts 0 (days cfg))
  then Raise (ValueError bounds_msg) else
  let '(signup_day_offsets, rng) := rng_integers 0 (days cfg) n rng in
  let signup_date := map (fun o => start_date_np + o) signup_day_offsets in
  let '(city, rng) := rng_choice cities city_prob n rng in
  rbind (rmap state_of city) (fun state =>
  let customer_id_str := map str customer_id in
  let first_name := map (fun s => "User" ++ s) customer_id_str in
  let last_name := map (fun s => "Lastname" ++ s) customer_id_str in
  let email := map (fun s => ("user" ++ s) ++ "@example.com") customer_id_str in
  let '(phone_suffix, rng) := rng_integers 0 10000 n rng in
  let phone := map (fun z => "555-" ++ zfill (str z) 4) phone_suffix in
  let '(street_num, rng) := rng_integers 1 10000 n rng in
  let address := map (fun z => (str z ++ " Main St") ++ "") street_num in
  let '(zip_int, rng) := rng_integers 10000 100000 n rng in
  let zip_code := map (fun z => zfill (str z) 5) zip_int in
  let '(loyalty_tier, rng) := rng_choice tiers tier_prob n rng in
  rbind (frame customer_id age purchase_amount first_name last_name email
               phone address city state zip_code signup_date loyalty_tier)
    (fun df => Ok (df, rng))).

Definition create_customers_dataset (cfg : config) : io path :=
  let! _ := io_effect (mkdir_parents (folder cfg)) in
  let output_path := (folder cfg ++ [csv_file cfg])%list in
  let! _ := check (num_rows cfg <=? 0) "num_rows must be > 0" in
  let! _ := check (chunk_size cfg <=? 0) "chunk_size must be > 0" in
  let! _ := check (start_customer_id cfg <=? 0) "start_customer_id must be > 0" in
  let! _ := check (days cfg <=? 0) "days must be > 0" in
  let! rng := io_lift (default_rng (seed cfg)) in
  let! start_date_np := io_lift (np_datetime64 (start_date cfg)) in
  let! _ := write_chunks (chunk cfg start_date_np) output_path columns cells
                         (starts cfg) rng in
  io_ret output_path.

Definition chunks (cfg : config) : result (list (list row)) :=
  rbind (default_rng (seed cfg)) (fun rng =>
  rbind (np_datetime64 (start_date cfg)) (fun start_date_np =>
    frames (chunk cfg start_date_np) (starts cfg) rng)).

Definition table (cfg : config) : result (list row) :=
  rbind (chunks cfg) (fun dfs => Ok (concat dfs)).

End WithGenerator.
End Customers.

(** ** 3. ratings.csv *)

Module Ratings.

Record config : Type := mk_config {
  folder : path;
  csv_file : string;
  num_rows : Z;
  seed : Z;
  chunk_size : Z;
  num_users : Z;
  num_products : Z;
  start_date : civil;
  days : Z;
  seasonality : bool
}.

Definition defaults (folder : path) : config :=
  mk_config folder "ratings.csv" 2000000 42 250000 500000 10000
            (mk_date 2024 1 1) 366 true.

Record row : Type := mk_row {
  user_id : Z;
  product_id : Z;
  rating : Z;
  timestamp : Z
}.

Definition columns : list string := ["user_id"; "product_id"; "rating"; "timestamp"].

Definition cells (r : row) : list cell :=
  [CInt (user_id r); CInt (product_id r); CInt (rating r); CTimestamp (timestamp r)].

(** Simple weekday lift to mimic higher engagement on weekends. *)
Definition weekday_weights : list float :=
  [1.00; 1.00; 1.00; 1.02; 1.05; 1.10; 1.08]%float.

Definition day_weight (epoch_day : Z) : float :=
  table_at weekday_weights (weekday_index epoch_day).

Definition rating_values : list Z := [1; 2; 3; 4; 5].
Definition rating_prob : list float := [0.05; 0.08; 0.17; 0.35; 0.35]%float.

(** [chunk_rows = min(chunk_size, num_rows - row_start)] *)
Definition chunk_rows (cfg : config) (row_start : Z) : Z :=
  Z.min (chunk_size cfg) (num_rows cfg - row_start).

(** [range(0, num_rows, chunk_size)] *)
Definition starts (cfg : config) : list Z :=
  py_range 0 (num_rows cfg) (chunk_size cfg).

Definition frame (user_id product_id rating timestamp : list Z) : result (list row) :=
  let n := length user_id in
  rbind (frame_check n [length product_id; length rating; length timestamp])
    (fun _ =>
       Ok (map (fun i : nat =>
                  mk_row (nth i user_id 0) (nth i product_id 0)
                         (nth i rating 0) (nth i timestamp 0))
               (seq 0 n))).

Section WithGenerator.
Context {G : Generator}.

Record tables : Type := mk_tables {
  start_ts : Z;
  day_index : list Z;
  date_prob : option (list float)
}.

Definition prepare (cfg : config) : result tables :=
  (* np.datetime64(f"{start_date}T00:00:00"), in seconds *)
  rbind (np_datetime64 (start_date cfg)) (fun start_day =>
  let start_ts := start_day * 86400 in
  let day_index := arange 0 (days cfg) in
  rbind
    (if seasonality cfg then
       rbind (np_datetime64 (start_date cfg)) (fun start_date_np =>
       let calendar := map (fun i => start_date_np + i) day_index in
       let weights := map day_weight calendar in
       Ok (Some (fscale weights (np_sum weights))))
     else Ok None)
    (fun date_prob => Ok (mk_tables start_ts day_index date_prob))).

Definition chunk (cfg : config) (t : tables) (row_start : Z) (rng : bitgen)
    : result (list row * bitgen) :=
  let chunk_rows := chunk_rows cfg row_start in
  let n := Z.to_nat chunk_rows in
  if negb (integers_accepts 1 (num_users cfg + 1))
  then Raise (ValueError bounds_msg) else
  let '(user_id, rng) := rng_integers 1 (num_users cfg + 1) n rng in
  if negb (integers_accepts 1 (num_products cfg + 1))
  then Raise (ValueError bounds_msg) else
  let '(product_id, rng) := rng_integers 1 (num_products cfg + 1) n rng in
  let '(rating, rng) := rng_choice rating_values rating_prob n rng in
  if negb (match date_prob t with
           | None => integers_accepts 0 (days cfg)
           | Some _ => true
           end) then Raise (ValueError bounds_msg) else
  let '(day_offsets, rng) :=
    match date_prob t with
    | None => rng_integers 0 (days cfg) n rng
    | Some p => rng_choice (day_index t) p n rng
    end in
  (* random time of day, in seconds *)
  let '(seconds, rng) := rng_integers 0 (24 * 60 * 60) n rng in
  let timestamp :=
    zip_with (fun d s => start_ts t + d * 86400 + s) day_offsets seconds in
  rbind (frame user_id product_id rating timestamp) (fun df => Ok (df, rng)).

Definition create_ratings_dataset (cfg : config) : io path :=
  let! _ := io_effect (mkdir_parents (folder cfg)) in
  let output_path := (folder cfg ++ [csv_file cfg])%list in
  let! _ := check (num_rows cfg <=? 0) "num_rows must be > 0" in
  let! _ := check (chunk_size cfg <=? 0) "chunk_size must be > 0" in
  let! _ := check ((num_users cfg <=? 0) || (num_products cfg <=? 0))
                  "num_users/num_products must be > 0" in
  let! _ := check (days cfg <=? 0) "days must be > 0" in
  let! rng := io_lift (default_rng (seed cfg)) in
  let! t := io_lift (prepare cfg) in
  let! _ := write_chunks (chunk cfg t) output_path columns cells (starts cfg) rng in
  io_ret output_path.

Definition chunks (cfg : config) : result (list (list row)) :=
  rbind (default_rng (seed cfg)) (fun rng =>
  rbind (prepare cfg) (fun t =>
    frames (chunk cfg t) (starts cfg) rng)).

Definition table (cfg : config) : result (list row) :=
  rbind (chunks cfg) (fun dfs => Ok (concat dfs)).

End WithGenerator.
End Ratings.

(** ** 4. products.csv *)

Module Products.

Record config : Type := mk_config {
  folder : path;
  csv_file : string;
  num_rows : Z;
  seed : Z;
  chunk_size : Z
}.

Definition defaults (folder : path) : config :=
  mk_config folder "products.csv" 5000000 42 500000.

Record row : Type := mk_row {
  product_id : Z;
  category : string;
  price : float;
  stock : Z;
  brand : string;
  is_active : Z
}.

Definition columns : list string :=
  ["product_id"; "category"; "price"; "stock"; "brand"; "is_active"].

Definition cells (r : row) : list cell :=
  [CInt (product_id r); CStr (category r); CFloat (price r); CInt (stock r);
   CStr (brand r); CInt (is_active r)].

Definition categories : list string :=
  ["Electronics"; "Clothing"; "Home & Garden"; "Sports"; "Books";
   "Toys"; "Food"; "Beauty"; "Automotive"; "Health";
   "Office"; "Pet Supplies"; "Baby"; "Jewelry"; "Tools";
   "Music"; "Movies"; "Games"; "Crafts"; "Outdoor"].

Definition category_weights : list float :=
  [0.12; 0.10; 0.08; 0.06; 0.05;
   0.05; 0.06; 0.05; 0.04; 0.05;
   0.04; 0.04; 0.03; 0.03; 0.04;
   0.04; 0.03; 0.04; 0.03; 0.07]%float.

Definition brands : list string :=
  ["Acme"; "Contoso"; "Globex"; "Umbrella"; "Initech"; "Soylent"; "Stark"; "Wayne"].
Definition brand_prob : list float :=
  [0.22; 0.18; 0.14; 0.10; 0.10; 0.08; 0.10; 0.08]%float.

(** [chunk_rows = min(chunk_size, num_rows - chunk_start)] *)
Definition chunk_rows (cfg : config) (chunk_start : Z) : Z :=
  Z.min (chunk_size cfg) (num_rows cfg - chunk_start).

(** [range(0, num_rows, chunk_size)] *)
Definition starts (cfg : config) : list Z :=
  py_range 0 (num_rows cfg) (chunk_size cfg).

Definition frame (product_id : list Z) (category : list string) (price : list float)
    (stock : list Z) (brand : list string) (is_active : list Z) : result (list row) :=
  let n := length product_id in
  rbind (frame_check n
           [length category; length price; length stock; length brand;
            length is_active])
    (fun _ =>
       Ok (map (fun i : nat =>
                  mk_row (nth i product_id 0) (nth i category "")
                         (nth i price PrimFloat.nan) (nth i stock 0)
                         (nth i brand "") (nth i is_active 0))
               (seq 0 n))).

Section WithGenerator.
Context {G : Generator}.

(** [category_prob = category_prob / category_prob.sum()] *)
Definition category_prob : list float :=
  fscale category_weights (np_sum category_weights).

Definition chunk (cfg : config) (chunk_start : Z) (rng : bitgen)
    : result (list row * bitgen) :=
  let chunk_rows := chunk_rows cfg chunk_start in
  let n := Z.to_nat chunk_rows in
  let product_id := arange (1 + chunk_start) (1 + chunk_start + chunk_rows) in
  let '(category, rng) := rng_choice categories category_prob n rng in
  let '(brand, rng) := rng_choice brands brand_prob n rng in
  (* price: right-skewed, clipped *)
  let '(price, rng) := rng_lognormal 3.6 0.75 n rng in
  let price := map (fun x => F.round2 (F.clip x 5 500)) price in
  (* stock *)
  let '(stock, rng) := rng_poisson 50 n rng in
  let stock := map (fun z => clipZ z 0 1000) stock in
  let '(u, rng) := rng_random n rng in
  let is_active := map (fun x => if PrimFloat.ltb x 0.96 then 1 else 0) u in
  rbind (frame product_id category price stock brand is_active)
    (fun df => Ok (df, rng)).

Definition create_products_dataset (cfg : config) : io path :=
  let! _ := io_effect (mkdir_parents (folder cfg)) in
  let output_path := (folder cfg ++ [csv_file cfg])%list in
  let! _ := check (num_rows cfg <=? 0) "num_rows must be > 0" in
  let! _ := check (chunk_size cfg <=? 0) "chunk_size must be > 0" in
  let! rng := io_lift (default_rng (seed cfg)) in
  let! _ := write_chunks (chunk cfg) output_path columns cells (starts cfg) rng in
  io_ret output_path.

Definition chunks (cfg : config) : result (list (list row)) :=
  rbind (default_rng (seed cfg)) (fun rng =>
    frames (chunk cfg) (starts cfg) rng).

Definition table (cfg : config) : result (list row) :=
  rbind (chunks cfg) (fun dfs => Ok (concat dfs)).

End WithGenerator.
End Products.

(** ** 5. transactions.csv *)

(** [arr[mask] = values]: the values go, in order, to the positions where
    the mask is set; NumPy raises when their number differs from the
    number of set positions. *)
Fixpoint mask_fill {A : Type} (mask : list bool) (values arr : list A) : list A :=
  match mask, arr with
  | true :: mask', _ :: arr' =>
      match values with
      | v :: values' => v :: mask_fill mask' values' arr'
      | [] => arr
      end
  | false :: mask', a :: arr' => a :: mask_fill mask' values arr'
  | _, _ => arr
  end.

Definition mask_count (mask : list bool) : nat := length (List.filter id mask).

Definition mask_assign {A : Type} (mask : list bool) (values arr : list A)
    : result (list A) :=
  if Nat.eqb (length values) (mask_count mask) then Ok (mask_fill mask values arr)
  else Raise (ValueError "NumPy boolean array indexing assignment cannot assign").

Module Transactions.

Record config : Type := mk_config {
  folder : path;
  csv_file : string;
  num_rows : Z;
  seed : Z;
  chunk_size : Z;
  num_customers : Z;
  num_products : Z;
  year_prob : list float
}.

Definition defaults (folder : path) : config :=
  mk_config folder "transactions.csv" 3000000 42 250000 500000 10000
            [0.3; 0.3; 0.4]%float.

Record row : Type := mk_row {
  transaction_id : Z;
  year : Z;
  customer_id : Z;
  amount : float;
  product_id : Z;
  transaction_date : Z;
  payment_method : string
}.

Definition columns : list string :=
  ["transaction_id"; "year"; "customer_id"; "amount"; "product_id";
   "transaction_date"; "payment_method"].

Definition cells (r : row) : list cell :=
  [CInt (transaction_id r); CInt (year r); CInt (customer_id r);
   CFloat (amount r); CInt (product_id r); CDate (transaction_date r);
   CStr (payment_method r)].

Definition years : list Z := [2022; 2023; 2024].

Definition payment_methods : list string := ["card"; "cash"; "paypal"; "bank_transfer"].
Definition payment_prob : list float := [0.62; 0.12; 0.18; 0.08]%float.

(** [year_start] and [year_days], keyed by the three years. *)
Definition year_start (y : Z) : Z :=
  days_from_civil (mk_date y 1 1).
Definition year_days (y : Z) : Z :=
  if y =? 2024 then 366 else 365.

(** [chunk_rows = min(chunk_size, num_rows - chunk_start)] *)
Definition chunk_rows (cfg : config) (chunk_start : Z) : Z :=
  Z.min (chunk_size cfg) (num_rows cfg - chunk_start).

(** [range(0, num_rows, chunk_size)] *)
Definition starts (cfg : config) : list Z :=
  py_range 0 (num_rows cfg) (chunk_size cfg).

Definition frame (transaction_id year customer_id : list Z) (amount : list float)
    (product_id transaction_date : list Z) (payment_method : list string)
    : result (list row) :=
  let n := length transaction_id in
  rbind (frame_check n
           [length year; length customer_id; length amount; length product_id;
            length transaction_date; length payment_method])
    (fun _ =>
       Ok (map (fun i : nat =>
                  mk_row (nth i transaction_id 0) (nth i year 0)
                         (nth i customer_id 0) (nth i amount PrimFloat.nan)
                         (nth i product_id 0) (nth i transaction_date 0)
                         (nth i payment_method ""))
               (seq 0 n))).

Section WithGenerator.
Context {G : Generator}.

(** [year_prob_arr = np.array(year_prob, dtype=float); year_prob_arr /= sum] *)
Definition year_prob_arr (cfg : config) : list float :=
  fscale (year_prob cfg) (np_sum (year_prob cfg)).

(** One pass of [for y in (2022, 2023, 2024)]: dates for the rows of year [y]. *)
Definition fill_year (year : list Z) (y : Z) (st : list Z * bitgen)
    : result (list Z * bitgen) :=
  let '(transaction_date, rng) := st in
  let mask := map (fun v => v =? y) year in
  if existsb id mask then
    let '(offsets, rng) := rng_integers 0 (year_days y) (mask_count mask) rng in
    rbind (mask_assign mask (map (fun o => year_start y + o) offsets) transaction_date)
      (fun transaction_date => Ok (transaction_date, rng))
  else Ok (transaction_date, rng).

Definition chunk (cfg : config) (chunk_start : Z) (rng : bitgen)
    : result (list row * bitgen) :=
  let chunk_rows := chunk_rows cfg chunk_start in
  let n := Z.to_nat chunk_rows in
  let transaction_id := arange (1 + chunk_start) (1 + chunk_start + chunk_rows) in
  if negb (choice_accepts (year_prob_arr cfg)) then
    Raise (ValueError "probabilities are not non-negative or do not sum to 1")
  else
  let '(year, rng) := rng_choice years (year_prob_arr cfg) n rng in
  if negb (integers_accepts 1 (num_customers cfg + 1))
  then Raise (ValueError bounds_msg) else
  let '(customer_id, rng) := rng_integers 1 (num_customers cfg + 1) n rng in
  if negb (integers_accepts 1 (num_products cfg + 1))
  then Raise (ValueError bounds_msg) else
  let '(product_id, rng) := rng_integers 1 (num_products cfg + 1) n rng in
  (* amount: right-skewed, clipped *)
  let '(amount, rng) := rng_lognormal 4.2 0.8 n rng in
  let amount := map (fun x => F.round2 (F.clip x 10 1000)) amount in
  (* date consistent with the selected year; np.empty is filled below *)
  let transaction_date := repeat 0 n in
  rbind (fill_year year 2022 (transaction_date, rng)) (fun st =>
  rbind (fill_year year 2023 st) (fun st =>
  rbind (fill_year year 2024 st) (fun '(transaction_date, rng) =>
  let '(payment_method, rng) := rng_choice payment_methods payment_prob n rng in
  rbind (frame transaction_id year customer_id amount product_id
               transaction_date payment_method)
    (fun df => Ok (df, rng))))).

Definition create_transactions_dataset (cfg : config) : io path :=
  let! _ := io_effect (mkdir_parents (folder cfg)) in
  let output_path := (folder cfg ++ [csv_file cfg])%list in
  let! _ := check (num_rows cfg <=? 0) "num_rows must be > 0" in
  let! _ := check (chunk_size cfg <=? 0) "chunk_size must be > 0" in
  let! _ := check ((num_customers cfg <=? 0) || (num_products cfg <=? 0))
                  "num_customers/num_products must be > 0" in
  let! _ := check (negb (Nat.eqb (length (year_prob cfg)) 3))
                  "year_prob must have 3 elements for years 2022/2023/2024" in
  let! rng := io_lift (default_rng (seed cfg)) in
  let! _ := write_chunks (chunk cfg) output_path columns cells (starts cfg) rng in
  io_ret output_path.

Definition chunks (cfg : config) : result (list (list row)) :=
  if negb (Nat.eqb (length (year_prob cfg)) 3) then
    Raise (ValueError "year_prob must have 3 elements for years 2022/2023/2024")
  else rbind (default_rng (seed cfg)) (fun rng =>
         frames (chunk cfg) (starts cfg) rng).

Definition table (cfg : config) : result (list row) :=
  rbind (chunks cfg) (fun dfs => Ok (concat dfs)).

End WithGenerator.
End Transactions.

(** ** 6. orders.csv *)

Module Orders.

Record config : Type := mk_config {
  folder : path;
  csv_file : string;
  num_rows : Z;
  seed : Z;
  chunk_size : Z;
  num_products : Z;
  num_customers : Z;
  num_stores : Z;
  start_date : civil;
  days : Z;
  seasonality : bool
}.

Definition defaults (folder : path) : config :=
  mk_config folder "orders.csv" 2500000 42 250000 10000 500000 500
            (mk_date 2024 1 1) 366 true.

Record row : Type := mk_row {
  order_id : Z;
  product_id : Z;
  quantity : Z;
  price : float;
  customer_id : Z;
  order_date : Z;
  store_id : Z;
  channel : string;
  status : string
}.

Definition columns : list string :=
  ["order_id"; "product_id"; "quantity"; "price"; "customer_id"; "order_date";
   "store_id"; "channel"; "status"].

Definition cells (r : row) : list cell :=
  [CInt (order_id r); CInt (product_id r); CInt (quantity r); CFloat (price r);
   CInt (customer_id r); CDate (order_date r); CInt (store_id r);
   CStr (channel r); CStr (status r)].

Definition channels : list string := ["online"; "store"; "marketplace"].
Definition channel_prob : list float := [0.55; 0.35; 0.10]%float.

Definition statuses : list string :=
  ["paid"; "shipped"; "delivered"; "returned"; "cancelled"].
Definition status_prob : list float := [0.18; 0.20; 0.55; 0.04; 0.03]%float.

Definition weekday_weights : list float :=
  [0.95; 0.95; 1.00; 1.02; 1.08; 1.15; 1.12]%float.

Definition day_weight (epoch_day : Z) : float :=
  table_at weekday_weights (weekday_index epoch_day).

(** [chunk_rows = min(chunk_size, num_rows - chunk_start)] *)
Definition chunk_rows (cfg : config) (chunk_start : Z) : Z :=
  Z.min (chunk_size cfg) (num_rows cfg - chunk_start).

(** [range(0, num_rows, chunk_size)] *)
Definition starts (cfg : config) : list Z :=
  py_range 0 (num_rows cfg) (chunk_size cfg).

Definition frame (order_id product_id quantity : list Z) (price : list float)
    (customer_id order_date store_id : list Z) (channel status : list string)
    : result (list row) :=
  let n := length order_id in
  rbind (frame_check n
           [length product_id; length quantity; length price; length customer_id;
            length order_date; length store_id; length channel; length status])
    (fun _ =>
       Ok (map (fun i : nat =>
                  mk_row (nth i order_id 0) (nth i product_id 0)
                         (nth i quantity 0) (nth i price PrimFloat.nan)
                         (nth i customer_id 0) (nth i order_date 0)
                         (nth i store_id 0) (nth i channel "") (nth i status ""))
               (seq 0 n))).

Section WithGenerator.
Context {G : Generator}.

Record tables : Type := mk_tables {
  product_ids : list Z;
  product_prob : list float;
  product_unit_price : list float;
  start_date_np : Z;
  day_index : list Z;
  date_prob : option (list float)
}.

Definition prepare (cfg : config) (rng : bitgen) : result (tables * bitgen) :=
  let product_ids := arange 1 (num_products cfg + 1) in
  let '(popularity, rng) := rng_pareto 1.35 (Z.to_nat (num_products cfg)) rng in
  let popularity := map (fun x => PrimFloat.add x 1.0) popularity in
  let product_prob := fscale popularity (np_sum popularity) in
  let '(product_unit_price, rng) :=
    rng_lognormal 3.5 0.7 (Z.to_nat (num_products cfg)) rng in
  let product_unit_price :=
    map (fun x => F.round2 (F.clip x 10 500)) product_unit_price in
  rbind (np_datetime64 (start_date cfg)) (fun start_date_np =>
  let day_index := arange 0 (days cfg) in
  let calendar := map (fun i => start_date_np + i) day_index in
  let date_prob :=
    if seasonality cfg then
      let weights := map day_weight calendar in
      Some (fscale weights (np_sum weights))
    else None in
  Ok (mk_tables product_ids product_prob product_unit_price
                start_date_np day_index date_prob, rng)).

Definition chunk (cfg : config) (t : tables) (chunk_start : Z) (rng : bitgen)
    : result (list row * bitgen) :=
  let chunk_rows := chunk_rows cfg chunk_start in
  let n := Z.to_nat chunk_rows in
  let order_id := arange (1 + chunk_start) (1 + chunk_start + chunk_rows) in
  let '(product_id, rng) := rng_choice (product_ids t) (product_prob t) n rng in
  let '(quantity, rng) := rng_integers 1 10 n rng in
  rbind (np_take (product_unit_price t) (map (fun p => p - 1) product_id))
    (fun unit_price =>
  let price := map F.round2 (fmul unit_price (map F.of_Z quantity)) in
  if negb (integers_accepts 1 (num_customers cfg + 1))
  then Raise (ValueError bounds_msg) else
  let '(customer_id, rng) := rng_integers 1 (num_customers cfg + 1) n rng in
  if negb (integers_accepts 1 (num_stores cfg + 1))
  then Raise (ValueError bounds_msg) else
  let '(store_id, rng) := rng_integers 1 (num_stores cfg + 1) n rng in
  let '(channel, rng) := rng_choice channels channel_prob n rng in
  let '(status, rng) := rng_choice statuses status_prob n rng in
  if negb (match date_prob t with
           | None => integers_accepts 0 (days cfg)
           | Some _ => true
           end) then Raise (ValueError bounds_msg) else
  let '(day_offsets, rng) :=
    match date_prob t with
    | None => rng_integers 0 (days cfg) n rng
    | Some p => rng_choice (day_index t) p n rng
    end in
  let order_date := map (fun o => start_date_np t + o) day_offsets in
  rbind (frame order_id product_id quantity price customer_id order_date
               store_id channel status)
    (fun df => Ok (df, rng))).

Definition create_orders_dataset (cfg : config) : io path :=
  let! _ := io_effect (mkdir_parents (folder cfg)) in
  let output_path := (folder cfg ++ [csv_file cfg])%list in
  let! _ := check (num_rows cfg <=? 0) "num_rows must be > 0" in
  let! _ := check (chunk_size cfg <=? 0) "chunk_size must be > 0" in
  let! _ := check ((num_products cfg <=? 0) || (num_customers cfg <=? 0)
                   || (num_stores cfg <=? 0))
                  "num_products/num_customers/num_stores must be > 0" in
  let! _ := check (days cfg <=? 0) "days must be > 0" in
  let! rng := io_lift (default_rng (seed cfg)) in
  let! '(t, rng) := io_lift (prepare cfg rng) in
  let! _ := write_chunks (chunk cfg t) output_path columns cells (starts cfg) rng in
  io_ret output_path.

(** The frames of a run, chunk by chunk, as a function of the
    configuration alone. *)
Definition chunks (cfg : config) : result (list (list row)) :=
  rbind (default_rng (seed cfg)) (fun rng =>
  rbind (prepare cfg rng) (fun '(t, rng) =>
    frames (chunk cfg t) (starts cfg) rng)).

(** The rows of a run. *)
Definition table (cfg : config) : result (list row) :=
  rbind (chunks cfg) (fun dfs => Ok (concat dfs)).

End WithGenerator.
End Orders.

(** ** A counter-stream generator

    An instance of [Generator] in which every method takes its values,
    in order, from one linear congruential sequence, the way NumPy's
    methods consume one bit stream. It fixes no distribution; it serves
    as a concrete generator on which the programs can be run. *)

Module StreamRng.

Definition next (s : Z) : Z := (s * 1103515245 + 12345) mod 2147483648.

(** [n] successive outputs and the state after them. *)
Fixpoint draws (n : nat) (s : Z) : list Z * Z :=
  match n with
  | O => ([], s)
  | S n' => let s1 := next s in
            let '(vs, s2) := draws n' s1 in
            (s1 / 65536 :: vs, s2)
  end.

Definition draw_with {A : Type} (f : Z → A) (n : nat) (s : Z) : list A * Z :=
  let '(vs, s') := draws n s in (map f vs, s').

Definition unit_float (v : Z) : float :=
  PrimFloat.div (F.of_Z (v mod 100000)) 100000.

Definition integers (lo hi : Z) (n : nat) (s : Z) : list Z * Z :=
  draw_with (fun v => lo + v mod (hi - lo)) n s.

Definition choice (A : Type) (a : list A) (p : list float) (n : nat) (s : Z)
    : list A * Z :=
  match a with
  | [] => ([], s)
  | x :: _ => draw_with (fun v => nth (Z.to_nat (v mod Z.of_nat (length a))) a x) n s
  end.

Definition fsum (xs : list float) : float := fold_left PrimFloat.add xs 0%float.

Definition accepts (p : list float) : bool :=
  forallb (fun x => PrimFloat.leb 0 x) p
  && PrimFloat.leb (PrimFloat.abs (PrimFloat.sub (fsum p) 1)) 1.5e-8.

#[export] Instance generator : Generator := {|
  bitgen := Z;
  seed_state := fun seed => seed mod 2147483648;
  rng_integers := integers;
  rng_choice := choice;
  rng_pareto := fun a => draw_with (fun v => PrimFloat.mul 10 (unit_float v));
  rng_lognormal := fun m sg => draw_with (fun v => PrimFloat.mul 600 (unit_float v));
  rng_beta := fun a b => draw_with unit_float;
  rng_normal := fun m sg =>
    draw_with (fun v => PrimFloat.add m
                 (PrimFloat.mul sg (PrimFloat.sub (PrimFloat.mul 6 (unit_float v)) 3)));
  rng_poisson := fun lam => draw_with (fun v => v mod 128);
  rng_random := draw_with unit_float;
  choice_accepts := accepts;
  np_sum := fsum
|}.

End StreamRng.

(** ** The six generator calls, uniformly *)

Inductive call : Type :=
| SalesCall (cfg : Sales.config)
| CustomersCall (cfg : Customers.config)
| RatingsCall (cfg : Ratings.config)
| ProductsCall (cfg : Products.config)
| TransactionsCall (cfg : Transactions.config)
| OrdersCall (cfg : Orders.config).

Definition folder_of (c : call) : path :=
  match c with
  | SalesCall cfg => Sales.folder cfg
  | CustomersCall cfg => Customers.folder cfg
  | RatingsCall cfg => Ratings.folder cfg
  | ProductsCall cfg => Products.folder cfg
  | TransactionsCall cfg => Transactions.folder cfg
  | OrdersCall cfg => Orders.folder cfg
  end.

Definition csv_file_of (c : call) : string :=
  match c with
  | SalesCall cfg => Sales.csv_file cfg
  | CustomersCall cfg => Customers.csv_file cfg
  | RatingsCall cfg => Ratings.csv_file cfg
  | ProductsCall cfg => Products.csv_file cfg
  | TransactionsCall cfg => Transactions.csv_file cfg
  | OrdersCall cfg => Orders.csv_file cfg
  end.

(** [output_path = folder / csv_file] *)
Definition output_path_of (c : call) : path := (folder_of c ++ [csv_file_of c])%list.

Definition num_rows_of (c : call) : Z :=
  match c with
  | SalesCall cfg => Sales.num_rows cfg
  | CustomersCall cfg => Customers.num_rows cfg
  | RatingsCall cfg => Ratings.num_rows cfg
  | ProductsCall cfg => Products.num_rows cfg
  | TransactionsCall cfg => Transactions.num_rows cfg
  | OrdersCall cfg => Orders.num_rows cfg
  end.

Definition chunk_size_of (c : call) : Z :=
  match c with
  | SalesCall cfg => Sales.chunk_size cfg
  | CustomersCall cfg => Customers.chunk_size cfg
  | RatingsCall cfg => Ratings.chunk_size cfg
  | ProductsCall cfg => Products.chunk_size cfg
  | TransactionsCall cfg => Transactions.chunk_size cfg
  | OrdersCall cfg => Orders.chunk_size cfg
  end.

(** The header of the dataset's schema. *)
Definition columns_of (c : call) : list string :=
  match c with
  | SalesCall _ => Sales.columns
  | CustomersCall _ => Customers.columns
  | RatingsCall _ => Ratings.columns
  | ProductsCall _ => Products.columns
  | TransactionsCall _ => Transactions.columns
  | OrdersCall _ => Orders.columns
  end.

(** The [chunk_rows] of the successive loop iterations. *)
Definition batch_sizes (c : call) : list Z :=
  match c with
  | SalesCall cfg => map (Sales.chunk_rows cfg) (Sales.starts cfg)
  | CustomersCall cfg => map (Customers.chunk_rows cfg) (Customers.starts cfg)
  | RatingsCall cfg => map (Ratings.chunk_rows cfg) (Ratings.starts cfg)
  | ProductsCall cfg => map (Products.chunk_rows cfg) (Products.starts cfg)
  | TransactionsCall cfg => map (Transactions.chunk_rows cfg) (Transactions.starts cfg)
  | OrdersCall cfg => map (Orders.chunk_rows cfg) (Orders.starts cfg)
  end.

(** A count argument is not positive: the condition of one of the
    generator's [raise ValueError] checks on row count, chunk size,
    domain sizes and calendar window. *)
Definition bad_counts (c : call) : bool :=
  match c with
  | SalesCall cfg =>
      (Sales.num_rows cfg <=? 0) || (Sales.chunk_size cfg <=? 0)
      || (Sales.num_products cfg <=? 0) || (Sales.num_customers cfg <=? 0)
      || (Sales.num_stores cfg <=? 0) || (Sales.days cfg <=? 0)
  | CustomersCall cfg =>
      (Customers.num_rows cfg <=? 0) || (Customers.chunk_size cfg <=? 0)
      || (Customers.start_customer_id cfg <=? 0) || (Customers.days cfg <=? 0)
  | RatingsCall cfg =>
      (Ratings.num_rows cfg <=? 0) || (Ratings.chunk_size cfg <=? 0)
      || (Ratings.num_users cfg <=? 0) || (Ratings.num_products cfg <=? 0)
      || (Ratings.days cfg <=? 0)
  | ProductsCall cfg =>
      (Products.num_rows cfg <=? 0) || (Products.chunk_size cfg <=? 0)
  | TransactionsCall cfg =>
      (Transactions.num_rows cfg <=? 0) || (Transactions.chunk_size cfg <=? 0)
      || (Transactions.num_customers cfg <=? 0)
      || (Transactions.num_products cfg <=? 0)
  | OrdersCall cfg =>
      (Orders.num_rows cfg <=? 0) || (Orders.chunk_size cfg <=? 0)
      || (Orders.num_products cfg <=? 0) || (Orders.num_customers cfg <=? 0)
      || (Orders.num_stores cfg <=? 0) || (Orders.days cfg <=? 0)
  end.

Section Calls.
Context {G : Generator}.

Definition run (c : call) : io path :=
  match c with
  | SalesCall cfg => Sales.create_sales_dataset cfg
  | CustomersCall cfg => Customers.create_customers_dataset cfg
  | RatingsCall cfg => Ratings.create_ratings_dataset cfg
  | ProductsCall cfg => Products.create_products_dataset cfg
  | TransactionsCall cfg => Transactions.create_transactions_dataset cfg
  | OrdersCall cfg => Orders.create_orders_dataset cfg
  end.

(** The frames a call emits, as cells, from the configuration alone. *)
Definition emitted_frames (c : call) : result (list (list (list cell))) :=
  match c with
  | SalesCall cfg =>
      rbind (Sales.chunks cfg) (fun dfs => Ok (map (map Sales.cells) dfs))
  | CustomersCall cfg =>
      rbind (Customers.chunks cfg) (fun dfs => Ok (map (map Customers.cells) dfs))
  | RatingsCall cfg =>
      rbind (Ratings.chunks cfg) (fun dfs => Ok (map (map Ratings.cells) dfs))
  | ProductsCall cfg =>
      rbind (Products.chunks cfg) (fun dfs => Ok (map (map Products.cells) dfs))
  | TransactionsCall cfg =>
      rbind (Transactions.chunks cfg)
            (fun dfs => Ok (map (map Transactions.cells) dfs))
  | OrdersCall cfg =>
      rbind (Orders.chunks cfg) (fun dfs => Ok (map (map Orders.cells) dfs))
  end.

(** The conditions on the start date and on the year probabilities: the
    start date is a calendar date, and the caller's [year_prob] has three
    entries that [rng.choice] accepts once normalised. *)
Definition inputs_ok (c : call) : bool :=
  match c with
  | SalesCall cfg => valid_date (Sales.start_date cfg)
  | CustomersCall cfg => valid_date (Customers.start_date cfg)
  | RatingsCall cfg => valid_date (Ratings.start_date cfg)
  | ProductsCall _ => true
  | TransactionsCall cfg =>
      Nat.eqb (length (Transactions.year_prob cfg)) 3
      && choice_accepts (Transactions.year_prob_arr cfg)
  | OrdersCall cfg => valid_date (Orders.start_date cfg)
  end.

End Calls.

(** NumPy takes the integers of the call as they are: the seed is not
    negative, and the last identifier, the table sizes and the length of
    the calendar window fit int64. *)
Definition machine_ok (c : call) : bool :=
  match c with
  | SalesCall cfg =>
      (0 <=? Sales.seed cfg)
      && forallb fits_int64
           [Sales.num_rows cfg + 1; Sales.num_products cfg + 1;
            Sales.num_customers cfg + 1; Sales.num_stores cfg + 1; Sales.days cfg]
  | CustomersCall cfg =>
      (0 <=? Customers.seed cfg)
      && forallb fits_int64
           [Customers.start_customer_id cfg + Customers.num_rows cfg;
            Customers.days cfg]
  | RatingsCall cfg =>
      (0 <=? Ratings.seed cfg)
      && forallb fits_int64
           [Ratings.num_rows cfg; Ratings.num_users cfg + 1;
            Ratings.num_products cfg + 1; Ratings.days cfg]
  | ProductsCall cfg =>
      (0 <=? Products.seed cfg) && fits_int64 (1 + Products.num_rows cfg)
  | TransactionsCall cfg =>
      (0 <=? Transactions.seed cfg)
      && forallb fits_int64
           [1 + Transactions.num_rows cfg; Transactions.num_customers cfg + 1;
            Transactions.num_products cfg + 1]
  | OrdersCall cfg =>
      (0 <=? Orders.seed cfg)
      && forallb fits_int64
           [1 + Orders.num_rows cfg; Orders.num_products cfg + 1;
            Orders.num_customers cfg + 1; Orders.num_stores cfg + 1;
            Orders.days cfg]
  end.

(** The writes a filesystem has seen since an earlier state of it. *)
Definition new_writes (before after : filesystem) : list write_event :=
  drop (length (writes before)) (writes after).

(** The [to_csv] calls of a chunk loop over frames of the given sizes:
    the first truncates and writes the header, the others append. *)
Definition chunk_writes (p : path) (sizes : list nat) : list write_event :=
  match sizes with
  | [] => []
  | n :: rest => mk_write p ModeW true n :: map (mk_write p ModeA false) rest
  end.

(** The filesystem after a chunk loop has written the given frames to [p]. *)
Definition written (p : path) (columns : list string)
    (dfs : list (list (list cell))) (fs : filesystem) : filesystem :=
  mk_fs (dirs fs)
        (<[p := Header columns :: map Row (concat dfs)]> (files fs))
        (writes fs ++ chunk_writes p (map length dfs))%list.

Definition fsum_Z (xs : list Z) : Z := fold_right Z.add 0 xs.

(** ** Small concrete calls, run on the counter-stream generator *)

Definition empty_fs : filesystem := mk_fs ∅ ∅ [].

(** A filesystem in which the sales file already exists, with old content. *)
Definition stale_fs : filesystem :=
  mk_fs {[ ["out"] ]}
        {[ ["out"; "large_sales_data.csv"] := [Row [CInt 7]; Header ["old"]] ]}
        [].

Definition small_sales (num_rows chunk_size : Z) : Sales.config :=
  Sales.mk_config ["out"] "large_sales_data.csv" num_rows 42 chunk_size
                  10 100 7 (mk_date 2024 1 7) 10 true.

Definition small_customers : Customers.config :=
  Customers.mk_config ["out"] "customers.csv" 3 42 2 1 (mk_date 2019 1 1) 100.

Definition small_ratings : Ratings.config :=
  Ratings.mk_config ["out"] "ratings.csv" 3 42 2 10 10 (mk_date 2024 1 1) 10 true.

Definition small_transactions (year_prob : list float) : Transactions.config :=
  Transactions.mk_config ["out"] "transactions.csv" 5 42 3 10 10 year_prob.

Definition small_orders : Orders.config :=
  Orders.mk_config ["out"] "orders.csv" 3 42 2 10 10 10 (mk_date 2024 1 1) 10 true.

Definition stream_run (c : call) (fs : filesystem) : result path * filesystem :=
  run (G := StreamRng.generator) c fs.

Definition small_products : Products.config :=
  Products.mk_config ["out"] "products.csv" 5 42 2.

(** ** The orchestrator [main] and the compressed copies *)

(** [leaves_rest p D fs fs']: from [fs] to [fs'] no file other than [p]
    changed, no directory disappeared, the new directories are among
    [D], and the [to_csv] calls made in between all went to [p]. *)
Definition leaves_rest (p : path) (D : gset path) (fs fs' : filesystem) : Prop :=
  (∀ q, q ≠ p → files fs' !! q = files fs !! q)
  ∧ dirs fs ⊆ dirs fs'
  ∧ dirs fs' ⊆ dirs fs ∪ D
  ∧ ∃ ws, writes fs' = (writes fs ++ ws)%list ∧ Forall (fun w => w_path w = p) ws.

(** A computation is confined to [p] and [D]: from any filesystem, what
    it leaves stands in [leaves_rest p D] to what it found, whether it
    returns or raises. *)
Definition confined {A : Type} (p : path) (D : gset path) (c : io A) : Prop :=
  ∀ fs, leaves_rest p D fs (c fs).2.

(** Join-consistent defaults of [main]. *)
Definition NUM_CUSTOMERS : Z := 500000.
Definition NUM_PRODUCTS : Z := 10000.
Definition NUM_STORES : Z := 500.

(** The six configurations [main] builds: keyword defaults, overridden by
    the arguments it passes. *)
Definition main_sales (folder : path) : Sales.config :=
  let d := Sales.defaults folder in
  Sales.mk_config folder (Sales.csv_file d) (Sales.num_rows d) (Sales.seed d)
                  (Sales.chunk_size d) NUM_PRODUCTS NUM_CUSTOMERS NUM_STORES
                  (Sales.start_date d) (Sales.days d) (Sales.seasonality d).

Definition main_customers (folder : path) : Customers.config :=
  let d := Customers.defaults folder in
  Customers.mk_config folder (Customers.csv_file d) NUM_CUSTOMERS (Customers.seed d)
                      (Customers.chunk_size d) (Customers.start_customer_id d)
                      (Customers.start_date d) (Customers.days d).

Definition main_ratings (folder : path) : Ratings.config :=
  let d := Ratings.defaults folder in
  Ratings.mk_config folder (Ratings.csv_file d) (Ratings.num_rows d) (Ratings.seed d)
                    (Ratings.chunk_size d) NUM_CUSTOMERS NUM_PRODUCTS
                    (Ratings.start_date d) (Ratings.days d) (Ratings.seasonality d).

Definition main_products (folder : path) : Products.config :=
  let d := Products.defaults folder in
  Products.mk_config folder (Products.csv_file d) NUM_PRODUCTS (Products.seed d)
                     (Products.chunk_size d).

Definition main_transactions (folder : path) : Transactions.config :=
  let d := Transactions.defaults folder in
  Transactions.mk_config folder (Transactions.csv_file d) (Transactions.num_rows d)
                         (Transactions.seed d) (Transactions.chunk_size d)
                         NUM_CUSTOMERS NUM_PRODUCTS (Transactions.year_prob d).

Definition main_orders (folder : path) : Orders.config :=
  let d := Orders.defaults folder in
  Orders.mk_config folder (Orders.csv_file d) (Orders.num_rows d) (Orders.seed d)
                   (Orders.chunk_size d) NUM_PRODUCTS NUM_CUSTOMERS NUM_STORES
                   (Orders.start_date d) (Orders.days d) (Orders.seasonality d).

(** [path.suffix] of pathlib, on the final component: the part from the
    last dot on, unless that dot is the first or the last character. *)
Fixpoint rfind_dot (cs : list ascii) (pos : nat) (found : option nat) : option nat :=
  match cs with
  | [] => found
  | c :: cs' =>
      rfind_dot cs' (S pos) (if Ascii.eqb c "."%char then Some pos else found)
  end.

Definition suffix (name : string) : string :=
  let cs := list_ascii_of_string name in
  match rfind_dot cs 0 None with
  | Some i =>
      if (0 <? i)%nat && (i <? length cs - 1)%nat
      then string_of_list_ascii (drop i cs)
      else ""
  | None => ""
  end.

(** [path.with_suffix(new)] on the final component. *)
Definition with_suffix (name new : string) : string :=
  let cs := list_ascii_of_string name in
  let old := String.length (suffix name) in
  String.append (string_of_list_ascii (take (length cs - old) cs)) new.

(** [s.lower()] for ASCII letters. *)
Definition lower_ascii (c : ascii) : ascii :=
  let n := nat_of_ascii c in
  if (65 <=? n)%nat && (n <=? 90)%nat then ascii_of_nat (n + 32) else c.

Definition lower (s : string) : string :=
  string_of_list_ascii (map lower_ascii (list_ascii_of_string s)).

(** The final component of a path. *)
Definition path_name (p : path) : string := List.last p "".

(** [csv_path.with_suffix(csv_path.suffix + '.gz')] *)
Definition gz_path_of (csv_path : path) : path :=
  (removelast csv_path
   ++ [with_suffix (path_name csv_path)
                   (String.append (suffix (path_name csv_path)) ".gz")])%list.

(** A file as [main] sees it: CSV lines, or a gzip file, given by the
    file it decompresses to. *)
Inductive file : Type :=
| Plain (ls : list line)
| Gzip (inner : file).

(** The disk seen by [main]. A path holds one file: CSV lines ([plain]),
    or a gzip file ([gz] gives the file it decompresses to); writing one
    kind at a path replaces the other kind there. *)
Record disk : Type := mk_disk {
  plain : filesystem;
  gz : gmap path file
}.

(** The file at a path, if there is one. *)
Definition disk_file (d : disk) (p : path) : option file :=
  match files (plain d) !! p with
  | Some ls => Some (Plain ls)
  | None => match gz d !! p with
            | Some inner => Some (Gzip inner)
            | None => None
            end
  end.

(** The gzip files that are still there after the generators have left
    the filesystem [fs]: those whose path holds no CSV now. *)
Definition gz_after (fs : filesystem) (gz : gmap path file) : gmap path file :=
  filter (fun kv => ¬ is_Some (files fs !! kv.1)) gz.

(** The outcomes of [_gzip_csv_copy]: the path of the copy;
    [ValueError] of [with_suffix] on a path with an empty name;
    [OSError] ([FileNotFoundError], [IsADirectoryError]) of opening a
    source that is not a file. *)
Inductive copy_result : Type :=
| Copied (gz_path : path)
| CopyValueError
| CopyOSError.

(** [_gzip_csv_copy(csv_path, remove_original=...)]. The source is
    opened in binary mode, whatever it holds: a gzip file is compressed
    once more.
    [[
    gz_path = csv_path.with_suffix(csv_path.suffix + '.gz')
    with csv_path.open('rb') as src, gzip.open(gz_path, 'wb') as dst:
        shutil.copyfileobj(src, dst)
    if remove_original:
        csv_path.unlink(missing_ok=True)
    return gz_path
    ]] *)
Definition gzip_csv_copy (csv_path : path) (remove_original : bool) (d : disk)
    : copy_result * disk :=
  if String.eqb (path_name csv_path) "" then (CopyValueError, d) else
  let gz_path := gz_path_of csv_path in
  match disk_file d csv_path with
  | None => (CopyOSError, d)
  | Some src =>
      let fs := plain d in
      let d1 := mk_disk (mk_fs (dirs fs) (delete gz_path (files fs)) (writes fs))
                        (<[gz_path := src]> (gz d)) in
      let d2 :=
        if remove_original
        then mk_disk (mk_fs (dirs (plain d1)) (delete csv_path (files (plain d1)))
                            (writes (plain d1)))
                     (delete csv_path (gz d1))
        else d1 in
      (Copied gz_path, d2)
  end.

Section Main.
Context {G : Generator}.

(** [st_size] of a file, in bytes. *)
Variable st_size : file → Z.

(** [created_paths = [create_sales_dataset(...), ..., create_orders_dataset(...)]] *)
Definition generate_all (folder : path) : io (list path) :=
  let! p1 := Sales.create_sales_dataset (main_sales folder) in
  let! p2 := Customers.create_customers_dataset (main_customers folder) in
  let! p3 := Ratings.create_ratings_dataset (main_ratings folder) in
  let! p4 := Products.create_products_dataset (main_products folder) in
  let! p5 := Transactions.create_transactions_dataset (main_transactions folder) in
  let! p6 := Orders.create_orders_dataset (main_orders folder) in
  io_ret [p1; p2; p3; p4; p5; p6].

(** [path.stat().st_size / 1024**2] *)
Definition size_mb (f : file) : float :=
  PrimFloat.div (F.of_Z (st_size f)) (F.of_Z (1024 ^ 2)).

(** The file is not skipped by [if size_mb < gzip_min_size_mb: continue]. *)
Definition reaches (gzip_min_size_mb : float) (f : file) : bool :=
  negb (PrimFloat.ltb (size_mb f) gzip_min_size_mb).

(** One pass of [for path in created_paths] in the compression loop.
    The copy is reached for an existing file whose name ends in [.csv];
    it does not raise there. *)
Definition gzip_step (gzip_min_size_mb : float) (remove_original_csv : bool)
    (d : disk) (path : path) : disk :=
  match disk_file d path with
  | None => d      (* not path.exists(): no file is left there *)
  | Some f =>
      if negb (String.eqb (lower (suffix (path_name path))) ".csv") then d
      else if PrimFloat.ltb (size_mb f) gzip_min_size_mb then d
      else (gzip_csv_copy path remove_original_csv d).2
  end.

Definition main (folder : path) (create_gzip_copies : bool)
    (gzip_min_size_mb : float) (remove_original_csv : bool) (d : disk)
    : result unit * disk :=
  match generate_all folder (plain d) with
  | (Raise e, fs) => (Raise e, mk_disk fs (gz_after fs (gz d)))
  | (Ok created_paths, fs) =>
      let d1 := mk_disk fs (gz_after fs (gz d)) in
      (Ok tt,
       if create_gzip_copies
       then fold_left (gzip_step gzip_min_size_mb remove_original_csv)
                      created_paths d1
       else d1)
  end.

End Main.

(** The six calls of [main], in the order of [created_paths]. *)
Definition main_calls (folder : path) : list call :=
  [SalesCall (main_sales folder); CustomersCall (main_customers folder);
   RatingsCall (main_ratings folder); ProductsCall (main_products folder);
   TransactionsCall (main_transactions folder); OrdersCall (main_orders folder)].

(** The filesystem after the calls have run in order. *)
Definition run_all {G : Generator} (cs : list call) (fs : filesystem) : filesystem :=
  fold_left (fun fs c => (run c fs).2) cs fs.

(** * Properties *)

(** ** Results and loops *)

Lemma rbind_Ok {A B : Type} (r : result A) (k : A → result B) (b : B) :
  rbind r k = Ok b → ∃ a, r = Ok a ∧ k a = Ok b.
Proof. destruct r as [a|e]; simpl; [eauto | discriminate]. Qed.

Lemma rmap_Ok {A B : Type} (f : A → result B) (xs : list A) (ys : list B) :
  rmap f xs = Ok ys → Forall2 (fun x y => f x = Ok y) xs ys.
Proof.
  revert ys. induction xs as [|x xs IH]; intros ys H; simpl in H.
  - injection H as <-. constructor.
  - apply rbind_Ok in H as (y & Hy & H).
    apply rbind_Ok in H as (ys' & Hys & H).
    injection H as <-. constructor; auto.
Qed.

Lemma rmap_total {A B : Type} (f : A → result B) (xs : list A) :
  (∀ x, In x xs → ∃ y, f x = Ok y) → ∃ ys, rmap f xs = Ok ys.
Proof.
  induction xs as [|x xs IH]; intros H; simpl.
  - eauto.
  - destruct (H x) as [y Hy]; [now left|]. rewrite Hy. simpl.
    destruct IH as [ys Hys]; [intros; apply H; now right|].
    rewrite Hys. simpl. eauto.
Qed.

Lemma Forall2_nth {A B : Type} (P : A → B → Prop) (xs : list A) (ys : list B) :
  Forall2 P xs ys →
  length xs = length ys ∧
  ∀ (i : nat) (dx : A) (dy : B), (i < length xs)%nat → P (nth i xs dx) (nth i ys dy).
Proof.
  induction 1 as [|x y xs ys Hxy _ [IHl IHn]]; simpl.
  - split; [reflexivity | intros; lia].
  - split; [congruence|]. intros [|i] dx dy Hi; [assumption | apply IHn; lia].
Qed.

Section ChunkLoop.
Context {G : Generator} {R : Type}.
Variable chunk : Z → bitgen → result (list R * bitgen).
Variable p : path.
Variable cols : list string.
Variable cells : R → list cell.

(** Appending the frames one after the other. *)
Let append_all (dfs : list (list R)) (fs : filesystem) : filesystem :=
  fold_left (fun fs df => to_csv p ModeA false cols (map cells df) fs) dfs fs.

Lemma chunk_step_Ok (s : Z) (g g1 : bitgen) (w : bool) (df : list R)
    (fs : filesystem) :
  chunk s g = Ok (df, g1) →
  chunk_step chunk p cols cells s (g, w) fs
  = (Ok (g1, true),
     to_csv p (if negb w then ModeW else ModeA) (negb w) cols (map cells df) fs).
Proof.
  intros Hc. unfold chunk_step, io_bind, io_lift, io_effect, io_ret.
  now rewrite Hc.
Qed.

Lemma chunk_step_Raise (s : Z) (g : bitgen) (w : bool) (e : exn) (fs : filesystem) :
  chunk s g = Raise e →
  chunk_step chunk p cols cells s (g, w) fs = (Raise e, fs).
Proof.
  intros Hc. unfold chunk_step, io_bind, io_lift, io_effect, io_ret.
  now rewrite Hc.
Qed.

Lemma for_each_appends (starts : list Z) :
  ∀ g fs dfs,
    frames chunk starts g = Ok dfs →
    ∃ g', for_each starts (chunk_step chunk p cols cells) (g, true) fs
          = (Ok (g', true), append_all dfs fs).
Proof.
  induction starts as [|s starts IH]; intros g fs dfs H; simpl in H.
  - injection H as <-. simpl. unfold io_ret. eauto.
  - apply rbind_Ok in H as ([df g1] & Hc & H).
    apply rbind_Ok in H as (dfs' & Hf & H). injection H as <-.
    destruct (IH g1 (to_csv p ModeA false cols (map cells df) fs) dfs' Hf)
      as [g' Hg'].
    exists g'. cbn [for_each]. unfold io_bind.
    rewrite (chunk_step_Ok _ _ _ _ _ _ Hc). exact Hg'.
Qed.

Lemma for_each_raises (starts : list Z) :
  ∀ g w fs e,
    frames chunk starts g = Raise e →
    ∃ fs', for_each starts (chunk_step chunk p cols cells) (g, w) fs
           = (Raise e, fs').
Proof.
  induction starts as [|s starts IH]; intros g w fs e H; simpl in H.
  - discriminate.
  - cbn [for_each]. unfold io_bind.
    destruct (chunk s g) as [[df g1]|e1] eqn:Hc; simpl in H.
    + rewrite (chunk_step_Ok _ _ _ _ _ _ Hc).
      destruct (frames chunk starts g1) as [dfs'|e2] eqn:Hf; simpl in H;
        [discriminate|]. injection H as ->.
      apply IH. exact Hf.
    + injection H as ->. rewrite (chunk_step_Raise _ _ _ _ _ Hc). eauto.
Qed.

Lemma append_all_spec (dfs : list (list R)) :
  ∀ fs old,
    files fs !! p = Some old →
    append_all dfs fs
    = mk_fs (dirs fs)
            (<[p := (old ++ map Row (map cells (concat dfs)))%list]> (files fs))
            (writes fs ++ map (fun df => mk_write p ModeA false (length df)) dfs)%list.
Proof.
  induction dfs as [|df dfs IH]; intros fs old Hold; simpl.
  - rewrite !app_nil_r. rewrite insert_id by exact Hold. now destruct fs.
  - unfold append_all in IH. rewrite (IH _ (old ++ map Row (map cells df))%list).
    + simpl. rewrite Hold. simpl. rewrite insert_insert_eq.
      rewrite !map_app, <- !app_assoc, length_map. reflexivity.
    + simpl. rewrite Hold. simpl. apply lookup_insert_eq.
Qed.

(** A loop whose chunks all succeed leaves the header followed by the
    rows of all frames in the file, whatever the file held before. *)
Lemma write_chunks_Ok (starts : list Z) (g : bitgen) (fs : filesystem)
    (dfs : list (list R)) :
  starts ≠ [] →
  frames chunk starts g = Ok dfs →
  write_chunks chunk p cols cells starts g fs
  = (Ok tt, written p cols (map (map cells) dfs) fs).
Proof.
  intros Hne H. destruct starts as [|s starts]; [congruence|]. clear Hne.
  simpl in H. apply rbind_Ok in H as ([df g1] & Hc & H).
  apply rbind_Ok in H as (dfs' & Hf & H). injection H as <-.
  unfold write_chunks. cbn [for_each]. unfold io_bind.
  rewrite (chunk_step_Ok _ _ _ _ _ _ Hc). cbn [negb].
  destruct (for_each_appends starts g1
              (to_csv p ModeW true cols (map cells df) fs) dfs' Hf) as [g' Hg'].
  rewrite Hg'. unfold io_ret. f_equal.
  rewrite (append_all_spec dfs' _ (Header cols :: map Row (map cells df))).
  - unfold written. rewrite <- concat_map.
    replace (map length (map (map cells) (df :: dfs')))
      with (map length (df :: dfs'))
      by (rewrite map_map; apply map_ext; intros; now rewrite length_map).
    simpl. rewrite insert_insert_eq, !map_app, <- !app_assoc, length_map.
    rewrite (map_map length (mk_write p ModeA false)). reflexivity.
  - simpl. apply lookup_insert_eq.
Qed.

Lemma write_chunks_Raise (starts : list Z) (g : bitgen) (fs : filesystem) (e : exn) :
  frames chunk starts g = Raise e →
  ∃ fs', write_chunks chunk p cols cells starts g fs = (Raise e, fs').
Proof.
  intros H. destruct (for_each_raises starts g false fs e H) as [fs' Hfs'].
  exists fs'. unfold write_chunks, io_bind. now rewrite Hfs'.
Qed.

End ChunkLoop.

(** ** Ranges and batch sizes *)

Lemma range_len_pos (start stop step : Z) :
  start < stop → 0 < step →
  range_len start stop step = S (Z.to_nat ((stop - start - 1) / step)).
Proof.
  intros Hlt Hstep. unfold range_len.
  destruct (Z.ltb_spec start stop); [|lia].
  assert (0 <= (stop - start - 1) / step) by (apply Z.div_pos; lia).
  rewrite Z2Nat.inj_add by lia. simpl. lia.
Qed.

Lemma py_range_nonempty (start stop step : Z) :
  start < stop → 0 < step → py_range start stop step ≠ [].
Proof.
  intros Hlt Hstep. unfold py_range. rewrite range_len_pos by assumption.
  simpl. discriminate.
Qed.

Lemma py_range_In (start stop step s : Z) :
  0 < step → In s (py_range start stop step) → start <= s < stop.
Proof.
  intros Hstep Hin. unfold py_range in Hin.
  apply in_map_iff in Hin as (i & <- & Hi). apply in_seq in Hi.
  unfold range_len in Hi. destruct (Z.ltb_spec start stop); [|simpl in Hi; lia].
  assert (Hq : 0 <= (stop - start - 1) / step) by (apply Z.div_pos; lia).
  assert (Hm : step * ((stop - start - 1) / step) <= stop - start - 1)
    by (apply Z.mul_div_le; lia).
  assert (Z.of_nat i <= (stop - start - 1) / step) by lia.
  nia.
Qed.

Lemma fsum_Z_app (xs ys : list Z) : fsum_Z (xs ++ ys) = fsum_Z xs + fsum_Z ys.
Proof. induction xs as [|x xs IH]; simpl; [reflexivity | rewrite IH; lia]. Qed.

Lemma fsum_Z_const (f : nat → Z) (b : Z) (k : nat) :
  (∀ i, (i < k)%nat → f i = b) → fsum_Z (map f (seq 0 k)) = Z.of_nat k * b.
Proof.
  induction k as [|k IH]; intros H.
  - reflexivity.
  - rewrite seq_S, map_app, fsum_Z_app, IH by (intros; apply H; lia).
    simpl. rewrite H by lia. lia.
Qed.

(** The chunk sizes [min(b, n - (s - o))] over [range(o, n + o, b)] add
    up to [n]: all chunks but the last are full, the last takes the rest. *)
Lemma batch_sum (n b o : Z) :
  0 < n → 0 < b →
  fsum_Z (map (fun s => Z.min b (n + o - s)) (py_range o (n + o) b)) = n.
Proof.
  intros Hn Hb. unfold py_range. rewrite range_len_pos by lia.
  replace (n + o - o - 1) with (n - 1) by lia.
  set (q := (n - 1) / b).
  assert (Hq : 0 <= q) by (apply Z.div_pos; lia).
  assert (Hlo : b * q <= n - 1) by (apply Z.mul_div_le; lia).
  assert (Hhi : n - 1 < b * Z.succ q)
    by (apply Z.mul_succ_div_gt; lia).
  rewrite map_map, seq_S, map_app, fsum_Z_app.
  rewrite (fsum_Z_const _ b).
  - simpl. rewrite Z2Nat.id by lia. lia.
  - intros i Hi. apply Z.min_l. nia.
Qed.

Lemma batch_pos (n b o s : Z) :
  0 < b → In s (py_range o (n + o) b) → 0 < Z.min b (n + o - s) <= b.
Proof. intros Hb Hin. apply py_range_In in Hin; lia. Qed.

Lemma fsum_Z_to_nat (xs : list Z) :
  Forall (fun x => 0 <= x) xs →
  Z.of_nat (list_sum (map Z.to_nat xs)) = fsum_Z xs.
Proof.
  induction 1 as [|x xs Hx _ IH]; simpl; [reflexivity|]. lia.
Qed.

Lemma length_concat_sum {A : Type} (ls : list (list A)) :
  length (concat ls) = list_sum (map length ls).
Proof.
  induction ls as [|l ls IH]; simpl; [reflexivity|].
  now rewrite length_app, IH.
Qed.

Lemma length_arange (a b : Z) : length (arange a b) = Z.to_nat (b - a).
Proof. unfold arange. now rewrite length_map, length_seq. Qed.

Lemma arange_In (a b x : Z) : In x (arange a b) → a <= x < b.
Proof.
  unfold arange. intros Hin. apply in_map_iff in Hin as (i & <- & Hi).
  apply in_seq in Hi. lia.
Qed.

Lemma arange_nonempty (a b : Z) : a < b → arange a b ≠ [].
Proof.
  intros H E. apply (f_equal (@length Z)) in E.
  rewrite length_arange in E. simpl in E. lia.
Qed.

(** ** Arrays *)

Lemma nth_map_lt {A B : Type} (f : A → B) (l : list A) (i : nat) (d : A) (d' : B) :
  (i < length l)%nat → nth i (map f l) d' = f (nth i l d).
Proof.
  revert i. induction l as [|x l IH]; intros [|i] H; simpl in *; try lia.
  - reflexivity.
  - apply IH. lia.
Qed.

Lemma nth_zip_with_lt {A B C : Type} (f : A → B → C) (a : list A) (b : list B)
    (i : nat) (da : A) (db : B) (d : C) :
  (i < length a)%nat → (i < length b)%nat →
  nth i (zip_with f a b) d = f (nth i a da) (nth i b db).
Proof.
  revert b i. induction a as [|x a IH]; intros [|y b] [|i] Ha Hb;
    simpl in *; try lia.
  - reflexivity.
  - apply IH; lia.
Qed.

Lemma length_zip_with_eq {A B C : Type} (f : A → B → C) (a : list A) (b : list B) :
  length a = length b → length (zip_with f a b) = length a.
Proof.
  revert b. induction a as [|x a IH]; intros [|y b] H; simpl in *;
    try reflexivity; try discriminate.
  f_equal. apply IH. lia.
Qed.

Lemma same_length_true (n : nat) (lens : list nat) :
  same_length n lens = true ↔ Forall (fun m => m = n) lens.
Proof.
  unfold same_length. rewrite forallb_forall, List.Forall_forall.
  split; intros H m Hm.
  - symmetry. apply Nat.eqb_eq. auto.
  - apply Nat.eqb_eq. symmetry. auto.
Qed.

Lemma frame_check_Ok (n : nat) (lens : list nat) (u : unit) :
  frame_check n lens = Ok u → Forall (fun m => m = n) lens.
Proof.
  unfold frame_check. destruct (same_length n lens) eqn:E; [|discriminate].
  intros _. now apply same_length_true.
Qed.

Lemma frame_check_same (n : nat) (lens : list nat) :
  Forall (fun m => m = n) lens → frame_check n lens = Ok tt.
Proof.
  intros H. unfold frame_check.
  now rewrite (proj2 (same_length_true n lens) H).
Qed.

Lemma np_index_Ok {A : Type} (a : list A) (i : Z) (d : A) :
  0 <= i < Z.of_nat (length a) → np_index a i = Ok (nth (Z.to_nat i) a d).
Proof.
  intros Hi. unfold np_index.
  destruct (Z.ltb_spec i 0); [lia|].
  destruct (Z.leb_spec 0 i); [|lia].
  destruct (Z.ltb_spec i (Z.of_nat (length a))); [|lia]. simpl.
  destruct (nth_error a (Z.to_nat i)) as [x|] eqn:E.
  - now rewrite (nth_error_nth _ _ d E).
  - apply nth_error_None in E. lia.
Qed.

(** ** Frames of a chunk loop *)

Section Frames.
Context {G : Generator} {R : Type}.
Variable chunk : Z → bitgen → result (list R * bitgen).

Lemma frames_chunks (starts : list Z) :
  ∀ g dfs,
    frames chunk starts g = Ok dfs →
    Forall2 (fun s df => ∃ g0 g1, chunk s g0 = Ok (df, g1)) starts dfs.
Proof.
  induction starts as [|s starts IH]; intros g dfs H; simpl in H.
  - injection H as <-. constructor.
  - apply rbind_Ok in H as ([df g1] & Hc & H).
    apply rbind_Ok in H as (dfs' & Hf & H). injection H as <-.
    constructor; eauto.
Qed.

Lemma frames_total (starts : list Z) :
  (∀ s g, In s starts → ∃ df g1, chunk s g = Ok (df, g1)) →
  ∀ g, ∃ dfs, frames chunk starts g = Ok dfs.
Proof.
  induction starts as [|s starts IH]; intros Hall g; simpl.
  - eauto.
  - destruct (Hall s g) as (df & g1 & Hc); [now left|]. rewrite Hc. simpl.
    destruct (IH (fun s' g' Hin => Hall s' g' (or_intror Hin)) g1) as [dfs Hf].
    rewrite Hf. simpl. eauto.
Qed.

Lemma frames_lengths (starts : list Z) (size : Z → nat) g dfs :
  (∀ s g0 g1 df, In s starts → chunk s g0 = Ok (df, g1) → length df = size s) →
  frames chunk starts g = Ok dfs →
  map length dfs = map size starts.
Proof.
  intros Hsize H. apply frames_chunks in H.
  induction H as [|s df starts dfs (g0 & g1 & Hc) _ IH]; simpl.
  - reflexivity.
  - f_equal.
    + eapply Hsize; [now left | exact Hc].
    + apply IH. intros s' g0' g1' df' Hin. apply Hsize. now right.
Qed.

Lemma frames_Forall (starts : list Z) (Q : R → Prop) g dfs :
  (∀ s g0 g1 df, In s starts → chunk s g0 = Ok (df, g1) → Forall Q df) →
  frames chunk starts g = Ok dfs →
  Forall Q (concat dfs).
Proof.
  intros HQ H. apply frames_chunks in H.
  induction H as [|s df starts dfs (g0 & g1 & Hc) _ IH]; simpl.
  - constructor.
  - apply Forall_app. split.
    + eapply HQ; [now left | exact Hc].
    + apply IH. intros s' g0' g1' df' Hin. apply HQ. now right.
Qed.

End Frames.

(** ** Tactics for the chunk bodies *)

Lemma integers_accepts_true (lo hi : Z) :
  lo < hi → - int64_bound <= lo → hi <= int64_bound →
  integers_accepts lo hi = true.
Proof.
  intros H1 H2 H3. unfold integers_accepts.
  rewrite !andb_true_iff, Z.ltb_lt, !Z.leb_le. auto.
Qed.

Lemma integers_accepts_lt (lo hi : Z) : integers_accepts lo hi = true → lo < hi.
Proof.
  unfold integers_accepts. rewrite !andb_true_iff, Z.ltb_lt. tauto.
Qed.

Lemma fits_int64_spec (z : Z) :
  fits_int64 z = true ↔ - int64_bound <= z < int64_bound.
Proof. unfold fits_int64. rewrite andb_true_iff, Z.leb_le, Z.ltb_lt. tauto. Qed.

Lemma default_rng_Ok {G : Generator} (seed : Z) :
  0 <= seed → default_rng seed = Ok (seed_state seed).
Proof.
  intros H. unfold default_rng. destruct (Z.ltb_spec seed 0); [lia|reflexivity].
Qed.

Lemma default_rng_Ok_inv {G : Generator} (seed : Z) (g : bitgen) :
  default_rng seed = Ok g → 0 <= seed ∧ g = seed_state seed.
Proof.
  unfold default_rng. destruct (Z.ltb_spec seed 0); [discriminate|].
  intros E. injection E as <-. split; [lia|reflexivity].
Qed.

(** Turns [machine_ok c = true] into the bounds it stands for. *)
Ltac machine_bounds H :=
  simpl in H;
  let Hseed := fresh "Hseed" in
  apply andb_true_iff in H as [Hseed H]; apply Z.leb_le in Hseed;
  repeat (let Hfit := fresh "Hfit" in apply andb_true_iff in H as [Hfit H]);
  rewrite ?fits_int64_spec in *; unfold int64_bound in *.

(** Passes a guard [if negb b then Raise _ else _] that a returned
    computation has passed. *)
Ltac pass_guard H :=
  match type of H with
  | context [if negb ?b then Raise _ else _] =>
      let E := fresh "Hguard" in
      destruct b eqn:E; cbn [negb] in H; [|discriminate H]
  end.

(** Splits the next [let '(x, rng) := <draw> in ...] of a hypothesis,
    or passes its next guard. *)
Ltac split_draw H :=
  first
    [ match type of H with
      | context [match ?e with pair _ _ => _ end] =>
          let E := fresh "Edraw" in destruct e as [? ?] eqn:E
      end
    | pass_guard H ].

Ltac split_draws H := repeat split_draw H.

(** Turns [Forall (fun m => m = n) [a; b; ...]] into its equations. *)
Ltac split_lengths H :=
  repeat (let E := fresh "Elen" in apply Forall_cons in H as [E H]);
  clear H.

(** Proves that a guard holds, from the bounds at hand. *)
Ltac guard_true :=
  first [ reflexivity
        | assumption
        | apply integers_accepts_true; unfold int64_bound in *; lia
        | match goal with
          | |- match ?x with _ => _ end = true => destruct x; guard_true
          end ].

Ltac pass_guard_goal :=
  match goal with
  | |- context [if negb ?b then Raise _ else _] =>
      let E := fresh "Hguard" in
      assert (E : b = true) by guard_true; rewrite E; cbn [negb]
  end.

Ltac split_draw_goal :=
  first
    [ match goal with
      | |- context [match ?e with pair _ _ => _ end] =>
          let E := fresh "Edraw" in destruct e as [? ?] eqn:E
      end
    | pass_guard_goal ].

(** Side conditions of the sampling laws. *)
Ltac law_side :=
  first [ assumption
        | reflexivity
        | lia
        | discriminate
        | apply integers_accepts_true; unfold int64_bound; lia
        | apply arange_nonempty; lia
        | match goal with H : ?x = arange _ _ |- ?x ≠ [] =>
            rewrite H; apply arange_nonempty; lia end ].

(** Records the length of every drawn array, from the laws. *)
Ltac draw_lengths :=
  repeat match goal with
  | E : rng_integers ?lo ?hi ?n ?g = (?l, _) |- _ =>
      lazymatch goal with
      | _ : length l = n |- _ => fail
      | _ => let H := fresh "Hlen" in
             assert (H : length l = n)
               by (pose proof (integers_length lo hi n g) as X;
                   rewrite E in X; apply X; law_side)
      end
  | E : rng_choice ?a ?p ?n ?g = (?l, _) |- _ =>
      lazymatch goal with
      | _ : length l = n |- _ => fail
      | _ => let H := fresh "Hlen" in
             assert (H : length l = n)
               by (pose proof (choice_length _ a p n g) as X;
                   rewrite E in X; apply X; law_side)
      end
  | E : rng_beta ?a ?b ?n ?g = (?l, _) |- _ =>
      lazymatch goal with
      | _ : length l = n |- _ => fail
      | _ => let H := fresh "Hlen" in
             assert (H : length l = n)
               by (pose proof (beta_length a b n g) as X; now rewrite E in X)
      end
  | E : rng_lognormal ?a ?b ?n ?g = (?l, _) |- _ =>
      lazymatch goal with
      | _ : length l = n |- _ => fail
      | _ => let H := fresh "Hlen" in
             assert (H : length l = n)
               by (pose proof (lognormal_length a b n g) as X; now rewrite E in X)
      end
  | E : rng_normal ?a ?b ?n ?g = (?l, _) |- _ =>
      lazymatch goal with
      | _ : length l = n |- _ => fail
      | _ => let H := fresh "Hlen" in
             assert (H : length l = n)
               by (pose proof (normal_length a b n g) as X; now rewrite E in X)
      end
  | E : rng_poisson ?a ?n ?g = (?l, _) |- _ =>
      lazymatch goal with
      | _ : length l = n |- _ => fail
      | _ => let H := fresh "Hlen" in
             assert (H : length l = n)
               by (pose proof (poisson_length a n g) as X; now rewrite E in X)
      end
  | E : rng_random ?n ?g = (?l, _) |- _ =>
      lazymatch goal with
      | _ : length l = n |- _ => fail
      | _ => let H := fresh "Hlen" in
             assert (H : length l = n)
               by (pose proof (random_length n g) as X; now rewrite E in X)
      end
  end.

(** ** The sales generator *)

Section SalesProps.
Context {G : Generator}.
Import Sales.

Lemma sales_frame_inv tid dt cust store chan reg pid qty up disc rev df :
  frame tid dt cust store chan reg pid qty up disc rev = Ok df →
  Forall (fun m => m = length tid)
    [length dt; length cust; length store; length chan; length reg;
     length pid; length qty; length up; length disc; length rev]
  ∧ df = map (fun i : nat =>
                mk_row (nth i tid 0) (nth i dt 0) (nth i cust 0) (nth i store 0)
                       (nth i chan "") (nth i reg "") (nth i pid 0) (nth i qty 0)
                       (nth i up PrimFloat.nan) (nth i disc PrimFloat.nan)
                       (nth i rev PrimFloat.nan))
             (seq 0 (length tid)).
Proof.
  unfold frame. intros H. apply rbind_Ok in H as (u & Hc & H).
  apply frame_check_Ok in Hc. injection H as <-. split; [exact Hc | reflexivity].
Qed.

(** What [prepare] leaves in the tables. *)
Lemma sales_prepare_inv cfg g t g' :
  prepare cfg g = Ok (t, g') →
  valid_date (start_date cfg) = true
  ∧ product_ids t = arange 1 (num_products cfg + 1)
  ∧ day_index t = arange 0 (days cfg)
  ∧ start_date_np t = days_from_civil (start_date cfg)
  ∧ ∃ raw g0,
      rng_lognormal 3.5 0.7 (Z.to_nat (num_products cfg)) g0 = (raw, g')
      ∧ product_unit_price t = map (fun x => F.round2 (F.clip x 5 500)) raw.
Proof.
  unfold prepare. intros H. split_draws H.
  apply rbind_Ok in H as (d & Hd & H). unfold np_datetime64 in Hd.
  destruct (valid_date (start_date cfg)); [|discriminate].
  injection Hd as <-. injection H as <- <-. simpl.
  repeat split; try reflexivity. eauto.
Qed.
End SalesProps.

Section SalesRows.
Context {G : Generator}.
Import Sales.

Lemma sales_chunk_rows cfg t s g df g' :
  chunk cfg t s g = Ok (df, g') →
  Forall (fun r =>
     (∃ d, discount_rate r = F.round4 d
           ∧ revenue r = F.round2 (PrimFloat.mul
                                     (PrimFloat.mul (F.of_Z (quantity r)) (unit_price r))
                                     (PrimFloat.sub 1 d)))
     ∧ np_index (product_unit_price t) (product_id r - 1) = Ok (unit_price r)) df.
Proof.
  unfold chunk. intros H. split_draws H.
  apply rbind_Ok in H as (up & Htake & H).
  apply rbind_Ok in H as (df0 & Hframe & H). injection H as <- <-.
  apply sales_frame_inv in Hframe as [Hlen ->]. split_lengths Hlen.
  rewrite !length_map in *.
  apply rmap_Ok, Forall2_nth in Htake as [Hl Htake]. rewrite length_map in Hl.
  apply List.Forall_forall. intros r Hin.
  apply in_map_iff in Hin as (i & <- & Hi). apply in_seq in Hi. simpl.
  set (n := length (arange s (s + chunk_rows cfg s))) in *.
  split.
  - eexists. split.
    + apply nth_map_lt with (d := PrimFloat.nan). rewrite length_map. lia.
    + rewrite nth_map_lt with (d := PrimFloat.nan).
      2:{ unfold fmul. rewrite !length_zip_with_eq; rewrite ?length_map; try lia.
          rewrite length_zip_with_eq; rewrite ?length_map; lia. }
      unfold fmul.
      rewrite nth_zip_with_lt with (da := PrimFloat.nan) (db := PrimFloat.nan).
      2:{ rewrite length_zip_with_eq; rewrite ?length_map; lia. }
      2:{ rewrite !length_map. lia. }
      rewrite nth_zip_with_lt with (da := PrimFloat.nan) (db := PrimFloat.nan).
      2,3: rewrite ?length_map; lia.
      rewrite nth_map_lt with (d := 0) by lia.
      rewrite nth_map_lt with (d := PrimFloat.nan) (l := map _ _)
        by (rewrite length_map; lia).
      reflexivity.
  - specialize (Htake i 0 PrimFloat.nan). rewrite length_map in Htake.
    rewrite nth_map_lt with (d := 0) in Htake by lia.
    apply Htake. lia.
Qed.
End SalesRows.

Section SalesLaws.
Context {G : Generator} {L : GeneratorLaws G}.
Import Sales.

Lemma sales_prepare_total cfg g :
  valid_date (start_date cfg) = true → ∃ t g', prepare cfg g = Ok (t, g').
Proof.
  intros Hd. unfold prepare. repeat split_draw_goal.
  unfold np_datetime64. rewrite Hd. simpl. eauto.
Qed.

Lemma sales_price_length cfg g t g' :
  prepare cfg g = Ok (t, g') →
  length (product_unit_price t) = Z.to_nat (num_products cfg).
Proof.
  intros H. apply sales_prepare_inv in H as (_ & _ & _ & _ & raw & g0 & E & ->).
  rewrite length_map.
  pose proof (lognormal_length 3.5 0.7 (Z.to_nat (num_products cfg)) g0) as X.
  now rewrite E in X.
Qed.

Lemma sales_chunk_total cfg t s g :
  0 < num_products cfg → 0 < num_customers cfg → 0 < num_stores cfg →
  0 < days cfg →
  num_customers cfg < int64_bound → num_stores cfg < int64_bound →
  days cfg <= int64_bound →
  product_ids t = arange 1 (num_products cfg + 1) →
  day_index t = arange 0 (days cfg) →
  length (product_unit_price t) = Z.to_nat (num_products cfg) →
  ∃ df g', chunk cfg t s g = Ok (df, g')
           ∧ length df = Z.to_nat (chunk_rows cfg s).
Proof.
  intros Hp Hc Hs Hd Hc64 Hs64 Hd64 Hids Hidx Hup. unfold chunk.
  repeat split_draw_goal.
  assert (Htake : ∃ up, np_take (product_unit_price t) (map (fun p => p - 1) l0)
                        = Ok up).
  { apply rmap_total. intros x Hx. apply in_map_iff in Hx as (p & <- & Hp0).
    exists (nth (Z.to_nat (p - 1)) (product_unit_price t) PrimFloat.nan).
    apply np_index_Ok.
    pose proof (choice_member _ (product_ids t) (product_prob t)
                  (Z.to_nat (chunk_rows cfg s)) b p) as Hm.
    rewrite Edraw0 in Hm. specialize (Hm Hp0). rewrite Hids in Hm.
    apply arange_In in Hm. lia. }
  destruct Htake as [up Htake]. rewrite Htake. simpl.
  pose proof (proj1 (Forall2_nth _ _ _ (rmap_Ok _ _ _ Htake))) as Hlup.
  rewrite length_map in Hlup.
  destruct (date_prob t); draw_lengths;
    (unfold frame; rewrite frame_check_same;
     [ simpl; eexists _, _; split; [reflexivity|];
       rewrite length_map, length_seq, length_arange; f_equal; lia
     | rewrite length_arange;
       replace (s + chunk_rows cfg s - s) with (chunk_rows cfg s) by lia;
       unfold fmul;
       repeat (apply List.Forall_cons || apply List.Forall_nil);
       rewrite ?length_map, ?length_zip_with_eq; rewrite ?length_map;
       rewrite ?length_zip_with_eq; rewrite ?length_map; congruence ]).
Qed.

Lemma sales_chunk_ids cfg t s g df g' :
  0 < num_products cfg → 0 < num_customers cfg → 0 < num_stores cfg →
  product_ids t = arange 1 (num_products cfg + 1) →
  chunk cfg t s g = Ok (df, g') →
  Forall (fun r => 1 <= product_id r <= num_products cfg
                   ∧ 1 <= customer_id r <= num_customers cfg
                   ∧ 1 <= store_id r <= num_stores cfg) df.
Proof.
  intros Hp Hc Hs Hids. unfold chunk. intros H. split_draws H.
  apply rbind_Ok in H as (up & Htake & H).
  apply rbind_Ok in H as (df0 & Hframe & H). injection H as <- <-.
  apply sales_frame_inv in Hframe as [Hlen ->]. split_lengths Hlen.
  apply List.Forall_forall. intros r Hin.
  apply in_map_iff in Hin as (i & <- & Hi). apply in_seq in Hi. simpl.
  repeat split.
  1,2: pose proof (choice_member _ (product_ids t) (product_prob t)
                     (Z.to_nat (chunk_rows cfg s)) b (nth i l0 0)) as Hm;
       rewrite Edraw0, Hids in Hm;
       apply arange_In in Hm; [lia | apply nth_In; simpl; lia].
  1,2: pose proof (integers_range 1 (num_customers cfg + 1)
                     (Z.to_nat (chunk_rows cfg s)) b0 (nth i l1 0)) as Hm;
       rewrite Edraw1 in Hm; simpl in Hm;
       assert (1 <= nth i l1 0 < num_customers cfg + 1)
         by (apply Hm; [law_side | apply nth_In; lia]); lia.
  1,2: pose proof (integers_range 1 (num_stores cfg + 1)
                     (Z.to_nat (chunk_rows cfg s)) b1 (nth i l2 0)) as Hm;
       rewrite Edraw2 in Hm; simpl in Hm;
       assert (1 <= nth i l2 0 < num_stores cfg + 1)
         by (apply Hm; [law_side | apply nth_In; lia]); lia.
Qed.

Lemma sales_chunk_tids cfg t s g df g' :
  chunk cfg t s g = Ok (df, g') →
  map transaction_id df = arange s (s + chunk_rows cfg s).
Proof.
  unfold chunk. intros H. split_draws H.
  apply rbind_Ok in H as (up & Htake & H).
  apply rbind_Ok in H as (df0 & Hframe & H). injection H as <- <-.
  apply sales_frame_inv in Hframe as [_ ->].
  rewrite map_map. simpl.
  apply nth_ext with (d := 0) (d' := 0).
  - now rewrite length_map, length_seq.
  - intros i Hi. rewrite length_map, length_seq in Hi.
    rewrite nth_map_lt with (d := 0%nat) by now rewrite length_seq.
    now rewrite seq_nth.
Qed.
End SalesLaws.

(** *** Running [create_sales_dataset] *)

Section SalesRun.
Context {G : Generator}.
Import Sales.

Lemma sales_rejects cfg fs :
  bad_counts (SalesCall cfg) = true →
  ∃ msg, create_sales_dataset cfg fs
         = (Raise (ValueError msg), mkdir_parents (folder cfg) fs).
Proof.
  intros Hbad. unfold create_sales_dataset, io_bind, io_effect, check, io_raise, io_ret.
  simpl in Hbad.
  destruct (num_rows cfg <=? 0); [eauto|].
  destruct (chunk_size cfg <=? 0); [eauto|].
  destruct (num_products cfg <=? 0); [simpl; eauto|].
  destruct (num_customers cfg <=? 0); [simpl; eauto|].
  destruct (num_stores cfg <=? 0); [simpl; eauto|].
  destruct (days cfg <=? 0); [simpl; eauto|].
  discriminate.
Qed.

Lemma sales_runs cfg fs :
  bad_counts (SalesCall cfg) = false →
  match chunks cfg with
  | Ok dfs =>
      create_sales_dataset cfg fs
      = (Ok (output_path_of (SalesCall cfg)),
         written (output_path_of (SalesCall cfg)) columns
                 (map (map cells) dfs) (mkdir_parents (folder cfg) fs))
  | Raise e => ∃ fs', create_sales_dataset cfg fs = (Raise e, fs')
  end.
Proof.
  intros Hbad. simpl in Hbad. rewrite !orb_false_iff in Hbad.
  destruct Hbad as (((((H1 & H2) & H3) & H4) & H5) & H6).
  assert (Hne : starts cfg ≠ [])
    by (apply py_range_nonempty; lia).
  unfold create_sales_dataset, chunks, io_bind, io_effect, check, io_raise,
    io_ret, io_lift.
  rewrite H1, H2, H3, H4, H5, H6. simpl.
  destruct (default_rng (seed cfg)) as [rng|e]; simpl; [|eauto].
  destruct (prepare cfg rng) as [[t g]|e]; simpl; [|eauto].
  destruct (frames (chunk cfg t) (starts cfg) g) as [dfs|e] eqn:Hf.
  - now rewrite (write_chunks_Ok _ _ _ _ _ _ _ dfs Hne Hf).
  - destruct (write_chunks_Raise (chunk cfg t) (folder cfg ++ [csv_file cfg])%list
                columns cells (starts cfg) g (mkdir_parents (folder cfg) fs) e Hf)
      as [fs' Hfs'].
    rewrite Hfs'. eauto.
Qed.

End SalesRun.

Section SalesTotal.
Context {G : Generator} {L : GeneratorLaws G}.
Import Sales.

Lemma sales_chunks_total cfg :
  bad_counts (SalesCall cfg) = false →
  valid_date (start_date cfg) = true →
  machine_ok (SalesCall cfg) = true →
  ∃ dfs, chunks cfg = Ok dfs
         ∧ map length dfs = map (fun s => Z.to_nat (chunk_rows cfg s)) (starts cfg).
Proof.
  intros Hbad Hd Hm. simpl in Hbad. rewrite !orb_false_iff in Hbad.
  destruct Hbad as (((((H1 & H2) & H3) & H4) & H5) & H6).
  machine_bounds Hm.
  unfold chunks. rewrite (default_rng_Ok _ Hseed). cbn [rbind].
  destruct (sales_prepare_total cfg (seed_state (seed cfg)) Hd) as (t & g & Hp).
  rewrite Hp. simpl.
  pose proof (sales_price_length _ _ _ _ Hp) as Hup.
  apply sales_prepare_inv in Hp as (_ & Hids & Hidx & _).
  assert (Htot : ∀ s g0, ∃ df g1, chunk cfg t s g0 = Ok (df, g1)
                                  ∧ length df = Z.to_nat (chunk_rows cfg s))
    by (intros; apply sales_chunk_total; auto; unfold int64_bound; lia).
  destruct (frames_total (chunk cfg t) (starts cfg)) with (g := g) as [dfs Hf].
  { intros s g0 _. destruct (Htot s g0) as (df & g1 & Hc & _). eauto. }
  exists dfs. split; [exact Hf|].
  eapply frames_lengths; [|exact Hf].
  intros s g0 g1 df _ Hc. destruct (Htot s g0) as (df' & g1' & Hc' & Hl).
  congruence.
Qed.

End SalesTotal.

(** ** The customers generator *)

Section CustomersProps.
Context {G : Generator}.
Import Customers.

Lemma customers_frame_inv cid ag pa fn ln em ph ad ci st zc sd lt df :
  frame cid ag pa fn ln em ph ad ci st zc sd lt = Ok df →
  Forall (fun m => m = length cid)
    [length ag; length pa; length fn; length ln; length em; length ph;
     length ad; length ci; length st; length zc; length sd; length lt]
  ∧ df = map (fun i : nat =>
                mk_row (nth i cid 0) (nth i ag 0) (nth i pa PrimFloat.nan)
                       (nth i fn "") (nth i ln "") (nth i em "") (nth i ph "")
                       (nth i ad "") (nth i ci "") (nth i st "") (nth i zc "")
                       (nth i sd 0) (nth i lt ""))
             (seq 0 (length cid)).
Proof.
  unfold frame. intros H. apply rbind_Ok in H as (u & Hc & H).
  apply frame_check_Ok in Hc. injection H as <-. split; [exact Hc | reflexivity].
Qed.

Lemma state_of_Ok c s : state_of c = Ok s → state_by_city !! c = Some s.
Proof.
  unfold state_of. destruct (state_by_city !! c); [|discriminate].
  now intros [= ->].
Qed.

Lemma state_of_cities c : In c cities → ∃ s, state_of c = Ok s.
Proof.
  intros [<-|[<-|[<-|[<-|[]]]]]; eexists; vm_compute; reflexivity.
Qed.

(** Every row's state is the entry of [state_by_city] for its city. *)
Lemma customers_chunk_states cfg d0 s g df g' :
  chunk cfg d0 s g = Ok (df, g') →
  Forall (fun r => state_by_city !! city r = Some (state r)) df.
Proof.
  unfold chunk. intros H. split_draws H.
  apply rbind_Ok in H as (st & Hst & H).
  apply rbind_Ok in H as (df0 & Hframe & H). injection H as <- <-.
  apply customers_frame_inv in Hframe as [Hlen ->]. split_lengths Hlen.
  apply rmap_Ok, Forall2_nth in Hst as [Hl Hst].
  apply List.Forall_forall. intros r Hin.
  apply in_map_iff in Hin as (i & <- & Hi). apply in_seq in Hi. simpl.
  apply state_of_Ok, Hst. lia.
Qed.

Lemma customers_rejects cfg fs :
  bad_counts (CustomersCall cfg) = true →
  ∃ msg, create_customers_dataset cfg fs
         = (Raise (ValueError msg), mkdir_parents (folder cfg) fs).
Proof.
  intros Hbad.
  unfold create_customers_dataset, io_bind, io_effect, check, io_raise, io_ret.
  simpl in Hbad.
  destruct (num_rows cfg <=? 0); [eauto|].
  destruct (chunk_size cfg <=? 0); [eauto|].
  destruct (start_customer_id cfg <=? 0); [eauto|].
  destruct (days cfg <=? 0); [eauto|].
  discriminate.
Qed.

Lemma customers_runs cfg fs :
  bad_counts (CustomersCall cfg) = false →
  match chunks cfg with
  | Ok dfs =>
      create_customers_dataset cfg fs
      = (Ok (output_path_of (CustomersCall cfg)),
         written (output_path_of (CustomersCall cfg)) columns
                 (map (map cells) dfs) (mkdir_parents (folder cfg) fs))
  | Raise e => ∃ fs', create_customers_dataset cfg fs = (Raise e, fs')
  end.
Proof.
  intros Hbad. simpl in Hbad. rewrite !orb_false_iff in Hbad.
  destruct Hbad as (((H1 & H2) & H3) & H4).
  assert (Hne : starts cfg ≠ []) by (apply py_range_nonempty; lia).
  unfold create_customers_dataset, chunks, io_bind, io_effect, check, io_raise,
    io_ret, io_lift.
  rewrite H1, H2, H3, H4. simpl.
  destruct (default_rng (seed cfg)) as [rng|e]; simpl; [|eauto].
  destruct (np_datetime64 (start_date cfg)) as [d0|e]; simpl; [|eauto].
  destruct (frames (chunk cfg d0) (starts cfg) rng)
    as [dfs|e] eqn:Hf.
  - now rewrite (write_chunks_Ok _ _ _ _ _ _ _ dfs Hne Hf).
  - destruct (write_chunks_Raise (chunk cfg d0) (folder cfg ++ [csv_file cfg])%list
                columns cells (starts cfg) rng
                (mkdir_parents (folder cfg) fs) e Hf) as [fs' Hfs'].
    rewrite Hfs'. eauto.
Qed.

End CustomersProps.

Section CustomersLaws.
Context {G : Generator} {L : GeneratorLaws G}.
Import Customers.

Lemma customers_chunk_total cfg d0 s g :
  0 < days cfg → days cfg <= int64_bound → 0 < chunk_size cfg →
  0 < start_customer_id cfg → 0 <= s < num_rows cfg →
  start_customer_id cfg + num_rows cfg < int64_bound →
  ∃ df g', chunk cfg d0 s g = Ok (df, g')
           ∧ length df = Z.to_nat (chunk_rows cfg s).
Proof.
  intros Hd Hd64 Hcs Hst0 Hs Hfit. unfold chunk.
  assert (Harange : arange_int64 (start_customer_id cfg + s)
                      (start_customer_id cfg + s + chunk_rows cfg s) = true).
  { unfold arange_int64, chunk_rows. rewrite andb_true_iff, !fits_int64_spec.
    unfold int64_bound in *. lia. }
  repeat split_draw_goal. draw_lengths.
  assert (Hst : ∃ st, rmap state_of l2 = Ok st).
  { apply rmap_total. intros c Hc. apply state_of_cities.
    pose proof (choice_member _ cities city_prob
                  (Z.to_nat (chunk_rows cfg s)) b1 c) as Hm.
    rewrite Edraw2 in Hm. auto. }
  destruct Hst as [st Hst]. rewrite Hst. simpl.
  pose proof (proj1 (Forall2_nth _ _ _ (rmap_Ok _ _ _ Hst))) as Hlst.
  unfold frame. rewrite frame_check_same.
  - simpl. eexists _, _. split; [reflexivity|].
    rewrite length_map, length_seq, length_arange. f_equal. lia.
  - rewrite length_arange.
    replace (start_customer_id cfg + s + chunk_rows cfg s
             - (start_customer_id cfg + s)) with (chunk_rows cfg s) by lia.
    repeat (apply List.Forall_cons || apply List.Forall_nil);
      rewrite ?length_map, ?length_arange; try congruence.
    all: f_equal; lia.
Qed.

Lemma customers_chunks_total cfg :
  bad_counts (CustomersCall cfg) = false →
  valid_date (start_date cfg) = true →
  machine_ok (CustomersCall cfg) = true →
  ∃ dfs, chunks cfg = Ok dfs
         ∧ map length dfs = map (fun s => Z.to_nat (chunk_rows cfg s)) (starts cfg).
Proof.
  intros Hbad Hd Hm. simpl in Hbad. rewrite !orb_false_iff in Hbad.
  destruct Hbad as (((H1 & H2) & H3) & H4).
  machine_bounds Hm.
  unfold chunks, np_datetime64. rewrite (default_rng_Ok _ Hseed), Hd. simpl.
  set (d0 := days_from_civil (start_date cfg)).
  assert (Htot : ∀ s g0, In s (starts cfg) →
                         ∃ df g1, chunk cfg d0 s g0 = Ok (df, g1)
                                  ∧ length df = Z.to_nat (chunk_rows cfg s)).
  { intros s g0 Hs. apply py_range_In in Hs; [|lia].
    apply customers_chunk_total; unfold int64_bound; lia. }
  destruct (frames_total (chunk cfg d0) (starts cfg))
    with (g := seed_state (seed cfg)) as [dfs Hf].
  { intros s g0 Hs. destruct (Htot s g0 Hs) as (df & g1 & Hc & _). eauto. }
  exists dfs. split; [exact Hf|].
  eapply frames_lengths; [|exact Hf].
  intros s g0 g1 df Hs Hc. destruct (Htot s g0 Hs) as (df' & g1' & Hc' & Hl).
  congruence.
Qed.

End CustomersLaws.

(** ** The ratings generator *)

Section RatingsProps.
Context {G : Generator}.
Import Ratings.

Lemma ratings_frame_inv uid pid rt ts df :
  frame uid pid rt ts = Ok df →
  Forall (fun m => m = length uid) [length pid; length rt; length ts]
  ∧ df = map (fun i : nat =>
                mk_row (nth i uid 0) (nth i pid 0) (nth i rt 0) (nth i ts 0))
             (seq 0 (length uid)).
Proof.
  unfold frame. intros H. apply rbind_Ok in H as (u & Hc & H).
  apply frame_check_Ok in Hc. injection H as <-. split; [exact Hc | reflexivity].
Qed.

Lemma ratings_prepare_inv cfg t :
  prepare cfg = Ok t →
  valid_date (start_date cfg) = true ∧ day_index t = arange 0 (days cfg).
Proof.
  unfold prepare, np_datetime64. intros H.
  destruct (valid_date (start_date cfg)); [|discriminate]. simpl in H.
  destruct (seasonality cfg); simpl in H; injection H as <-; auto.
Qed.

Lemma ratings_prepare_total cfg :
  valid_date (start_date cfg) = true → ∃ t, prepare cfg = Ok t.
Proof.
  intros Hd. unfold prepare, np_datetime64. rewrite Hd. simpl.
  destruct (seasonality cfg); simpl; eauto.
Qed.

Lemma ratings_rejects cfg fs :
  bad_counts (RatingsCall cfg) = true →
  ∃ msg, create_ratings_dataset cfg fs
         = (Raise (ValueError msg), mkdir_parents (folder cfg) fs).
Proof.
  intros Hbad.
  unfold create_ratings_dataset, io_bind, io_effect, check, io_raise, io_ret.
  simpl in Hbad.
  destruct (num_rows cfg <=? 0); [eauto|].
  destruct (chunk_size cfg <=? 0); [eauto|].
  destruct (num_users cfg <=? 0); [simpl; eauto|].
  destruct (num_products cfg <=? 0); [simpl; eauto|].
  destruct (days cfg <=? 0); [simpl; eauto|].
  discriminate.
Qed.

Lemma ratings_runs cfg fs :
  bad_counts (RatingsCall cfg) = false →
  match chunks cfg with
  | Ok dfs =>
      create_ratings_dataset cfg fs
      = (Ok (output_path_of (RatingsCall cfg)),
         written (output_path_of (RatingsCall cfg)) columns
                 (map (map cells) dfs) (mkdir_parents (folder cfg) fs))
  | Raise e => ∃ fs', create_ratings_dataset cfg fs = (Raise e, fs')
  end.
Proof.
  intros Hbad. simpl in Hbad. rewrite !orb_false_iff in Hbad.
  destruct Hbad as ((((H1 & H2) & H3) & H4) & H5).
  assert (Hne : starts cfg ≠ []) by (apply py_range_nonempty; lia).
  unfold create_ratings_dataset, chunks, io_bind, io_effect, check, io_raise,
    io_ret, io_lift.
  rewrite H1, H2, H3, H4, H5. simpl.
  destruct (default_rng (seed cfg)) as [rng|e]; simpl; [|eauto].
  destruct (prepare cfg) as [t|e]; simpl; [|eauto].
  destruct (frames (chunk cfg t) (starts cfg) rng)
    as [dfs|e] eqn:Hf.
  - now rewrite (write_chunks_Ok _ _ _ _ _ _ _ dfs Hne Hf).
  - destruct (write_chunks_Raise (chunk cfg t) (folder cfg ++ [csv_file cfg])%list
                columns cells (starts cfg) rng
                (mkdir_parents (folder cfg) fs) e Hf) as [fs' Hfs'].
    rewrite Hfs'. eauto.
Qed.

End RatingsProps.

Section RatingsLaws.
Context {G : Generator} {L : GeneratorLaws G}.
Import Ratings.

Lemma ratings_chunk_total cfg t s g :
  0 < num_users cfg → 0 < num_products cfg → 0 < days cfg →
  num_users cfg < int64_bound → num_products cfg < int64_bound →
  days cfg <= int64_bound →
  day_index t = arange 0 (days cfg) →
  ∃ df g', chunk cfg t s g = Ok (df, g')
           ∧ length df = Z.to_nat (chunk_rows cfg s).
Proof.
  intros Hu Hp Hd Hu64 Hp64 Hd64 Hidx. unfold chunk. repeat split_draw_goal.
  destruct (date_prob t); draw_lengths;
    (unfold frame; rewrite frame_check_same;
     [ simpl; eexists _, _; split; [reflexivity|];
       rewrite length_map, length_seq; assumption
     | repeat (apply List.Forall_cons || apply List.Forall_nil);
       rewrite ?length_zip_with_eq; congruence ]).
Qed.

Lemma ratings_chunk_ids cfg t s g df g' :
  0 < num_users cfg → 0 < num_products cfg →
  chunk cfg t s g = Ok (df, g') →
  Forall (fun r => 1 <= user_id r <= num_users cfg
                   ∧ 1 <= product_id r <= num_products cfg) df.
Proof.
  intros Hu Hp. unfold chunk. intros H. split_draws H.
  apply rbind_Ok in H as (df0 & Hframe & H). injection H as <- <-.
  apply ratings_frame_inv in Hframe as [Hlen ->]. split_lengths Hlen.
  apply List.Forall_forall. intros r Hin.
  apply in_map_iff in Hin as (i & <- & Hi). apply in_seq in Hi. simpl.
  pose proof (integers_range 1 (num_users cfg + 1)
                (Z.to_nat (chunk_rows cfg s)) g (nth i l 0)) as Hm1.
  rewrite Edraw in Hm1. simpl in Hm1.
  pose proof (integers_range 1 (num_products cfg + 1)
                (Z.to_nat (chunk_rows cfg s)) b (nth i l0 0)) as Hm2.
  rewrite Edraw0 in Hm2. simpl in Hm2.
  assert (1 <= nth i l 0 < num_users cfg + 1)
    by (apply Hm1; [law_side | apply nth_In; lia]).
  assert (1 <= nth i l0 0 < num_products cfg + 1)
    by (apply Hm2; [law_side | apply nth_In; lia]).
  lia.
Qed.

Lemma ratings_chunks_total cfg :
  bad_counts (RatingsCall cfg) = false →
  valid_date (start_date cfg) = true →
  machine_ok (RatingsCall cfg) = true →
  ∃ dfs, chunks cfg = Ok dfs
         ∧ map length dfs = map (fun s => Z.to_nat (chunk_rows cfg s)) (starts cfg).
Proof.
  intros Hbad Hd Hm. simpl in Hbad. rewrite !orb_false_iff in Hbad.
  destruct Hbad as ((((H1 & H2) & H3) & H4) & H5).
  machine_bounds Hm.
  unfold chunks. rewrite (default_rng_Ok _ Hseed). cbn [rbind].
  destruct (ratings_prepare_total cfg Hd) as (t & Hp). rewrite Hp. simpl.
  apply ratings_prepare_inv in Hp as (_ & Hidx).
  assert (Htot : ∀ s g0, ∃ df g1, chunk cfg t s g0 = Ok (df, g1)
                                  ∧ length df = Z.to_nat (chunk_rows cfg s))
    by (intros; apply ratings_chunk_total; auto; unfold int64_bound; lia).
  destruct (frames_total (chunk cfg t) (starts cfg))
    with (g := seed_state (seed cfg)) as [dfs Hf].
  { intros s g0 _. destruct (Htot s g0) as (df & g1 & Hc & _). eauto. }
  exists dfs. split; [exact Hf|].
  eapply frames_lengths; [|exact Hf].
  intros s g0 g1 df _ Hc. destruct (Htot s g0) as (df' & g1' & Hc' & Hl).
  congruence.
Qed.

End RatingsLaws.

(** ** The products generator *)

Section ProductsProps.
Context {G : Generator}.
Import Products.

Lemma products_rejects cfg fs :
  bad_counts (ProductsCall cfg) = true →
  ∃ msg, create_products_dataset cfg fs
         = (Raise (ValueError msg), mkdir_parents (folder cfg) fs).
Proof.
  intros Hbad.
  unfold create_products_dataset, io_bind, io_effect, check, io_raise, io_ret.
  simpl in Hbad.
  destruct (num_rows cfg <=? 0); [eauto|].
  destruct (chunk_size cfg <=? 0); [eauto|].
  discriminate.
Qed.

Lemma products_runs cfg fs :
  bad_counts (ProductsCall cfg) = false →
  match chunks cfg with
  | Ok dfs =>
      create_products_dataset cfg fs
      = (Ok (output_path_of (ProductsCall cfg)),
         written (output_path_of (ProductsCall cfg)) columns
                 (map (map cells) dfs) (mkdir_parents (folder cfg) fs))
  | Raise e => ∃ fs', create_products_dataset cfg fs = (Raise e, fs')
  end.
Proof.
  intros Hbad. simpl in Hbad. rewrite !orb_false_iff in Hbad.
  destruct Hbad as (H1 & H2).
  assert (Hne : starts cfg ≠ []) by (apply py_range_nonempty; lia).
  unfold create_products_dataset, chunks, io_bind, io_effect, check, io_raise,
    io_ret, io_lift.
  rewrite H1, H2. simpl.
  destruct (default_rng (seed cfg)) as [rng|e]; simpl; [|eauto].
  destruct (frames (chunk cfg) (starts cfg) rng)
    as [dfs|e] eqn:Hf.
  - now rewrite (write_chunks_Ok _ _ _ _ _ _ _ dfs Hne Hf).
  - destruct (write_chunks_Raise (chunk cfg) (folder cfg ++ [csv_file cfg])%list
                columns cells (starts cfg) rng
                (mkdir_parents (folder cfg) fs) e Hf) as [fs' Hfs'].
    rewrite Hfs'. eauto.
Qed.

End ProductsProps.

Section ProductsLaws.
Context {G : Generator} {L : GeneratorLaws G}.
Import Products.

Lemma products_chunk_total cfg s g :
  ∃ df g', chunk cfg s g = Ok (df, g')
           ∧ length df = Z.to_nat (chunk_rows cfg s).
Proof.
  unfold chunk. repeat split_draw_goal. draw_lengths.
  unfold frame. rewrite frame_check_same.
  - simpl. eexists _, _. split; [reflexivity|].
    rewrite length_map, length_seq, length_arange. f_equal. lia.
  - rewrite length_arange.
    replace (1 + s + chunk_rows cfg s - (1 + s)) with (chunk_rows cfg s) by lia.
    repeat (apply List.Forall_cons || apply List.Forall_nil);
      rewrite ?length_map; congruence.
Qed.

Lemma products_chunks_total cfg :
  0 <= seed cfg →
  ∃ dfs, chunks cfg = Ok dfs
         ∧ map length dfs = map (fun s => Z.to_nat (chunk_rows cfg s)) (starts cfg).
Proof.
  intros Hseed. unfold chunks. rewrite (default_rng_Ok _ Hseed). cbn [rbind].
  destruct (frames_total (chunk cfg) (starts cfg))
    with (g := seed_state (seed cfg)) as [dfs Hf].
  { intros s g0 _. destruct (products_chunk_total cfg s g0) as (df & g1 & Hc & _).
    eauto. }
  exists dfs. split; [exact Hf|].
  eapply frames_lengths; [|exact Hf].
  intros s g0 g1 df _ Hc.
  destruct (products_chunk_total cfg s g0) as (df' & g1' & Hc' & Hl).
  congruence.
Qed.

End ProductsLaws.

(** ** The transactions generator *)

Lemma length_mask_fill {A : Type} (mask : list bool) :
  ∀ (values arr : list A), length (mask_fill mask values arr) = length arr.
Proof.
  induction mask as [|m mask IH]; intros values arr; simpl.
  - reflexivity.
  - destruct m, arr as [|a arr]; try reflexivity.
    + destruct values as [|v values]; [reflexivity|]. simpl. now rewrite IH.
    + simpl. now rewrite IH.
Qed.

Lemma mask_assign_Ok {A : Type} (mask : list bool) (values arr arr' : list A) :
  mask_assign mask values arr = Ok arr' → length arr' = length arr.
Proof.
  unfold mask_assign. destruct (Nat.eqb _ _); [|discriminate].
  intros [= <-]. apply length_mask_fill.
Qed.

Section TransactionsProps.
Context {G : Generator}.
Import Transactions.

Lemma transactions_frame_inv tid yr cust am pid td pm df :
  frame tid yr cust am pid td pm = Ok df →
  Forall (fun m => m = length tid)
    [length yr; length cust; length am; length pid; length td; length pm]
  ∧ df = map (fun i : nat =>
                mk_row (nth i tid 0) (nth i yr 0) (nth i cust 0)
                       (nth i am PrimFloat.nan) (nth i pid 0) (nth i td 0)
                       (nth i pm ""))
             (seq 0 (length tid)).
Proof.
  unfold frame. intros H. apply rbind_Ok in H as (u & Hc & H).
  apply frame_check_Ok in Hc. injection H as <-. split; [exact Hc | reflexivity].
Qed.

(** A bad row count, chunk size, domain size or [year_prob] length stops
    the call at its checks, after the directory was made. *)
Lemma transactions_rejects cfg fs :
  bad_counts (TransactionsCall cfg) = true ∨ length (year_prob cfg) ≠ 3%nat →
  ∃ msg, create_transactions_dataset cfg fs
         = (Raise (ValueError msg), mkdir_parents (folder cfg) fs).
Proof.
  intros Hbad.
  unfold create_transactions_dataset, io_bind, io_effect, check, io_raise, io_ret.
  simpl in Hbad.
  destruct (num_rows cfg <=? 0); [eauto|].
  destruct (chunk_size cfg <=? 0); [eauto|].
  destruct (num_customers cfg <=? 0); [simpl; eauto|].
  destruct (num_products cfg <=? 0); [simpl; eauto|].
  destruct (Nat.eqb_spec (length (year_prob cfg)) 3); simpl; [|eauto].
  destruct Hbad; [discriminate | contradiction].
Qed.

Lemma transactions_runs cfg fs :
  bad_counts (TransactionsCall cfg) = false →
  match chunks cfg with
  | Ok dfs =>
      create_transactions_dataset cfg fs
      = (Ok (output_path_of (TransactionsCall cfg)),
         written (output_path_of (TransactionsCall cfg)) columns
                 (map (map cells) dfs) (mkdir_parents (folder cfg) fs))
  | Raise e => ∃ fs', create_transactions_dataset cfg fs = (Raise e, fs')
  end.
Proof.
  intros Hbad. simpl in Hbad. rewrite !orb_false_iff in Hbad.
  destruct Hbad as (((H1 & H2) & H3) & H4).
  assert (Hne : starts cfg ≠ []) by (apply py_range_nonempty; lia).
  unfold create_transactions_dataset, chunks, io_bind, io_effect, check, io_raise,
    io_ret, io_lift.
  rewrite H1, H2, H3, H4. simpl.
  destruct (Nat.eqb (length (year_prob cfg)) 3); simpl; [|eauto].
  destruct (default_rng (seed cfg)) as [rng|e]; simpl; [|eauto].
  destruct (frames (chunk cfg) (starts cfg) rng)
    as [dfs|e] eqn:Hf.
  - now rewrite (write_chunks_Ok _ _ _ _ _ _ _ dfs Hne Hf).
  - destruct (write_chunks_Raise (chunk cfg) (folder cfg ++ [csv_file cfg])%list
                columns cells (starts cfg) rng
                (mkdir_parents (folder cfg) fs) e Hf) as [fs' Hfs'].
    rewrite Hfs'. eauto.
Qed.

End TransactionsProps.

Section TransactionsLaws.
Context {G : Generator} {L : GeneratorLaws G}.
Import Transactions.

Lemma fill_year_total (yr : list Z) (y : Z) (td : list Z) (g : bitgen) :
  ∃ td' g', fill_year yr y (td, g) = Ok (td', g') ∧ length td' = length td.
Proof.
  unfold fill_year. destruct (existsb id (map (fun v => v =? y) yr)); [|eauto].
  split_draw_goal.
  assert (Hlen : length l = mask_count (map (fun v => v =? y) yr)).
  { pose proof (integers_length 0 (year_days y)
                  (mask_count (map (fun v => v =? y) yr)) g) as X.
    rewrite Edraw in X. apply X. unfold year_days.
    destruct (y =? 2024); reflexivity. }
  unfold mask_assign. rewrite length_map, Hlen, Nat.eqb_refl. simpl.
  eexists _, _. split; [reflexivity|]. apply length_mask_fill.
Qed.

Lemma transactions_chunk_total cfg s g :
  0 < num_customers cfg → 0 < num_products cfg →
  num_customers cfg < int64_bound → num_products cfg < int64_bound →
  choice_accepts (year_prob_arr cfg) = true →
  ∃ df g', chunk cfg s g = Ok (df, g')
           ∧ length df = Z.to_nat (chunk_rows cfg s).
Proof.
  intros Hc Hp Hc64 Hp64 Hacc. unfold chunk. rewrite Hacc. cbn [negb].
  do 6 split_draw_goal. draw_lengths.
  destruct (fill_year_total l 2022 (repeat 0 (Z.to_nat (chunk_rows cfg s))) b2)
    as (td1 & g1 & -> & Hl1). cbn [rbind].
  destruct (fill_year_total l 2023 td1 g1) as (td2 & g2 & -> & Hl2). cbn [rbind].
  destruct (fill_year_total l 2024 td2 g2) as (td3 & g3 & -> & Hl3). cbn [rbind].
  rewrite repeat_length in Hl1.
  split_draw_goal. draw_lengths.
  unfold frame. rewrite frame_check_same.
  - simpl. eexists _, _. split; [reflexivity|].
    rewrite length_map, length_seq, length_arange. f_equal. lia.
  - rewrite length_arange.
    replace (1 + s + chunk_rows cfg s - (1 + s)) with (chunk_rows cfg s) by lia.
    repeat (apply List.Forall_cons || apply List.Forall_nil);
      rewrite ?length_map; congruence.
Qed.

Lemma transactions_chunk_ids cfg s g df g' :
  0 < num_customers cfg → 0 < num_products cfg →
  chunk cfg s g = Ok (df, g') →
  Forall (fun r => 1 <= customer_id r <= num_customers cfg
                   ∧ 1 <= product_id r <= num_products cfg) df.
Proof.
  intros Hc Hp. unfold chunk. intros H.
  destruct (choice_accepts (year_prob_arr cfg)); [|discriminate].
  cbn [negb] in H. do 4 split_draw H. do 2 pass_guard H.
  apply rbind_Ok in H as ([td1 g1] & _ & H).
  apply rbind_Ok in H as ([td2 g2] & _ & H).
  apply rbind_Ok in H as ([td3 g3] & _ & H).
  split_draws H.
  apply rbind_Ok in H as (df0 & Hframe & H). injection H as <- <-.
  apply transactions_frame_inv in Hframe as [Hlen ->]. split_lengths Hlen.
  apply List.Forall_forall. intros r Hin.
  apply in_map_iff in Hin as (i & <- & Hi). apply in_seq in Hi. simpl.
  pose proof (integers_range 1 (num_customers cfg + 1)
                (Z.to_nat (chunk_rows cfg s)) b (nth i l0 0)) as Hm1.
  rewrite Edraw0 in Hm1. simpl in Hm1.
  pose proof (integers_range 1 (num_products cfg + 1)
                (Z.to_nat (chunk_rows cfg s)) b0 (nth i l1 0)) as Hm2.
  rewrite Edraw1 in Hm2. simpl in Hm2.
  assert (1 <= nth i l0 0 < num_customers cfg + 1)
    by (apply Hm1; [law_side | apply nth_In; lia]).
  assert (1 <= nth i l1 0 < num_products cfg + 1)
    by (apply Hm2; [law_side | apply nth_In; lia]).
  lia.
Qed.

Lemma transactions_chunks_total cfg :
  bad_counts (TransactionsCall cfg) = false →
  length (year_prob cfg) = 3%nat →
  choice_accepts (year_prob_arr cfg) = true →
  machine_ok (TransactionsCall cfg) = true →
  ∃ dfs, chunks cfg = Ok dfs
         ∧ map length dfs = map (fun s => Z.to_nat (chunk_rows cfg s)) (starts cfg).
Proof.
  intros Hbad Hlen Hacc Hm. simpl in Hbad. rewrite !orb_false_iff in Hbad.
  destruct Hbad as (((H1 & H2) & H3) & H4).
  machine_bounds Hm.
  unfold chunks. rewrite Hlen, (default_rng_Ok _ Hseed). simpl.
  assert (Htot : ∀ s g0, ∃ df g1, chunk cfg s g0 = Ok (df, g1)
                                  ∧ length df = Z.to_nat (chunk_rows cfg s))
    by (intros; apply transactions_chunk_total; auto; unfold int64_bound; lia).
  destruct (frames_total (chunk cfg) (starts cfg))
    with (g := seed_state (seed cfg)) as [dfs Hf].
  { intros s g0 _. destruct (Htot s g0) as (df & g1 & Hc & _). eauto. }
  exists dfs. split; [exact Hf|].
  eapply frames_lengths; [|exact Hf].
  intros s g0 g1 df _ Hc. destruct (Htot s g0) as (df' & g1' & Hc' & Hl).
  congruence.
Qed.

End TransactionsLaws.

(** ** The orders generator *)

Section OrdersProps.
Context {G : Generator}.
Import Orders.

Lemma orders_frame_inv oid pid qty pr cust od store chan st df :
  frame oid pid qty pr cust od store chan st = Ok df →
  Forall (fun m => m = length oid)
    [length pid; length qty; length pr; length cust; length od; length store;
     length chan; length st]
  ∧ df = map (fun i : nat =>
                mk_row (nth i oid 0) (nth i pid 0) (nth i qty 0)
                       (nth i pr PrimFloat.nan) (nth i cust 0) (nth i od 0)
                       (nth i store 0) (nth i chan "") (nth i st ""))
             (seq 0 (length oid)).
Proof.
  unfold frame. intros H. apply rbind_Ok in H as (u & Hc & H).
  apply frame_check_Ok in Hc. injection H as <-. split; [exact Hc | reflexivity].
Qed.

Lemma orders_prepare_inv cfg g t g' :
  prepare cfg g = Ok (t, g') →
  valid_date (start_date cfg) = true
  ∧ product_ids t = arange 1 (num_products cfg + 1)
  ∧ day_index t = arange 0 (days cfg)
  ∧ start_date_np t = days_from_civil (start_date cfg)
  ∧ ∃ raw g0,
      rng_lognormal 3.5 0.7 (Z.to_nat (num_products cfg)) g0 = (raw, g')
      ∧ product_unit_price t = map (fun x => F.round2 (F.clip x 10 500)) raw.
Proof.
  unfold prepare. intros H. split_draws H.
  apply rbind_Ok in H as (d & Hd & H). unfold np_datetime64 in Hd.
  destruct (valid_date (start_date cfg)); [|discriminate].
  injection Hd as <-. injection H as <- <-. simpl.
  repeat split; try reflexivity. eauto.
Qed.

(** The price of a row is the rounded product of the unit price of its
    product, taken from the price table, and its quantity. *)
Lemma orders_chunk_rows cfg t s g df g' :
  chunk cfg t s g = Ok (df, g') →
  Forall (fun r =>
     ∃ unit_price,
       np_index (product_unit_price t) (product_id r - 1) = Ok unit_price
       ∧ price r = F.round2 (PrimFloat.mul unit_price (F.of_Z (quantity r)))) df.
Proof.
  unfold chunk. intros H. split_draws H.
  apply rbind_Ok in H as (up & Htake & H). split_draws H.
  apply rbind_Ok in H as (df0 & Hframe & H). injection H as <- <-.
  apply orders_frame_inv in Hframe as [Hlen ->]. split_lengths Hlen.
  apply rmap_Ok, Forall2_nth in Htake as [Hl Htake]. rewrite length_map in Hl.
  unfold fmul in *. rewrite length_map in *.
  assert (Hlup : length up = length l) by congruence.
  rewrite length_zip_with_eq in * by (rewrite length_map; congruence).
  apply List.Forall_forall. intros r Hin.
  apply in_map_iff in Hin as (i & <- & Hi). apply in_seq in Hi. simpl.
  exists (nth i up PrimFloat.nan). split.
  - specialize (Htake i 0 PrimFloat.nan).
    rewrite nth_map_lt with (d := 0) in Htake by lia.
    apply Htake. lia.
  - rewrite nth_map_lt with (d := PrimFloat.nan)
      by (rewrite length_zip_with_eq; rewrite ?length_map; lia).
    rewrite nth_zip_with_lt with (da := PrimFloat.nan) (db := PrimFloat.nan)
      by (rewrite ?length_map; lia).
    rewrite nth_map_lt with (d := 0) by lia. reflexivity.
Qed.

Lemma orders_rejects cfg fs :
  bad_counts (OrdersCall cfg) = true →
  ∃ msg, create_orders_dataset cfg fs
         = (Raise (ValueError msg), mkdir_parents (folder cfg) fs).
Proof.
  intros Hbad. unfold create_orders_dataset, io_bind, io_effect, check, io_raise, io_ret.
  simpl in Hbad.
  destruct (num_rows cfg <=? 0); [eauto|].
  destruct (chunk_size cfg <=? 0); [eauto|].
  destruct (num_products cfg <=? 0); [simpl; eauto|].
  destruct (num_customers cfg <=? 0); [simpl; eauto|].
  destruct (num_stores cfg <=? 0); [simpl; eauto|].
  destruct (days cfg <=? 0); [simpl; eauto|].
  discriminate.
Qed.

Lemma orders_runs cfg fs :
  bad_counts (OrdersCall cfg) = false →
  match chunks cfg with
  | Ok dfs =>
      create_orders_dataset cfg fs
      = (Ok (output_path_of (OrdersCall cfg)),
         written (output_path_of (OrdersCall cfg)) columns
                 (map (map cells) dfs) (mkdir_parents (folder cfg) fs))
  | Raise e => ∃ fs', create_orders_dataset cfg fs = (Raise e, fs')
  end.
Proof.
  intros Hbad. simpl in Hbad. rewrite !orb_false_iff in Hbad.
  destruct Hbad as (((((H1 & H2) & H3) & H4) & H5) & H6).
  assert (Hne : starts cfg ≠ []) by (apply py_range_nonempty; lia).
  unfold create_orders_dataset, chunks, io_bind, io_effect, check, io_raise,
    io_ret, io_lift.
  rewrite H1, H2, H3, H4, H5, H6. simpl.
  destruct (default_rng (seed cfg)) as [rng|e]; simpl; [|eauto].
  destruct (prepare cfg rng) as [[t g]|e]; simpl; [|eauto].
  destruct (frames (chunk cfg t) (starts cfg) g) as [dfs|e] eqn:Hf.
  - now rewrite (write_chunks_Ok _ _ _ _ _ _ _ dfs Hne Hf).
  - destruct (write_chunks_Raise (chunk cfg t) (folder cfg ++ [csv_file cfg])%list
                columns cells (starts cfg) g (mkdir_parents (folder cfg) fs) e Hf)
      as [fs' Hfs'].
    rewrite Hfs'. eauto.
Qed.

End OrdersProps.

Section OrdersLaws.
Context {G : Generator} {L : GeneratorLaws G}.
Import Orders.

Lemma orders_prepare_total cfg g :
  valid_date (start_date cfg) = true → ∃ t g', prepare cfg g = Ok (t, g').
Proof.
  intros Hd. unfold prepare. repeat split_draw_goal.
  unfold np_datetime64. rewrite Hd. simpl. eauto.
Qed.

Lemma orders_price_length cfg g t g' :
  prepare cfg g = Ok (t, g') →
  length (product_unit_price t) = Z.to_nat (num_products cfg).
Proof.
  intros H. apply orders_prepare_inv in H as (_ & _ & _ & _ & raw & g0 & E & ->).
  rewrite length_map.
  pose proof (lognormal_length 3.5 0.7 (Z.to_nat (num_products cfg)) g0) as X.
  now rewrite E in X.
Qed.

Lemma orders_chunk_total cfg t s g :
  0 < num_products cfg → 0 < num_customers cfg → 0 < num_stores cfg →
  0 < days cfg →
  num_customers cfg < int64_bound → num_stores cfg < int64_bound →
  days cfg <= int64_bound →
  product_ids t = arange 1 (num_products cfg + 1) →
  day_index t = arange 0 (days cfg) →
  length (product_unit_price t) = Z.to_nat (num_products cfg) →
  ∃ df g', chunk cfg t s g = Ok (df, g')
           ∧ length df = Z.to_nat (chunk_rows cfg s).
Proof.
  intros Hp Hc Hs Hd Hc64 Hs64 Hd64 Hids Hidx Hup. unfold chunk.
  repeat split_draw_goal.
  assert (Htake : ∃ up, np_take (product_unit_price t) (map (fun p => p - 1) l)
                        = Ok up).
  { apply rmap_total. intros x Hx. apply in_map_iff in Hx as (p & <- & Hp0).
    exists (nth (Z.to_nat (p - 1)) (product_unit_price t) PrimFloat.nan).
    apply np_index_Ok.
    pose proof (choice_member _ (product_ids t) (product_prob t)
                  (Z.to_nat (chunk_rows cfg s)) g p) as Hm.
    rewrite Edraw in Hm. specialize (Hm Hp0). rewrite Hids in Hm.
    apply arange_In in Hm. lia. }
  destruct Htake as [up Htake]. rewrite Htake. simpl.
  pose proof (proj1 (Forall2_nth _ _ _ (rmap_Ok _ _ _ Htake))) as Hlup.
  rewrite length_map in Hlup.
  destruct (date_prob t); draw_lengths;
    (unfold frame; rewrite frame_check_same;
     [ simpl; eexists _, _; split; [reflexivity|];
       rewrite length_map, length_seq, length_arange; f_equal; lia
     | rewrite length_arange;
       replace (1 + s + chunk_rows cfg s - (1 + s)) with (chunk_rows cfg s) by lia;
       unfold fmul;
       repeat (apply List.Forall_cons || apply List.Forall_nil);
       rewrite ?length_map, ?length_zip_with_eq; rewrite ?length_map;
       congruence ]).
Qed.

Lemma orders_chunk_ids cfg t s g df g' :
  0 < num_products cfg → 0 < num_customers cfg → 0 < num_stores cfg →
  product_ids t = arange 1 (num_products cfg + 1) →
  chunk cfg t s g = Ok (df, g') →
  Forall (fun r => 1 <= product_id r <= num_products cfg
                   ∧ 1 <= customer_id r <= num_customers cfg
                   ∧ 1 <= store_id r <= num_stores cfg) df.
Proof.
  intros Hp Hc Hs Hids. unfold chunk. intros H. split_draws H.
  apply rbind_Ok in H as (up & Htake & H). split_draws H.
  apply rbind_Ok in H as (df0 & Hframe & H). injection H as <- <-.
  apply orders_frame_inv in Hframe as [Hlen ->]. split_lengths Hlen.
  apply List.Forall_forall. intros r Hin.
  apply in_map_iff in Hin as (i & <- & Hi). apply in_seq in Hi. simpl.
  pose proof (choice_member _ (product_ids t) (product_prob t)
                (Z.to_nat (chunk_rows cfg s)) g (nth i l 0)) as Hm0.
  rewrite Edraw, Hids in Hm0.
  pose proof (integers_range 1 (num_customers cfg + 1)
                (Z.to_nat (chunk_rows cfg s)) b0 (nth i l1 0)) as Hm1.
  rewrite Edraw1 in Hm1. simpl in Hm1.
  pose proof (integers_range 1 (num_stores cfg + 1)
                (Z.to_nat (chunk_rows cfg s)) b1 (nth i l2 0)) as Hm2.
  rewrite Edraw2 in Hm2. simpl in Hm2.
  assert (1 <= nth i l 0 < num_products cfg + 1)
    by (apply arange_In, Hm0, nth_In; simpl; lia).
  assert (1 <= nth i l1 0 < num_customers cfg + 1)
    by (apply Hm1; [law_side | apply nth_In; lia]).
  assert (1 <= nth i l2 0 < num_stores cfg + 1)
    by (apply Hm2; [law_side | apply nth_In; lia]).
  lia.
Qed.

Lemma orders_chunks_total cfg :
  bad_counts (OrdersCall cfg) = false →
  valid_date (start_date cfg) = true →
  machine_ok (OrdersCall cfg) = true →
  ∃ dfs, chunks cfg = Ok dfs
         ∧ map length dfs = map (fun s => Z.to_nat (chunk_rows cfg s)) (starts cfg).
Proof.
  intros Hbad Hd Hm. simpl in Hbad. rewrite !orb_false_iff in Hbad.
  destruct Hbad as (((((H1 & H2) & H3) & H4) & H5) & H6).
  machine_bounds Hm.
  unfold chunks. rewrite (default_rng_Ok _ Hseed). cbn [rbind].
  destruct (orders_prepare_total cfg (seed_state (seed cfg)) Hd) as (t & g & Hp).
  rewrite Hp. simpl.
  pose proof (orders_price_length _ _ _ _ Hp) as Hup.
  apply orders_prepare_inv in Hp as (_ & Hids & Hidx & _).
  assert (Htot : ∀ s g0, ∃ df g1, chunk cfg t s g0 = Ok (df, g1)
                                  ∧ length df = Z.to_nat (chunk_rows cfg s))
    by (intros; apply orders_chunk_total; auto; unfold int64_bound; lia).
  destruct (frames_total (chunk cfg t) (starts cfg)) with (g := g) as [dfs Hf].
  { intros s g0 _. destruct (Htot s g0) as (df & g1 & Hc & _). eauto. }
  exists dfs. split; [exact Hf|].
  eapply frames_lengths; [|exact Hf].
  intros s g0 g1 df _ Hc. destruct (Htot s g0) as (df' & g1' & Hc' & Hl).
  congruence.
Qed.

End OrdersLaws.

(** ** The counter-stream generator satisfies the laws *)

Lemma stream_draws_length (n : nat) :
  ∀ s, length (StreamRng.draws n s).1 = n.
Proof.
  induction n as [|n IH]; intros s; simpl; [reflexivity|].
  specialize (IH (StreamRng.next s)).
  destruct (StreamRng.draws n (StreamRng.next s)) as [vs s2]. simpl in *. lia.
Qed.

Lemma stream_draw_with_length {A : Type} (f : Z → A) (n : nat) (s : Z) :
  length (StreamRng.draw_with f n s).1 = n.
Proof.
  unfold StreamRng.draw_with. pose proof (stream_draws_length n s) as H.
  destruct (StreamRng.draws n s) as [vs s']. simpl in *. now rewrite length_map.
Qed.

Lemma stream_draw_with_In {A : Type} (f : Z → A) (n : nat) (s : Z) (x : A) :
  In x (StreamRng.draw_with f n s).1 → ∃ v, x = f v.
Proof.
  unfold StreamRng.draw_with. destruct (StreamRng.draws n s) as [vs s']. simpl.
  intros H. apply in_map_iff in H as (v & <- & _). eauto.
Qed.

#[export] Instance stream_laws : GeneratorLaws StreamRng.generator.
Proof.
  constructor; simpl; intros;
    try apply stream_draw_with_length.
  - (* integers_range *)
    match goal with H : In _ _ |- _ =>
      apply stream_draw_with_In in H as (v & ->) end.
    match goal with H : integers_accepts _ _ = true |- _ =>
      apply integers_accepts_lt in H end.
    pose proof (Z.mod_pos_bound v (hi - lo)). lia.
  - (* choice_length *)
    unfold StreamRng.choice. destruct a as [|x0 a]; [congruence|].
    apply stream_draw_with_length.
  - (* choice_member *)
    unfold StreamRng.choice in *. destruct a as [|x0 a]; [contradiction|].
    match goal with H : In _ _ |- _ =>
      apply stream_draw_with_In in H as (v & ->) end.
    apply nth_In.
    pose proof (Z.mod_pos_bound v (Z.of_nat (length (x0 :: a)))) as Hb.
    simpl length in *. lia.
Qed.

(** ** Any of the six calls *)

Section Run.
Context {G : Generator}.

(** A non-positive count stops the call at its checks: the directory has
    been made, nothing else has happened. *)
Lemma run_rejects (c : call) (fs : filesystem) :
  bad_counts c = true →
  ∃ msg, run c fs = (Raise (ValueError msg), mkdir_parents (folder_of c) fs).
Proof.
  destruct c as [cfg|cfg|cfg|cfg|cfg|cfg]; intros H.
  - now apply sales_rejects.
  - now apply customers_rejects.
  - now apply ratings_rejects.
  - now apply products_rejects.
  - apply transactions_rejects. now left.
  - now apply orders_rejects.
Qed.

(** Past the checks, the call writes the frames it computes, or raises
    what computing them raises. *)
Lemma run_accepts (c : call) (fs : filesystem) :
  bad_counts c = false →
  match emitted_frames c with
  | Ok dfs =>
      run c fs = (Ok (output_path_of c),
                  written (output_path_of c) (columns_of c) dfs
                          (mkdir_parents (folder_of c) fs))
  | Raise e => ∃ fs', run c fs = (Raise e, fs')
  end.
Proof.
  destruct c as [cfg|cfg|cfg|cfg|cfg|cfg]; intros H; simpl.
  - pose proof (sales_runs cfg fs H) as X.
    destruct (Sales.chunks cfg); exact X.
  - pose proof (customers_runs cfg fs H) as X.
    destruct (Customers.chunks cfg); exact X.
  - pose proof (ratings_runs cfg fs H) as X.
    destruct (Ratings.chunks cfg); exact X.
  - pose proof (products_runs cfg fs H) as X.
    destruct (Products.chunks cfg); exact X.
  - pose proof (transactions_runs cfg fs H) as X.
    destruct (Transactions.chunks cfg); exact X.
  - pose proof (orders_runs cfg fs H) as X.
    destruct (Orders.chunks cfg); exact X.
Qed.

Lemma run_Ok_inv (c : call) (fs : filesystem) (p : path) :
  (run c fs).1 = Ok p →
  bad_counts c = false ∧ p = output_path_of c
  ∧ ∃ dfs, emitted_frames c = Ok dfs
           ∧ (run c fs).2 = written p (columns_of c) dfs
                                    (mkdir_parents (folder_of c) fs).
Proof.
  intros H. destruct (bad_counts c) eqn:Hbad.
  - destruct (run_rejects c fs Hbad) as [msg Hr]. rewrite Hr in H. discriminate.
  - pose proof (run_accepts c fs Hbad) as Hr.
    destruct (emitted_frames c) as [dfs|e].
    + rewrite Hr in H |- *. injection H as <-. eauto.
    + destruct Hr as [fs' Hr]. rewrite Hr in H. discriminate.
Qed.

Lemma written_file (p : path) (cols : list string) dfs (fs : filesystem) :
  files (written p cols dfs fs) !! p = Some (Header cols :: map Row (concat dfs)).
Proof. unfold written. simpl. apply lookup_insert_eq. Qed.

Lemma written_new_writes (p : path) (cols : list string) dfs (fs fs0 : filesystem) :
  writes fs = writes fs0 →
  new_writes fs0 (written p cols dfs fs) = chunk_writes p (map length dfs).
Proof.
  intros E. unfold new_writes, written. simpl. rewrite E.
  now rewrite drop_app_length.
Qed.

Lemma data_rows_file (cols : list string) (rows : list (list cell)) :
  data_rows (Header cols :: map Row rows) = map Row rows.
Proof.
  unfold data_rows. simpl. induction rows as [|r rows IH]; simpl; [reflexivity|].
  now rewrite IH.
Qed.

Lemma headers_file (cols : list string) (rows : list (list cell)) :
  List.filter is_header (Header cols :: map Row rows) = [Header cols].
Proof.
  simpl. f_equal. induction rows as [|r rows IH]; simpl; [reflexivity | exact IH].
Qed.

End Run.

Section RunLaws.
Context {G : Generator} {L : GeneratorLaws G}.

(** Under the sampling laws a call with good arguments computes all its
    frames, and frame [i] has [batch_sizes[i]] rows. *)
Lemma emitted_total (c : call) :
  bad_counts c = false → inputs_ok c = true → machine_ok c = true →
  ∃ dfs, emitted_frames c = Ok dfs
         ∧ map length dfs = map Z.to_nat (batch_sizes c).
Proof.
  assert (Hmm : ∀ (R : Type) (cells : R → list cell) (dfs : list (list R)),
            map length (map (map cells) dfs) = map length dfs)
    by (intros; rewrite map_map; apply map_ext; intros; apply length_map).
  destruct c as [cfg|cfg|cfg|cfg|cfg|cfg]; intros Hbad Hin Hm;
    simpl in Hin; cbn [emitted_frames batch_sizes].
  - destruct (sales_chunks_total cfg Hbad Hin Hm) as (dfs & -> & Hl).
    simpl. eexists. split; [reflexivity|]. now rewrite Hmm, Hl, map_map.
  - destruct (customers_chunks_total cfg Hbad Hin Hm) as (dfs & -> & Hl).
    simpl. eexists. split; [reflexivity|]. now rewrite Hmm, Hl, map_map.
  - destruct (ratings_chunks_total cfg Hbad Hin Hm) as (dfs & -> & Hl).
    simpl. eexists. split; [reflexivity|]. now rewrite Hmm, Hl, map_map.
  - assert (Hseed : 0 <= Products.seed cfg)
      by (simpl in Hm; apply andb_true_iff in Hm as [Hs _]; now apply Z.leb_le).
    destruct (products_chunks_total cfg Hseed) as (dfs & -> & Hl).
    simpl. eexists. split; [reflexivity|]. now rewrite Hmm, Hl, map_map.
  - apply andb_true_iff in Hin as [Hlen Hacc]. apply Nat.eqb_eq in Hlen.
    destruct (transactions_chunks_total cfg Hbad Hlen Hacc Hm) as (dfs & -> & Hl).
    simpl. eexists. split; [reflexivity|]. now rewrite Hmm, Hl, map_map.
  - destruct (orders_chunks_total cfg Hbad Hin Hm) as (dfs & -> & Hl).
    simpl. eexists. split; [reflexivity|]. now rewrite Hmm, Hl, map_map.
Qed.

End RunLaws.

(** The batch sizes of a call with good counts are positive and add up to
    the row count. *)
Lemma batch_sizes_sum (c : call) :
  bad_counts c = false →
  fsum_Z (batch_sizes c) = num_rows_of c ∧ Forall (fun x => 0 <= x) (batch_sizes c).
Proof.
  intros Hbad.
  assert (Hgen : ∀ n b o (f : Z → Z) (starts : list Z),
            0 < n → 0 < b → starts = py_range o (n + o) b →
            (∀ s, f s = Z.min b (n + o - s)) →
            fsum_Z (map f starts) = n ∧ Forall (fun x => 0 <= x) (map f starts)).
  { intros n b o f starts Hn Hb -> Hf. split.
    - rewrite (map_ext _ _ Hf). now apply batch_sum.
    - apply List.Forall_forall. intros x Hx.
      apply in_map_iff in Hx as (s & <- & Hs). rewrite Hf.
      pose proof (batch_pos n b o s Hb Hs). lia. }
  destruct c as [cfg|cfg|cfg|cfg|cfg|cfg]; simpl in Hbad |- *;
    rewrite !orb_false_iff in Hbad.
  - apply (Hgen (Sales.num_rows cfg) (Sales.chunk_size cfg) 1); try lia.
    + reflexivity.
    + intros s. unfold Sales.chunk_rows. f_equal. lia.
  - apply (Hgen (Customers.num_rows cfg) (Customers.chunk_size cfg) 0); try lia.
    + unfold Customers.starts. now rewrite Z.add_0_r.
    + intros s. unfold Customers.chunk_rows. f_equal. lia.
  - apply (Hgen (Ratings.num_rows cfg) (Ratings.chunk_size cfg) 0); try lia.
    + unfold Ratings.starts. now rewrite Z.add_0_r.
    + intros s. unfold Ratings.chunk_rows. f_equal. lia.
  - apply (Hgen (Products.num_rows cfg) (Products.chunk_size cfg) 0); try lia.
    + unfold Products.starts. now rewrite Z.add_0_r.
    + intros s. unfold Products.chunk_rows. f_equal. lia.
  - apply (Hgen (Transactions.num_rows cfg) (Transactions.chunk_size cfg) 0);
      try lia.
    + unfold Transactions.starts. now rewrite Z.add_0_r.
    + intros s. unfold Transactions.chunk_rows. f_equal. lia.
  - apply (Hgen (Orders.num_rows cfg) (Orders.chunk_size cfg) 0); try lia.
    + unfold Orders.starts. now rewrite Z.add_0_r.
    + intros s. unfold Orders.chunk_rows. f_equal. lia.
Qed.

(** ** Contiguous identifiers across chunks *)

Lemma map_seq_offset {A : Type} (f : nat → A) (k m : nat) :
  map f (seq k m) = map (fun i => f (k + i)%nat) (seq 0 m).
Proof.
  induction m as [|m IH]; [reflexivity|].
  rewrite !seq_S, !map_app, IH. simpl. reflexivity.
Qed.

Lemma arange_app (a b c : Z) :
  a <= b <= c → (arange a b ++ arange b c)%list = arange a c.
Proof.
  intros H. unfold arange.
  replace (Z.to_nat (c - a)) with (Z.to_nat (b - a) + Z.to_nat (c - b))%nat by lia.
  rewrite seq_app, map_app. f_equal. simpl.
  rewrite (map_seq_offset _ (Z.to_nat (b - a))). apply map_ext. intros i. lia.
Qed.

Lemma arange_full_chunks (o b : Z) (k : nat) :
  0 < b →
  concat (map (fun i : nat => arange (o + Z.of_nat i * b) (o + Z.of_nat i * b + b))
              (seq 0 k))
  = arange o (o + Z.of_nat k * b).
Proof.
  intros Hb. induction k as [|k IH].
  - unfold arange. replace (o + Z.of_nat 0 * b - o) with 0 by lia. reflexivity.
  - rewrite seq_S, map_app, concat_app, IH. simpl. rewrite app_nil_r.
    rewrite arange_app by nia. f_equal. lia.
Qed.

(** The identifier ranges of the chunks, one after the other, are the
    identifiers [o .. o + n - 1]. *)
Lemma arange_chunks (n b o : Z) :
  0 < n → 0 < b →
  concat (map (fun s => arange s (s + Z.min b (n + o - s))) (py_range o (n + o) b))
  = arange o (n + o).
Proof.
  intros Hn Hb. unfold py_range. rewrite range_len_pos by lia.
  replace (n + o - o - 1) with (n - 1) by lia.
  set (q := (n - 1) / b).
  assert (Hq : 0 <= q) by (apply Z.div_pos; lia).
  assert (Hlo : b * q <= n - 1) by (apply Z.mul_div_le; lia).
  assert (Hhi : n - 1 < b * Z.succ q) by (apply Z.mul_succ_div_gt; lia).
  rewrite map_map, seq_S, map_app, concat_app. simpl. rewrite app_nil_r.
  rewrite (map_ext_in _
             (fun i : nat => arange (o + Z.of_nat i * b) (o + Z.of_nat i * b + b))).
  - rewrite arange_full_chunks by assumption.
    rewrite Z2Nat.id by lia.
    rewrite Z.min_r by nia.
    rewrite arange_app by nia. f_equal. lia.
  - intros i Hi. apply in_seq in Hi. rewrite Z.min_l by nia. reflexivity.
Qed.

Section SalesIds.
Context {G : Generator}.
Import Sales.

(** The [transaction_id] column of a run is [1 .. num_rows], whatever the
    chunk size. *)
Lemma sales_chunks_tids cfg dfs :
  bad_counts (SalesCall cfg) = false →
  chunks cfg = Ok dfs →
  map transaction_id (concat dfs) = arange 1 (num_rows cfg + 1).
Proof.
  intros Hbad H. simpl in Hbad. rewrite !orb_false_iff in Hbad.
  unfold chunks in H. apply rbind_Ok in H as (rng0 & Hrng0 & H).
  apply rbind_Ok in H as ([t g] & _ & Hf).
  apply frames_chunks in Hf.
  rewrite <- (arange_chunks (num_rows cfg) (chunk_size cfg) 1) by lia.
  fold (starts cfg). rewrite concat_map.
  induction Hf as [|s df ss dfs (g0 & g1 & Hc) _ IH]; simpl; [reflexivity|].
  f_equal; [|exact IH].
  rewrite (sales_chunk_tids _ _ _ _ _ _ Hc). unfold chunk_rows.
  do 2 f_equal. lia.
Qed.

End SalesIds.

(** ** What a returned path says about the file, per dataset *)

Section Files.
Context {G : Generator}.

Lemma sales_file cfg fs p :
  (Sales.create_sales_dataset cfg fs).1 = Ok p →
  bad_counts (SalesCall cfg) = false
  ∧ ∃ dfs, Sales.chunks cfg = Ok dfs
           ∧ files (Sales.create_sales_dataset cfg fs).2 !! p
             = Some (Header Sales.columns
                       :: map Row (map Sales.cells (concat dfs))).
Proof.
  intros H. apply (run_Ok_inv (SalesCall cfg)) in H as (Hbad & -> & dfs & Hem & Hfs).
  split; [exact Hbad|]. simpl in Hem, Hfs.
  apply rbind_Ok in Hem as (tdfs & Hch & [= <-]).
  exists tdfs. split; [exact Hch|].
  rewrite Hfs, written_file, <- concat_map. reflexivity.
Qed.

Lemma customers_file cfg fs p :
  (Customers.create_customers_dataset cfg fs).1 = Ok p →
  bad_counts (CustomersCall cfg) = false
  ∧ ∃ dfs, Customers.chunks cfg = Ok dfs
           ∧ files (Customers.create_customers_dataset cfg fs).2 !! p
             = Some (Header Customers.columns
                       :: map Row (map Customers.cells (concat dfs))).
Proof.
  intros H.
  apply (run_Ok_inv (CustomersCall cfg)) in H as (Hbad & -> & dfs & Hem & Hfs).
  split; [exact Hbad|]. simpl in Hem, Hfs.
  apply rbind_Ok in Hem as (tdfs & Hch & [= <-]).
  exists tdfs. split; [exact Hch|].
  rewrite Hfs, written_file, <- concat_map. reflexivity.
Qed.

Lemma ratings_file cfg fs p :
  (Ratings.create_ratings_dataset cfg fs).1 = Ok p →
  bad_counts (RatingsCall cfg) = false
  ∧ ∃ dfs, Ratings.chunks cfg = Ok dfs
           ∧ files (Ratings.create_ratings_dataset cfg fs).2 !! p
             = Some (Header Ratings.columns
                       :: map Row (map Ratings.cells (concat dfs))).
Proof.
  intros H.
  apply (run_Ok_inv (RatingsCall cfg)) in H as (Hbad & -> & dfs & Hem & Hfs).
  split; [exact Hbad|]. simpl in Hem, Hfs.
  apply rbind_Ok in Hem as (tdfs & Hch & [= <-]).
  exists tdfs. split; [exact Hch|].
  rewrite Hfs, written_file, <- concat_map. reflexivity.
Qed.

Lemma transactions_file cfg fs p :
  (Transactions.create_transactions_dataset cfg fs).1 = Ok p →
  bad_counts (TransactionsCall cfg) = false
  ∧ ∃ dfs, Transactions.chunks cfg = Ok dfs
           ∧ files (Transactions.create_transactions_dataset cfg fs).2 !! p
             = Some (Header Transactions.columns
                       :: map Row (map Transactions.cells (concat dfs))).
Proof.
  intros H.
  apply (run_Ok_inv (TransactionsCall cfg)) in H as (Hbad & -> & dfs & Hem & Hfs).
  split; [exact Hbad|]. simpl in Hem, Hfs.
  apply rbind_Ok in Hem as (tdfs & Hch & [= <-]).
  exists tdfs. split; [exact Hch|].
  rewrite Hfs, written_file, <- concat_map. reflexivity.
Qed.

Lemma orders_file cfg fs p :
  (Orders.create_orders_dataset cfg fs).1 = Ok p →
  bad_counts (OrdersCall cfg) = false
  ∧ ∃ dfs, Orders.chunks cfg = Ok dfs
           ∧ files (Orders.create_orders_dataset cfg fs).2 !! p
             = Some (Header Orders.columns
                       :: map Row (map Orders.cells (concat dfs))).
Proof.
  intros H. apply (run_Ok_inv (OrdersCall cfg)) in H as (Hbad & -> & dfs & Hem & Hfs).
  split; [exact Hbad|]. simpl in Hem, Hfs.
  apply rbind_Ok in Hem as (tdfs & Hch & [= <-]).
  exists tdfs. split; [exact Hch|].
  rewrite Hfs, written_file, <- concat_map. reflexivity.
Qed.

End Files.

(** ** A batch size that covers the whole table *)

Lemma py_range_single (n b : Z) :
  0 < n → n <= b → py_range 1 (n + 1) b = [1].
Proof.
  intros Hn Hb. unfold py_range, range_len.
  destruct (Z.ltb_spec 1 (n + 1)); [|lia].
  replace (n + 1 - 1 - 1) with (n - 1) by lia.
  rewrite Z.div_small by lia. reflexivity.
Qed.

(** With a batch size of at least [num_rows] the loop has one chunk, of
    [num_rows] rows: the frames do not depend on the batch size. *)
Lemma sales_single_chunk {G : Generator} (cfg : Sales.config) (b : Z) :
  0 < Sales.num_rows cfg → Sales.num_rows cfg <= b →
  Sales.chunks (Sales.with_chunk_size cfg b)
  = Sales.chunks (Sales.with_chunk_size cfg (Sales.num_rows cfg)).
Proof.
  intros Hn Hb. destruct cfg as [fo cf n se cs np nc ns sd dy sea].
  simpl in Hn, Hb.
  unfold Sales.chunks, Sales.with_chunk_size, Sales.starts. simpl.
  rewrite !py_range_single by lia.
  destruct (default_rng se) as [rng|e]; [|reflexivity]. cbn [rbind].
  unfold Sales.prepare. simpl.
  repeat match goal with |- context [match ?e with pair _ _ => _ end] =>
    destruct e end.
  destruct (np_datetime64 sd) as [d0|e]; [|reflexivity]. cbn [rbind].
  cbn [frames]. unfold Sales.chunk, Sales.chunk_rows. simpl.
  replace (Z.min b (n - 1 + 1)) with n by lia.
  replace (Z.min n (n - 1 + 1)) with n by lia.
  reflexivity.
Qed.

(** * The claims *)

(** C1 (determinism). Two runs of one generator call, with the same
    configuration and therefore the same seed, on any two filesystems: if
    the first returns its output path, so does the second, and the two
    output files have the same content, line for line. What the file or
    the directory held before the run does not matter. *)
Theorem same_config_same_output {G : Generator} (c : call)
    (fs1 fs2 : filesystem) (p : path) :
  (run c fs1).1 = Ok p →
  (run c fs2).1 = Ok p
  ∧ files (run c fs1).2 !! p = files (run c fs2).2 !! p.
Proof.
  intros H. apply run_Ok_inv in H as (Hbad & -> & dfs & Hem & Hfs).
  pose proof (run_accepts c fs2 Hbad) as H2. rewrite Hem in H2.
  rewrite Hfs, H2. simpl. split; [reflexivity|].
  now rewrite !lookup_insert_eq.
Qed.

Lemma same_config_same_output_witness :
  (stream_run (SalesCall (small_sales 5 2)) stale_fs).1
  = Ok ["out"; "large_sales_data.csv"]
  ∧ files (stream_run (SalesCall (small_sales 5 2)) empty_fs).2
      !! ["out"; "large_sales_data.csv"]
    = files (stream_run (SalesCall (small_sales 5 2)) stale_fs).2
      !! ["out"; "large_sales_data.csv"].
Proof.
  apply (same_config_same_output (G := StreamRng.generator)
           (SalesCall (small_sales 5 2)) empty_fs stale_fs).
  vm_compute. reflexivity.
Defined.

(** C2 (row count). For a call whose counts are positive (row count,
    batch size, domain sizes, calendar window), whose other inputs are
    well formed, and whose integers NumPy takes as they are (a seed that
    is not negative, sizes within int64), on a generator that satisfies
    the sampling laws: the run returns the output path; the [chunk_rows]
    values of the loop add up to the row count; the successive [to_csv]
    calls carry exactly those numbers of rows; and the output file holds
    exactly [num_rows] data rows. The row count need not be a multiple of
    the batch size. *)
Theorem writes_num_rows {G : Generator} {L : GeneratorLaws G} (c : call)
    (fs : filesystem) :
  bad_counts c = false → inputs_ok c = true → machine_ok c = true →
  (run c fs).1 = Ok (output_path_of c)
  ∧ fsum_Z (batch_sizes c) = num_rows_of c
  ∧ map w_rows (new_writes fs (run c fs).2) = map Z.to_nat (batch_sizes c)
  ∧ ∃ ls, files (run c fs).2 !! output_path_of c = Some ls
          ∧ Z.of_nat (length (data_rows ls)) = num_rows_of c.
Proof.
  intros Hbad Hin Hm.
  destruct (emitted_total c Hbad Hin Hm) as (dfs & Hem & Hl).
  pose proof (run_accepts c fs Hbad) as Hr. rewrite Hem in Hr.
  destruct (batch_sizes_sum c Hbad) as [Hsum Hpos].
  rewrite Hr. simpl. repeat split; try assumption.
  - rewrite written_new_writes by reflexivity.
    rewrite <- Hl. destruct dfs as [|df dfs]; [reflexivity|].
    simpl. f_equal. rewrite !map_map. reflexivity.
  - eexists. split; [apply lookup_insert_eq|].
    rewrite data_rows_file, length_map, length_concat_sum, Hl.
    rewrite fsum_Z_to_nat by assumption. exact Hsum.
Qed.

Lemma writes_num_rows_witness :
  (stream_run (SalesCall (small_sales 5 2)) empty_fs).1
  = Ok ["out"; "large_sales_data.csv"]
  ∧ fsum_Z (batch_sizes (SalesCall (small_sales 5 2))) = 5
  ∧ map w_rows (new_writes empty_fs
                  (stream_run (SalesCall (small_sales 5 2)) empty_fs).2)
    = map Z.to_nat (batch_sizes (SalesCall (small_sales 5 2)))
  ∧ ∃ ls, files (stream_run (SalesCall (small_sales 5 2)) empty_fs).2
            !! ["out"; "large_sales_data.csv"] = Some ls
          ∧ Z.of_nat (length (data_rows ls)) = 5.
Proof.
  apply (writes_num_rows (G := StreamRng.generator)
           (SalesCall (small_sales 5 2)) empty_fs);
    vm_compute; reflexivity.
Defined.

(** The example of the specification: 1,000,003 rows in batches of
    200,000 make six batches, the last of three rows. *)
Example batch_sizes_1000003 :
  batch_sizes (SalesCall (Sales.mk_config ["out"] "large_sales_data.csv"
                            1000003 42 200000 10000 500000 500
                            (mk_date 2024 1 1) 366 true))
  = [200000; 200000; 200000; 200000; 200000; 3].
Proof. vm_compute. reflexivity. Qed.

(** C3 as stated (the output does not depend on the batch size) does not
    hold for a generator that draws from one stream: two rows made with
    the same seed in one batch of two, or in two batches of one, differ,
    because each column of each chunk takes the next draws of the stream. *)
Lemma batch_size_changes_rows :
  (stream_run (SalesCall (small_sales 2 1)) empty_fs).1
  = Ok ["out"; "large_sales_data.csv"]
  ∧ (stream_run (SalesCall (small_sales 2 2)) empty_fs).1
    = Ok ["out"; "large_sales_data.csv"]
  ∧ files (stream_run (SalesCall (small_sales 2 1)) empty_fs).2
      !! ["out"; "large_sales_data.csv"]
    ≠ files (stream_run (SalesCall (small_sales 2 2)) empty_fs).2
      !! ["out"; "large_sales_data.csv"].
Proof.
  split; [vm_compute; reflexivity|]. split; [vm_compute; reflexivity|].
  intros H. vm_compute in H. discriminate H.
Qed.

(** C3, amended. For a fixed seed and row count, two sales runs that
    differ only in the batch size both succeed and both write [num_rows]
    data rows whose [transaction_id] column is [1 .. num_rows]. The
    sampled columns are drawn chunk by chunk and can differ between the
    two runs, as the run above shows; when both batch sizes are at least
    [num_rows] there is a single chunk in either run and the two files
    hold the same rows. *)
Theorem batch_size_keeps_count_and_ids {G : Generator} {L : GeneratorLaws G}
    (cfg : Sales.config) (b1 b2 : Z) (fs1 fs2 : filesystem) :
  bad_counts (SalesCall (Sales.with_chunk_size cfg b1)) = false →
  bad_counts (SalesCall (Sales.with_chunk_size cfg b2)) = false →
  valid_date (Sales.start_date cfg) = true →
  machine_ok (SalesCall cfg) = true →
  ∃ rows1 rows2,
    files (Sales.create_sales_dataset (Sales.with_chunk_size cfg b1) fs1).2
      !! output_path_of (SalesCall cfg)
    = Some (Header Sales.columns :: map Row (map Sales.cells rows1))
    ∧ files (Sales.create_sales_dataset (Sales.with_chunk_size cfg b2) fs2).2
        !! output_path_of (SalesCall cfg)
      = Some (Header Sales.columns :: map Row (map Sales.cells rows2))
    ∧ Z.of_nat (length rows1) = Sales.num_rows cfg
    ∧ Z.of_nat (length rows2) = Sales.num_rows cfg
    ∧ map Sales.transaction_id rows1 = arange 1 (Sales.num_rows cfg + 1)
    ∧ map Sales.transaction_id rows2 = arange 1 (Sales.num_rows cfg + 1)
    ∧ (Sales.num_rows cfg <= b1 → Sales.num_rows cfg <= b2 → rows1 = rows2).
Proof.
  intros Hb1 Hb2 Hd Hm.
  assert (Hone : ∀ b fs,
            bad_counts (SalesCall (Sales.with_chunk_size cfg b)) = false →
            ∃ dfs,
              Sales.chunks (Sales.with_chunk_size cfg b) = Ok dfs
              ∧ files (Sales.create_sales_dataset (Sales.with_chunk_size cfg b) fs).2
                  !! output_path_of (SalesCall cfg)
                = Some (Header Sales.columns
                          :: map Row (map Sales.cells (concat dfs)))
              ∧ Z.of_nat (length (concat dfs)) = Sales.num_rows cfg
              ∧ map Sales.transaction_id (concat dfs)
                = arange 1 (Sales.num_rows cfg + 1)).
  { intros b fs Hb.
    destruct (sales_chunks_total (Sales.with_chunk_size cfg b) Hb Hd Hm)
      as (dfs & Hch & Hl).
    pose proof (sales_runs (Sales.with_chunk_size cfg b) fs Hb) as Hr.
    rewrite Hch in Hr. exists dfs. rewrite Hr. simpl.
    split; [exact Hch|]. split; [|split].
    - unfold output_path_of. simpl. rewrite lookup_insert_eq.
      now rewrite <- concat_map.
    - destruct (batch_sizes_sum _ Hb) as [Hsum Hpos]. simpl in Hsum, Hpos.
      rewrite length_concat_sum, Hl, <- map_map.
      now rewrite fsum_Z_to_nat.
    - apply (sales_chunks_tids _ _ Hb Hch). }
  destruct (Hone b1 fs1 Hb1) as (dfs1 & Hc1 & Hf1 & Hn1 & Ht1).
  destruct (Hone b2 fs2 Hb2) as (dfs2 & Hc2 & Hf2 & Hn2 & Ht2).
  exists (concat dfs1), (concat dfs2). repeat split; try assumption.
  intros Hbig1 Hbig2.
  assert (Hn : 0 < Sales.num_rows cfg).
  { simpl in Hb1. rewrite !orb_false_iff in Hb1.
    destruct Hb1 as (((((H1 & _) & _) & _) & _) & _). lia. }
  rewrite (sales_single_chunk cfg b1 Hn Hbig1) in Hc1.
  rewrite (sales_single_chunk cfg b2 Hn Hbig2) in Hc2.
  congruence.
Qed.

Lemma batch_size_keeps_count_and_ids_witness :
  ∃ rows1 rows2,
    files (Sales.create_sales_dataset (G := StreamRng.generator)
             (Sales.with_chunk_size (small_sales 5 2) 2) empty_fs).2
      !! output_path_of (SalesCall (small_sales 5 2))
    = Some (Header Sales.columns :: map Row (map Sales.cells rows1))
    ∧ files (Sales.create_sales_dataset (G := StreamRng.generator)
               (Sales.with_chunk_size (small_sales 5 2) 5) stale_fs).2
        !! output_path_of (SalesCall (small_sales 5 2))
      = Some (Header Sales.columns :: map Row (map Sales.cells rows2))
    ∧ Z.of_nat (length rows1) = Sales.num_rows (small_sales 5 2)
    ∧ Z.of_nat (length rows2) = Sales.num_rows (small_sales 5 2)
    ∧ map Sales.transaction_id rows1
      = arange 1 (Sales.num_rows (small_sales 5 2) + 1)
    ∧ map Sales.transaction_id rows2
      = arange 1 (Sales.num_rows (small_sales 5 2) + 1)
    ∧ (Sales.num_rows (small_sales 5 2) <= 2 →
       Sales.num_rows (small_sales 5 2) <= 5 → rows1 = rows2).
Proof.
  apply (batch_size_keeps_count_and_ids (G := StreamRng.generator)
           (small_sales 5 2) 2 5 empty_fs stale_fs);
    vm_compute; reflexivity.
Defined.

(** C4 as stated (revenue can be recomputed, up to 1e-9, from the
    quantity, unit price and discount rate the row shows) does not hold:
    the row shows the discount rounded to four decimals, while the
    revenue was computed from the discount before that rounding. In this
    run the first row shows revenue 403.91; its shown values give 403.93. *)
Lemma revenue_differs_from_recomputed :
  ∃ r rows,
    files (stream_run (SalesCall (small_sales 5 2)) empty_fs).2
      !! ["out"; "large_sales_data.csv"]
    = Some (Header Sales.columns :: map Row (map Sales.cells (r :: rows)))
    ∧ F.close (Sales.revenue r) (Sales.recomputed_revenue r) 1e-9 = false.
Proof.
  destruct (Sales.table (G := StreamRng.generator) (small_sales 5 2))
    as [[|r rows]|e] eqn:E; try (vm_compute in E; discriminate E).
  exists r, rows.
  assert (Hr : r :: rows
               = match Sales.table (G := StreamRng.generator) (small_sales 5 2) with
                 | Ok l => l | Raise _ => []
                 end) by now rewrite E.
  split.
  - rewrite Hr. vm_compute. reflexivity.
  - replace r with (hd r (r :: rows)) by reflexivity. rewrite Hr.
    vm_compute. reflexivity.
Qed.

(** C4, amended. In every row of the sales table the revenue is
    [round(quantity * unit_price * (1 - d), 2)], where [unit_price] is
    the row's unit price, taken from the price table at its product, and
    [d] is the clipped discount before it is rounded for output: the row
    shows [discount_rate = round(d, 4)]. In every row of the orders table the
    price is [round(unit_price * quantity, 2)], where [unit_price] is the
    entry of the price table for the row's product. *)
Theorem derived_columns {G : Generator} (scfg : Sales.config)
    (ocfg : Orders.config) (fs : filesystem) :
  (∀ p, (Sales.create_sales_dataset scfg fs).1 = Ok p →
     ∃ rng t g rows,
       default_rng (Sales.seed scfg) = Ok rng
       ∧ Sales.prepare scfg rng = Ok (t, g)
       ∧ files (Sales.create_sales_dataset scfg fs).2 !! p
         = Some (Header Sales.columns :: map Row (map Sales.cells rows))
       ∧ Forall (fun r =>
           (∃ d, Sales.discount_rate r = F.round4 d
                 ∧ Sales.revenue r
                   = F.round2 (PrimFloat.mul
                                 (PrimFloat.mul (F.of_Z (Sales.quantity r))
                                                (Sales.unit_price r))
                                 (PrimFloat.sub 1 d)))
           ∧ np_index (Sales.product_unit_price t) (Sales.product_id r - 1)
             = Ok (Sales.unit_price r)) rows)
  ∧ (∀ p, (Orders.create_orders_dataset ocfg fs).1 = Ok p →
     ∃ rng t g rows,
       default_rng (Orders.seed ocfg) = Ok rng
       ∧ Orders.prepare ocfg rng = Ok (t, g)
       ∧ files (Orders.create_orders_dataset ocfg fs).2 !! p
         = Some (Header Orders.columns :: map Row (map Orders.cells rows))
       ∧ Forall (fun r =>
           ∃ unit_price,
             np_index (Orders.product_unit_price t) (Orders.product_id r - 1)
             = Ok unit_price
             ∧ Orders.price r
               = F.round2 (PrimFloat.mul unit_price (F.of_Z (Orders.quantity r))))
           rows).
Proof.
  split; intros p H.
  - apply sales_file in H as (_ & dfs & Hch & Hf).
    unfold Sales.chunks in Hch. apply rbind_Ok in Hch as (rng0 & Hrng0 & Hch).
    apply rbind_Ok in Hch as ([t g] & Hp & Hfr).
    exists rng0, t, g, (concat dfs). split; [exact Hrng0|].
    split; [exact Hp|]. split; [exact Hf|].
    eapply frames_Forall; [|exact Hfr].
    intros s g0 g1 df _ Hc. exact (sales_chunk_rows _ _ _ _ _ _ Hc).
  - apply orders_file in H as (_ & dfs & Hch & Hf).
    unfold Orders.chunks in Hch. apply rbind_Ok in Hch as (rng0 & Hrng0 & Hch).
    apply rbind_Ok in Hch as ([t g] & Hp & Hfr).
    exists rng0, t, g, (concat dfs). split; [exact Hrng0|].
    split; [exact Hp|]. split; [exact Hf|].
    eapply frames_Forall; [|exact Hfr].
    intros s g0 g1 df _ Hc. exact (orders_chunk_rows _ _ _ _ _ _ Hc).
Qed.

Lemma derived_columns_witness :
  ∃ rng t g rows,
    default_rng (G := StreamRng.generator) (Sales.seed (small_sales 5 2)) = Ok rng
    ∧ Sales.prepare (G := StreamRng.generator) (small_sales 5 2) rng = Ok (t, g)
    ∧ files (Sales.create_sales_dataset (G := StreamRng.generator)
               (small_sales 5 2) empty_fs).2 !! ["out"; "large_sales_data.csv"]
      = Some (Header Sales.columns :: map Row (map Sales.cells rows))
    ∧ Forall (fun r =>
        (∃ d, Sales.discount_rate r = F.round4 d
              ∧ Sales.revenue r
                = F.round2 (PrimFloat.mul
                              (PrimFloat.mul (F.of_Z (Sales.quantity r))
                                             (Sales.unit_price r))
                              (PrimFloat.sub 1 d)))
        ∧ np_index (Sales.product_unit_price t) (Sales.product_id r - 1)
          = Ok (Sales.unit_price r)) rows.
Proof.
  apply (proj1 (derived_columns (G := StreamRng.generator)
                  (small_sales 5 2) small_orders empty_fs)).
  vm_compute. reflexivity.
Defined.

(** C5 as stated (no filesystem I/O at all, not even directory creation,
    when validation fails) does not hold: with [num_rows = 0] the sales
    generator raises [ValueError], yet the directory [out], absent
    before the call, exists after it. *)
Lemma mkdir_precedes_validation :
  bad_counts (SalesCall (small_sales 0 2)) = true
  ∧ (stream_run (SalesCall (small_sales 0 2)) empty_fs).1
    = Raise (ValueError "num_rows must be > 0")
  ∧ (["out"] ∉ dirs empty_fs)
  ∧ (["out"] ∈ dirs ((stream_run (SalesCall (small_sales 0 2)) empty_fs).2)).
Proof.
  split; [reflexivity|]. split; [vm_compute; reflexivity|]. split.
  - unfold empty_fs. simpl. set_solver.
  - unfold stream_run, run, Sales.create_sales_dataset, io_bind, io_effect.
    simpl. set_solver.
Qed.

(** C5, amended. A call with a non-positive row count, batch size, domain
    size or calendar window raises [ValueError] after the destination
    directory (with its parents) has been created and before anything
    else: no file is created or changed and no [to_csv] call is made. *)
Theorem invalid_counts_touch_no_file {G : Generator} (c : call) (fs : filesystem) :
  bad_counts c = true →
  (∃ msg, (run c fs).1 = Raise (ValueError msg))
  ∧ files (run c fs).2 = files fs
  ∧ writes (run c fs).2 = writes fs
  ∧ dirs (run c fs).2 = dirs fs ∪ list_to_set (ancestors (folder_of c)).
Proof.
  intros Hbad. destruct (run_rejects c fs Hbad) as [msg Hr]. rewrite Hr.
  simpl. eauto.
Qed.

Lemma invalid_counts_touch_no_file_witness :
  (∃ msg, (stream_run (SalesCall (small_sales 0 2)) stale_fs).1
          = Raise (ValueError msg))
  ∧ files (stream_run (SalesCall (small_sales 0 2)) stale_fs).2 = files stale_fs
  ∧ writes (stream_run (SalesCall (small_sales 0 2)) stale_fs).2 = writes stale_fs
  ∧ dirs (stream_run (SalesCall (small_sales 0 2)) stale_fs).2
    = dirs stale_fs ∪ list_to_set (ancestors ["out"]).
Proof.
  apply (invalid_counts_touch_no_file (G := StreamRng.generator)
           (SalesCall (small_sales 0 2)) stale_fs).
  vm_compute. reflexivity.
Defined.

(** C6: the weight the code gives to a day, evaluated. The index
    [(day_count + 4) % 7] is 0 on Sundays, not on Mondays, so the weight
    list, written Monday first, is applied one day late: Sunday
    2024-01-07 gets the first entry (0.95 in sales and orders, 1.00 in
    ratings) and Wednesday 2024-01-03 gets 1.02; over the default window
    (the 366 days from 2024-01-01) the index is always Python's weekday
    plus one, modulo 7. *)
Theorem weekday_index_is_one_day_late :
  weekday_name (mk_date 2024 1 7) = Sunday
  ∧ table_at Sales.weekday_weights
             (weekday_index (days_from_civil (mk_date 2024 1 7))) = 0.95%float
  ∧ Orders.day_weight (days_from_civil (mk_date 2024 1 7)) = 0.95%float
  ∧ Ratings.day_weight (days_from_civil (mk_date 2024 1 7)) = 1.00%float
  ∧ weekday_name (mk_date 2024 1 3) = Wednesday
  ∧ table_at Sales.weekday_weights
             (weekday_index (days_from_civil (mk_date 2024 1 3))) = 1.02%float
  ∧ Forall (fun z => weekday_index z
                     = (python_weekday (civil_from_days z) + 1) mod 7)
           (map (fun i => days_from_civil (mk_date 2024 1 1) + i) (arange 0 366)).
Proof.
  do 6 (split; [vm_compute; reflexivity|]).
  apply List.Forall_forall. intros z Hz.
  apply in_map_iff in Hz as (i & <- & Hi). apply arange_In in Hi.
  assert (Hall : forallb (fun i : nat =>
                   weekday_index (days_from_civil (mk_date 2024 1 1) + Z.of_nat i)
                   =? (python_weekday
                         (civil_from_days
                            (days_from_civil (mk_date 2024 1 1) + Z.of_nat i)) + 1)
                      mod 7) (seq 0 366) = true)
    by (vm_compute; reflexivity).
  rewrite forallb_forall in Hall.
  specialize (Hall (Z.to_nat i)). rewrite Z2Nat.id in Hall by lia.
  apply Z.eqb_eq, Hall, in_seq. lia.
Qed.

(** C7. On a generator that satisfies the sampling laws, every row of
    every file with sampled identifier columns (sales, ratings,
    transactions, orders) has each sampled identifier between 1 and the
    configured size of its domain, both included. *)
Theorem sampled_ids_in_domain {G : Generator} {L : GeneratorLaws G}
    (fs : filesystem) (p : path) :
  (∀ cfg, (Sales.create_sales_dataset cfg fs).1 = Ok p →
     ∃ rows,
       files (Sales.create_sales_dataset cfg fs).2 !! p
       = Some (Header Sales.columns :: map Row (map Sales.cells rows))
       ∧ Forall (fun r =>
           1 <= Sales.product_id r <= Sales.num_products cfg
           ∧ 1 <= Sales.customer_id r <= Sales.num_customers cfg
           ∧ 1 <= Sales.store_id r <= Sales.num_stores cfg) rows)
  ∧ (∀ cfg, (Ratings.create_ratings_dataset cfg fs).1 = Ok p →
     ∃ rows,
       files (Ratings.create_ratings_dataset cfg fs).2 !! p
       = Some (Header Ratings.columns :: map Row (map Ratings.cells rows))
       ∧ Forall (fun r =>
           1 <= Ratings.user_id r <= Ratings.num_users cfg
           ∧ 1 <= Ratings.product_id r <= Ratings.num_products cfg) rows)
  ∧ (∀ cfg, (Transactions.create_transactions_dataset cfg fs).1 = Ok p →
     ∃ rows,
       files (Transactions.create_transactions_dataset cfg fs).2 !! p
       = Some (Header Transactions.columns
                 :: map Row (map Transactions.cells rows))
       ∧ Forall (fun r =>
           1 <= Transactions.customer_id r <= Transactions.num_customers cfg
           ∧ 1 <= Transactions.product_id r <= Transactions.num_products cfg)
           rows)
  ∧ (∀ cfg, (Orders.create_orders_dataset cfg fs).1 = Ok p →
     ∃ rows,
       files (Orders.create_orders_dataset cfg fs).2 !! p
       = Some (Header Orders.columns :: map Row (map Orders.cells rows))
       ∧ Forall (fun r =>
           1 <= Orders.product_id r <= Orders.num_products cfg
           ∧ 1 <= Orders.customer_id r <= Orders.num_customers cfg
           ∧ 1 <= Orders.store_id r <= Orders.num_stores cfg) rows).
Proof.
  repeat split; intros cfg H.
  - apply sales_file in H as (Hbad & dfs & Hch & Hf).
    simpl in Hbad. rewrite !orb_false_iff in Hbad.
    unfold Sales.chunks in Hch. apply rbind_Ok in Hch as (rng0 & Hrng0 & Hch).
    apply rbind_Ok in Hch as ([t g] & Hp & Hfr).
    apply sales_prepare_inv in Hp as (_ & Hids & _).
    exists (concat dfs). split; [exact Hf|].
    eapply frames_Forall; [|exact Hfr].
    intros s g0 g1 df _ Hc.
    apply (sales_chunk_ids cfg t s g0 df g1); auto; lia.
  - apply ratings_file in H as (Hbad & dfs & Hch & Hf).
    simpl in Hbad. rewrite !orb_false_iff in Hbad.
    unfold Ratings.chunks in Hch. apply rbind_Ok in Hch as (rng0 & Hrng0 & Hch).
    apply rbind_Ok in Hch as (t & Hp & Hfr).
    exists (concat dfs). split; [exact Hf|].
    eapply frames_Forall; [|exact Hfr].
    intros s g0 g1 df _ Hc.
    apply (ratings_chunk_ids cfg t s g0 df g1); auto; lia.
  - apply transactions_file in H as (Hbad & dfs & Hch & Hf).
    simpl in Hbad. rewrite !orb_false_iff in Hbad.
    unfold Transactions.chunks in Hch.
    destruct (negb _); [discriminate|].
    apply rbind_Ok in Hch as (rng0 & Hrng0 & Hch).
    exists (concat dfs). split; [exact Hf|].
    eapply frames_Forall; [|exact Hch].
    intros s g0 g1 df _ Hc.
    apply (transactions_chunk_ids cfg s g0 df g1); auto; lia.
  - apply orders_file in H as (Hbad & dfs & Hch & Hf).
    simpl in Hbad. rewrite !orb_false_iff in Hbad.
    unfold Orders.chunks in Hch. apply rbind_Ok in Hch as (rng0 & Hrng0 & Hch).
    apply rbind_Ok in Hch as ([t g] & Hp & Hfr).
    apply orders_prepare_inv in Hp as (_ & Hids & _).
    exists (concat dfs). split; [exact Hf|].
    eapply frames_Forall; [|exact Hfr].
    intros s g0 g1 df _ Hc.
    apply (orders_chunk_ids cfg t s g0 df g1); auto; lia.
Qed.

Lemma sampled_ids_in_domain_witness :
  ∃ rows,
    files (Ratings.create_ratings_dataset (G := StreamRng.generator)
             small_ratings empty_fs).2 !! ["out"; "ratings.csv"]
    = Some (Header Ratings.columns :: map Row (map Ratings.cells rows))
    ∧ Forall (fun r =>
        1 <= Ratings.user_id r <= Ratings.num_users small_ratings
        ∧ 1 <= Ratings.product_id r <= Ratings.num_products small_ratings) rows.
Proof.
  apply (proj1 (proj2 (sampled_ids_in_domain (G := StreamRng.generator)
                         empty_fs ["out"; "ratings.csv"]))).
  vm_compute. reflexivity.
Defined.

(** C8. A [year_prob] whose length is not 3 makes the transactions
    generator raise [ValueError] at its argument checks; no file is
    created or changed and no row is written. *)
Theorem year_prob_length_checked {G : Generator} (cfg : Transactions.config)
    (fs : filesystem) :
  length (Transactions.year_prob cfg) ≠ 3%nat →
  (∃ msg, (Transactions.create_transactions_dataset cfg fs).1
          = Raise (ValueError msg))
  ∧ files (Transactions.create_transactions_dataset cfg fs).2 = files fs
  ∧ writes (Transactions.create_transactions_dataset cfg fs).2 = writes fs.
Proof.
  intros Hlen.
  destruct (transactions_rejects cfg fs (or_intror Hlen)) as [msg Hr].
  rewrite Hr. simpl. eauto.
Qed.

Lemma year_prob_length_checked_witness :
  (∃ msg, (Transactions.create_transactions_dataset (G := StreamRng.generator)
             (small_transactions [0.5; 0.5]%float) empty_fs).1
          = Raise (ValueError msg))
  ∧ files (Transactions.create_transactions_dataset (G := StreamRng.generator)
             (small_transactions [0.5; 0.5]%float) empty_fs).2 = files empty_fs
  ∧ writes (Transactions.create_transactions_dataset (G := StreamRng.generator)
              (small_transactions [0.5; 0.5]%float) empty_fs).2 = writes empty_fs.
Proof.
  apply (year_prob_length_checked (G := StreamRng.generator)
           (small_transactions [0.5; 0.5]%float) empty_fs).
  simpl. lia.
Defined.

(** C9. Whenever a generator call returns its output path, the file at
    that path is one header line, with the column names of the dataset's
    schema in order, followed by data rows only; and the run's [to_csv]
    calls all went to that path, the first in mode ['w'] with the header,
    every later one in mode ['a'] without it. *)
Theorem header_written_once {G : Generator} (c : call) (fs : filesystem) (p : path) :
  (run c fs).1 = Ok p →
  ∃ (rows : list (list cell)) (first : nat) (others : list nat),
    files (run c fs).2 !! p = Some (Header (columns_of c) :: map Row rows)
    ∧ List.filter is_header (Header (columns_of c) :: map Row rows)
      = [Header (columns_of c)]
    ∧ new_writes fs (run c fs).2
      = mk_write p ModeW true first :: map (mk_write p ModeA false) others.
Proof.
  intros H. apply run_Ok_inv in H as (Hbad & -> & dfs & Hem & Hfs).
  rewrite Hfs.
  assert (Hne : dfs ≠ []).
  { pose proof (batch_sizes_sum c Hbad) as [Hsum _].
    intros ->.
    assert (Hst : batch_sizes c ≠ []).
    { intros E. rewrite E in Hsum. simpl in Hsum.
      destruct c; simpl in Hbad; rewrite !orb_false_iff in Hbad; simpl in Hsum;
        lia. }
    apply Hst. clear Hsum Hfs Hst.
    destruct c as [cfg|cfg|cfg|cfg|cfg|cfg]; simpl in Hem |- *;
      apply rbind_Ok in Hem as (tdfs & Hch & Hmap);
      injection Hmap as Hmap; apply map_eq_nil in Hmap; subst tdfs.
    - unfold Sales.chunks in Hch.
      apply rbind_Ok in Hch as (rng0 & _ & Hch).
      apply rbind_Ok in Hch as ([t g] & _ & Hf).
      destruct (Sales.starts cfg); [reflexivity|]. simpl in Hf.
      apply rbind_Ok in Hf as ([df g1] & _ & Hf).
      apply rbind_Ok in Hf as (dfs' & _ & Hf). discriminate.
    - unfold Customers.chunks in Hch.
      apply rbind_Ok in Hch as (rng0 & _ & Hch).
      apply rbind_Ok in Hch as (d0 & _ & Hf).
      destruct (Customers.starts cfg); [reflexivity|]. simpl in Hf.
      apply rbind_Ok in Hf as ([df g1] & _ & Hf).
      apply rbind_Ok in Hf as (dfs' & _ & Hf). discriminate.
    - unfold Ratings.chunks in Hch.
      apply rbind_Ok in Hch as (rng0 & _ & Hch).
      apply rbind_Ok in Hch as (t & _ & Hf).
      destruct (Ratings.starts cfg); [reflexivity|]. simpl in Hf.
      apply rbind_Ok in Hf as ([df g1] & _ & Hf).
      apply rbind_Ok in Hf as (dfs' & _ & Hf). discriminate.
    - unfold Products.chunks in Hch.
      apply rbind_Ok in Hch as (rng0 & Hrng0 & Hch).
      destruct (Products.starts cfg); [reflexivity|]. simpl in Hch.
      apply rbind_Ok in Hch as ([df g1] & _ & Hf).
      apply rbind_Ok in Hf as (dfs' & _ & Hf). discriminate.
    - unfold Transactions.chunks in Hch.
      destruct (negb _); [discriminate|].
      apply rbind_Ok in Hch as (rng0 & Hrng0 & Hch).
      destruct (Transactions.starts cfg); [reflexivity|]. simpl in Hch.
      apply rbind_Ok in Hch as ([df g1] & _ & Hf).
      apply rbind_Ok in Hf as (dfs' & _ & Hf). discriminate.
    - unfold Orders.chunks in Hch.
      apply rbind_Ok in Hch as (rng0 & _ & Hch).
      apply rbind_Ok in Hch as ([t g] & _ & Hf).
      destruct (Orders.starts cfg); [reflexivity|]. simpl in Hf.
      apply rbind_Ok in Hf as ([df g1] & _ & Hf).
      apply rbind_Ok in Hf as (dfs' & _ & Hf). discriminate. }
  destruct dfs as [|df dfs]; [congruence|].
  exists (concat (df :: dfs)), (length df), (map length dfs).
  split; [apply written_file|]. split; [apply headers_file|].
  now rewrite written_new_writes by reflexivity.
Qed.

Lemma header_written_once_witness :
  ∃ (rows : list (list cell)) (first : nat) (others : list nat),
    files (stream_run (SalesCall (small_sales 5 2)) stale_fs).2
      !! ["out"; "large_sales_data.csv"]
    = Some (Header Sales.columns :: map Row rows)
    ∧ List.filter is_header (Header Sales.columns :: map Row rows)
      = [Header Sales.columns]
    ∧ new_writes stale_fs (stream_run (SalesCall (small_sales 5 2)) stale_fs).2
      = mk_write ["out"; "large_sales_data.csv"] ModeW true first
        :: map (mk_write ["out"; "large_sales_data.csv"] ModeA false) others.
Proof.
  apply (header_written_once (G := StreamRng.generator)
           (SalesCall (small_sales 5 2)) stale_fs).
  vm_compute. reflexivity.
Defined.

(** C10. In every row of the customers file the state is the value of
    [state_by_city] at the row's city, and the pair is one of
    New York/NY, Los Angeles/CA, Chicago/IL, Houston/TX. *)
Theorem state_follows_city {G : Generator} (cfg : Customers.config)
    (fs : filesystem) (p : path) :
  (Customers.create_customers_dataset cfg fs).1 = Ok p →
  ∃ rows,
    files (Customers.create_customers_dataset cfg fs).2 !! p
    = Some (Header Customers.columns :: map Row (map Customers.cells rows))
    ∧ Forall (fun r =>
        Customers.state_by_city !! Customers.city r = Some (Customers.state r)
        ∧ In (Customers.city r, Customers.state r)
             [("New York", "NY"); ("Los Angeles", "CA");
              ("Chicago", "IL"); ("Houston", "TX")]) rows.
Proof.
  intros H. apply customers_file in H as (_ & dfs & Hch & Hf).
  unfold Customers.chunks in Hch. apply rbind_Ok in Hch as (rng0 & Hrng0 & Hch).
  apply rbind_Ok in Hch as (d0 & _ & Hfr).
  exists (concat dfs). split; [exact Hf|].
  eapply frames_Forall; [|exact Hfr].
  intros s g0 g1 df _ Hc.
  pose proof (customers_chunk_states _ _ _ _ _ _ Hc) as Hst.
  eapply List.Forall_impl; [|exact Hst]. intros r Hr. split; [exact Hr|].
  apply list_elem_of_In.
  apply (elem_of_list_to_map_2 (M := gmap string)). exact Hr.
Qed.

Lemma state_follows_city_witness :
  ∃ rows,
    files (Customers.create_customers_dataset (G := StreamRng.generator)
             small_customers empty_fs).2 !! ["out"; "customers.csv"]
    = Some (Header Customers.columns :: map Row (map Customers.cells rows))
    ∧ Forall (fun r =>
        Customers.state_by_city !! Customers.city r = Some (Customers.state r)
        ∧ In (Customers.city r, Customers.state r)
             [("New York", "NY"); ("Los Angeles", "CA");
              ("Chicago", "IL"); ("Houston", "TX")]) rows.
Proof.
  apply (state_follows_city (G := StreamRng.generator) small_customers empty_fs).
  vm_compute. reflexivity.
Defined.

(** * Further properties of the generators *)

(** ** Rows of the sales and orders tables *)

Section SalesFields.
Context {G : Generator} {L : GeneratorLaws G}.
Import Sales.

Lemma sales_chunk_fields cfg t s g df g' :
  0 < days cfg →
  day_index t = arange 0 (days cfg) →
  chunk cfg t s g = Ok (df, g') →
  Forall (fun r => start_date_np t <= date r < start_date_np t + days cfg
                   ∧ 1 <= quantity r <= 5
                   ∧ In (channel r) channels
                   ∧ In (region r) regions) df.
Proof.
  intros Hd Hidx. unfold chunk. intros H. split_draws H.
  apply rbind_Ok in H as (up & Htake & H).
  apply rbind_Ok in H as (df0 & Hframe & H). injection H as <- <-.
  apply sales_frame_inv in Hframe as [Hlen ->]. split_lengths Hlen.
  rewrite !length_map in *.
  apply List.Forall_forall. intros r Hin.
  apply in_map_iff in Hin as (i & <- & Hi). apply in_seq in Hi. simpl.
  assert (Hoff : 0 <= nth i l 0 < days cfg).
  { assert (Hin : In (nth i l 0) l) by (apply nth_In; lia).
    destruct (date_prob t) as [p|].
    - pose proof (choice_member _ (day_index t) p
                    (Z.to_nat (chunk_rows cfg s)) g (nth i l 0)) as Hm.
      rewrite Edraw, Hidx in Hm. apply arange_In in Hm; [lia | exact Hin].
    - pose proof (integers_range 0 (days cfg)
                    (Z.to_nat (chunk_rows cfg s)) g (nth i l 0)) as Hm.
      rewrite Edraw in Hm. simpl in Hm. apply Hm; [law_side | exact Hin]. }
  rewrite nth_map_lt with (d := 0) by lia.
  pose proof (integers_range 1 6 (Z.to_nat (chunk_rows cfg s)) b4 (nth i l5 0)) as Hq.
  rewrite Edraw5 in Hq. simpl in Hq.
  assert (1 <= nth i l5 0 < 6) by (apply Hq; [law_side | apply nth_In; lia]).
  pose proof (choice_member _ channels channel_prob
                (Z.to_nat (chunk_rows cfg s)) b3 (nth i l4 "")) as Hc.
  rewrite Edraw4 in Hc. simpl in Hc.
  pose proof (choice_member _ regions region_prob
                (Z.to_nat (chunk_rows cfg s)) b2 (nth i l3 "")) as Hr.
  rewrite Edraw3 in Hr. simpl in Hr.
  repeat split; try lia.
  - apply Hc, nth_In. lia.
  - apply Hr, nth_In. lia.
Qed.

End SalesFields.

Section OrdersFields.
Context {G : Generator} {L : GeneratorLaws G}.
Import Orders.

Lemma orders_chunk_fields cfg t s g df g' :
  0 < days cfg →
  day_index t = arange 0 (days cfg) →
  chunk cfg t s g = Ok (df, g') →
  Forall (fun r => start_date_np t <= order_date r < start_date_np t + days cfg
                   ∧ 1 <= quantity r <= 9
                   ∧ In (channel r) channels
                   ∧ In (status r) statuses) df.
Proof.
  intros Hd Hidx. unfold chunk. intros H. split_draws H.
  apply rbind_Ok in H as (up & Htake & H). split_draws H.
  apply rbind_Ok in H as (df0 & Hframe & H). injection H as <- <-.
  apply orders_frame_inv in Hframe as [Hlen ->]. split_lengths Hlen.
  rewrite !length_map in *.
  apply List.Forall_forall. intros r Hin.
  apply in_map_iff in Hin as (i & <- & Hi). apply in_seq in Hi. simpl.
  assert (Hoff : 0 <= nth i l5 0 < days cfg).
  { assert (Hin : In (nth i l5 0) l5) by (apply nth_In; lia).
    destruct (date_prob t) as [p|].
    - pose proof (choice_member _ (day_index t) p
                    (Z.to_nat (chunk_rows cfg s)) b4 (nth i l5 0)) as Hm.
      rewrite Edraw5, Hidx in Hm. apply arange_In in Hm; [lia | exact Hin].
    - pose proof (integers_range 0 (days cfg)
                    (Z.to_nat (chunk_rows cfg s)) b4 (nth i l5 0)) as Hm.
      rewrite Edraw5 in Hm. simpl in Hm. apply Hm; [law_side | exact Hin]. }
  rewrite nth_map_lt with (d := 0) by lia.
  pose proof (integers_range 1 10 (Z.to_nat (chunk_rows cfg s)) b (nth i l0 0)) as Hq.
  rewrite Edraw0 in Hq. simpl in Hq.
  assert (1 <= nth i l0 0 < 10) by (apply Hq; [law_side | apply nth_In; lia]).
  pose proof (choice_member _ channels channel_prob
                (Z.to_nat (chunk_rows cfg s)) b2 (nth i l3 "")) as Hc.
  rewrite Edraw3 in Hc. simpl in Hc.
  pose proof (choice_member _ statuses status_prob
                (Z.to_nat (chunk_rows cfg s)) b3 (nth i l4 "")) as Hr.
  rewrite Edraw4 in Hr. simpl in Hr.
  repeat split; try lia.
  - apply Hc, nth_In. lia.
  - apply Hr, nth_In. lia.
Qed.

End OrdersFields.

(** Laws of a drawn array, by the array. *)
Ltac range_of l :=
  match goal with
  | E : rng_integers ?lo ?hi ?n ?g = (l, _) |- _ =>
      let H := fresh "Hrange" in
      pose proof (integers_range lo hi n g) as H; rewrite E in H; simpl in H
  end.

Ltac member_of l :=
  match goal with
  | E : rng_choice ?a ?p ?n ?g = (l, _) |- _ =>
      let H := fresh "Hmem" in
      pose proof (choice_member _ a p n g) as H; rewrite E in H; simpl in H
  end.

Lemma append_empty_r (s : string) : String.append s "" = s.
Proof.
  induction s as [|a s IH]; [reflexivity|].
  change (String a (String.append s "") = String a s). now rewrite IH.
Qed.

Section CustomersFields.
Context {G : Generator}.
Import Customers.

Lemma customers_chunk_names cfg d0 s g df g' :
  chunk cfg d0 s g = Ok (df, g') →
  Forall (fun r => first_name r = "User" ++ str (customer_id r)
                   ∧ last_name r = "Lastname" ++ str (customer_id r)
                   ∧ email r = ("user" ++ str (customer_id r)) ++ "@example.com"
                   ∧ 18 <= age r <= 80) df.
Proof.
  unfold chunk. intros H. split_draws H.
  apply rbind_Ok in H as (st & Hst & H).
  apply rbind_Ok in H as (df0 & Hframe & H). injection H as <- <-.
  apply customers_frame_inv in Hframe as [Hlen ->]. split_lengths Hlen.
  rewrite !length_map in *.
  apply List.Forall_forall. intros r Hin.
  apply in_map_iff in Hin as (i & <- & Hi). apply in_seq in Hi. simpl.
  set (ids := arange (start_customer_id cfg + s)
                     (start_customer_id cfg + s + chunk_rows cfg s)) in *.
  rewrite !map_map.
  rewrite !nth_map_lt with (d := 0) by lia.
  rewrite nth_map_lt with (d := PrimFloat.nan) by lia.
  repeat split; unfold clipZ; lia.
Qed.

End CustomersFields.

Section CustomersFieldsLaws.
Context {G : Generator} {L : GeneratorLaws G}.
Import Customers.

Lemma customers_chunk_fields cfg d0 s g df g' :
  0 < days cfg →
  chunk cfg d0 s g = Ok (df, g') →
  Forall (fun r => d0 <= signup_date r < d0 + days cfg
                   ∧ In (city r) cities
                   ∧ In (loyalty_tier r) tiers
                   ∧ (∃ z, 0 <= z < 10000 ∧ phone r = "555-" ++ zfill (str z) 4)
                   ∧ (∃ z, 1 <= z < 10000 ∧ address r = str z ++ " Main St")
                   ∧ (∃ z, 10000 <= z < 100000 ∧ zip_code r = zfill (str z) 5)) df.
Proof.
  intros Hd. unfold chunk. intros H. split_draws H.
  apply rbind_Ok in H as (st & Hst & H).
  apply rbind_Ok in H as (df0 & Hframe & H). injection H as <- <-.
  apply customers_frame_inv in Hframe as [Hlen ->]. split_lengths Hlen.
  rewrite !length_map in *.
  apply List.Forall_forall. intros r Hin.
  apply in_map_iff in Hin as (i & <- & Hi). apply in_seq in Hi. simpl.
  range_of l1. range_of l3. range_of l4. range_of l5.
  member_of l2. member_of l6.
  rewrite !nth_map_lt with (d := 0) by lia.
  assert (0 <= nth i l1 0 < days cfg) by (apply Hrange; [law_side | apply nth_In; lia]).
  split; [lia|]. split; [apply Hmem, nth_In; lia|].
  split; [apply Hmem0, nth_In; lia|].
  split; [|split].
  - exists (nth i l3 0). split; [|reflexivity].
    apply Hrange0; [law_side | apply nth_In; lia].
  - exists (nth i l4 0). split.
    + apply Hrange1; [law_side | apply nth_In; lia].
    + apply append_empty_r.
  - exists (nth i l5 0). split; [|reflexivity].
    apply Hrange2; [law_side | apply nth_In; lia].
Qed.

End CustomersFieldsLaws.

(** ** Rows of the ratings and products tables *)

Section RatingsFields.
Context {G : Generator} {L : GeneratorLaws G}.
Import Ratings.

Lemma ratings_chunk_fields cfg t s g df g' :
  0 < days cfg →
  day_index t = arange 0 (days cfg) →
  chunk cfg t s g = Ok (df, g') →
  Forall (fun r => 1 <= rating r <= 5
                   ∧ start_ts t <= timestamp r < start_ts t + days cfg * 86400) df.
Proof.
  intros Hd Hidx. unfold chunk. intros H. split_draws H.
  apply rbind_Ok in H as (df0 & Hframe & H). injection H as <- <-.
  apply ratings_frame_inv in Hframe as [Hlen ->]. split_lengths Hlen.
  assert (Hl23 : length l2 = length l3).
  { pose proof (integers_length 0 (24 * 60 * 60) (Z.to_nat (chunk_rows cfg s)) b2)
      as X3. rewrite Edraw3 in X3. simpl in X3. rewrite X3 by reflexivity.
    destruct (date_prob t) as [p|].
    - pose proof (choice_length _ (day_index t) p (Z.to_nat (chunk_rows cfg s)) b1)
        as X2. rewrite Edraw2 in X2. apply X2. rewrite Hidx.
      apply arange_nonempty. lia.
    - pose proof (integers_length 0 (days cfg) (Z.to_nat (chunk_rows cfg s)) b1)
        as X2. rewrite Edraw2 in X2. apply X2. law_side. }
  rewrite length_zip_with_eq in * by exact Hl23.
  apply List.Forall_forall. intros r Hin.
  apply in_map_iff in Hin as (i & <- & Hi). apply in_seq in Hi. simpl.
  member_of l1. range_of l3.
  assert (Hr : In (nth i l1 0) rating_values) by (apply Hmem, nth_In; lia).
  assert (Hs : 0 <= nth i l3 0 < 24 * 60 * 60)
    by (apply Hrange; [law_side | apply nth_In; lia]).
  assert (Hoff : 0 <= nth i l2 0 < days cfg).
  { assert (Hin : In (nth i l2 0) l2) by (apply nth_In; lia).
    destruct (date_prob t) as [p|].
    - member_of l2. rewrite Hidx in Hmem0.
      specialize (Hmem0 _ Hin). apply arange_In in Hmem0. lia.
    - range_of l2. apply Hrange0; [law_side | exact Hin]. }
  rewrite nth_zip_with_lt with (da := 0) (db := 0) by lia.
  split; [|lia].
  simpl in Hr. lia.
Qed.

End RatingsFields.

Section ProductsFields.
Context {G : Generator}.
Import Products.

Lemma products_frame_inv pid cat pr stk br act df :
  frame pid cat pr stk br act = Ok df →
  Forall (fun m => m = length pid)
    [length cat; length pr; length stk; length br; length act]
  ∧ df = map (fun i : nat =>
                mk_row (nth i pid 0) (nth i cat "") (nth i pr PrimFloat.nan)
                       (nth i stk 0) (nth i br "") (nth i act 0))
             (seq 0 (length pid)).
Proof.
  unfold frame. intros H. apply rbind_Ok in H as (u & Hc & H).
  apply frame_check_Ok in Hc. injection H as <-. split; [exact Hc | reflexivity].
Qed.

Lemma products_chunk_fields cfg s g df g' :
  chunk cfg s g = Ok (df, g') →
  Forall (fun r => 0 <= stock r <= 1000 ∧ (is_active r = 0 ∨ is_active r = 1)) df.
Proof.
  unfold chunk. intros H. split_draws H.
  apply rbind_Ok in H as (df0 & Hframe & H). injection H as <- <-.
  apply products_frame_inv in Hframe as [Hlen ->]. split_lengths Hlen.
  rewrite !length_map in *.
  apply List.Forall_forall. intros r Hin.
  apply in_map_iff in Hin as (i & <- & Hi). apply in_seq in Hi. simpl.
  rewrite nth_map_lt with (d := 0) by lia.
  rewrite nth_map_lt with (d := PrimFloat.nan) by lia.
  split; [unfold clipZ; lia|].
  destruct (PrimFloat.ltb _ _); auto.
Qed.

Lemma products_chunk_ids cfg s g df g' :
  chunk cfg s g = Ok (df, g') →
  map product_id df = arange (1 + s) (1 + s + chunk_rows cfg s).
Proof.
  unfold chunk. intros H. split_draws H.
  apply rbind_Ok in H as (df0 & Hframe & H). injection H as <- <-.
  apply products_frame_inv in Hframe as [_ ->].
  rewrite map_map. simpl.
  apply nth_ext with (d := 0) (d' := 0).
  - now rewrite length_map, length_seq.
  - intros i Hi. rewrite length_map, length_seq in Hi.
    rewrite nth_map_lt with (d := 0%nat) by now rewrite length_seq.
    now rewrite seq_nth.
Qed.

End ProductsFields.

Section ProductsFieldsLaws.
Context {G : Generator} {L : GeneratorLaws G}.
Import Products.

Lemma products_chunk_categories cfg s g df g' :
  chunk cfg s g = Ok (df, g') →
  Forall (fun r => In (category r) categories ∧ In (brand r) brands) df.
Proof.
  unfold chunk. intros H. split_draws H.
  apply rbind_Ok in H as (df0 & Hframe & H). injection H as <- <-.
  apply products_frame_inv in Hframe as [Hlen ->]. split_lengths Hlen.
  apply List.Forall_forall. intros r Hin.
  apply in_map_iff in Hin as (i & <- & Hi). apply in_seq in Hi.
  cbn [category brand].
  member_of l. member_of l0.
  split; [apply Hmem | apply Hmem0]; apply nth_In; lia.
Qed.

End ProductsFieldsLaws.

(** ** Rows of the transactions table *)

(** After [arr[mask] = values], a position where the mask is set holds
    one of the values, and every other position holds what it held. *)
Lemma mask_fill_nth {A : Type} (d : A) (mask : list bool) :
  ∀ (values arr : list A) (i : nat),
    length values = mask_count mask →
    length arr = length mask →
    (i < length mask)%nat →
    (nth i mask false = true → In (nth i (mask_fill mask values arr) d) values)
    ∧ (nth i mask false = false → nth i (mask_fill mask values arr) d = nth i arr d).
Proof.
  induction mask as [|m mask IH]; intros values arr i Hv Ha Hi; simpl in Hi.
  - lia.
  - destruct arr as [|a arr]; [discriminate|]. simpl in Ha.
    destruct m; unfold mask_count in Hv; simpl in Hv.
    + destruct values as [|v values]; [discriminate|]. simpl in Hv.
      destruct i as [|i]; simpl.
      * split; [now left | discriminate].
      * destruct (IH values arr i) as [IH1 IH2];
          [unfold mask_count; lia | lia | lia |].
        split; [intros Hm; right; auto | exact IH2].
    + destruct i as [|i]; simpl.
      * split; [discriminate | reflexivity].
      * apply IH; [exact Hv | lia | lia].
Qed.

Lemma existsb_id_false_nth (mask : list bool) (i : nat) :
  existsb id mask = false → nth i mask false = false.
Proof.
  revert i. induction mask as [|m mask IH]; intros [|i] H; simpl in *;
    try reflexivity.
  - now destruct m.
  - apply IH. now destruct m.
Qed.

(** The day counts of a year handled by the generator are days of that year. *)
Lemma year_of_day (y o : Z) :
  In y Transactions.years → 0 <= o < Transactions.year_days y →
  c_year (civil_from_days (Transactions.year_start y + o)) = y.
Proof.
  intros Hy Ho.
  assert (Hall : forallb (fun y0 =>
                   forallb (fun i : nat =>
                     c_year (civil_from_days (Transactions.year_start y0 + Z.of_nat i))
                     =? y0) (seq 0 (Z.to_nat (Transactions.year_days y0))))
                   Transactions.years = true) by (vm_compute; reflexivity).
  rewrite forallb_forall in Hall. specialize (Hall y Hy).
  rewrite forallb_forall in Hall. specialize (Hall (Z.to_nat o)).
  rewrite Z2Nat.id in Hall by lia. apply Z.eqb_eq, Hall, in_seq. lia.
Qed.

Section TransactionsFields.
Context {G : Generator} {L : GeneratorLaws G}.
Import Transactions.

Lemma fill_year_spec (yr : list Z) (y : Z) (td td' : list Z) (g g' : bitgen) :
  length td = length yr →
  fill_year yr y (td, g) = Ok (td', g') →
  length td' = length td
  ∧ ∀ i, (i < length yr)%nat →
      (nth i yr 0 = y →
         year_start y <= nth i td' 0 < year_start y + year_days y)
      ∧ (nth i yr 0 ≠ y → nth i td' 0 = nth i td 0).
Proof.
  intros Hlen. unfold fill_year.
  set (mask := map (fun v => v =? y) yr).
  assert (Hmask : ∀ i, (i < length yr)%nat →
                       nth i mask false = (nth i yr 0 =? y)).
  { intros i Hi. unfold mask. now rewrite nth_map_lt with (d := 0). }
  destruct (existsb id mask) eqn:Hex.
  - intros H. split_draw H.
    apply rbind_Ok in H as (td1 & Hassign & H). injection H as <- <-.
    pose proof (mask_assign_Ok _ _ _ _ Hassign) as Hl1.
    split; [exact Hl1|]. intros i Hi.
    unfold mask_assign in Hassign.
    destruct (Nat.eqb_spec (length (map (fun o => year_start y + o) l))
                           (mask_count mask)) as [Hc|]; [|discriminate].
    injection Hassign as <-.
    destruct (mask_fill_nth 0 mask (map (fun o => year_start y + o) l) td i Hc)
      as [H1 H2]; [unfold mask; now rewrite length_map | unfold mask;
                   now rewrite length_map |].
    rewrite Hmask in H1, H2 by exact Hi. split.
    + intros Hy. apply Z.eqb_eq in Hy. apply H1 in Hy.
      apply in_map_iff in Hy as (o & <- & Ho).
      range_of l. apply Hrange in Ho; [lia|].
      unfold year_days. destruct (y =? 2024); reflexivity.
    + intros Hy. apply H2. now apply Z.eqb_neq.
  - intros [= <- <-]. split; [reflexivity|]. intros i Hi. split; [|reflexivity].
    intros Hy. pose proof (existsb_id_false_nth mask i Hex) as Hf.
    rewrite Hmask in Hf by exact Hi. apply Z.eqb_neq in Hf. contradiction.
Qed.

Lemma transactions_chunk_fields cfg s g df g' :
  chunk cfg s g = Ok (df, g') →
  Forall (fun r => In (year r) years
                   ∧ c_year (civil_from_days (transaction_date r)) = year r
                   ∧ In (payment_method r) payment_methods) df.
Proof.
  unfold chunk. intros H.
  destruct (choice_accepts (year_prob_arr cfg)); [|discriminate].
  cbn [negb] in H. do 4 split_draw H. do 2 pass_guard H.
  apply rbind_Ok in H as ([td1 g1] & Hf1 & H).
  apply rbind_Ok in H as ([td2 g2] & Hf2 & H).
  apply rbind_Ok in H as ([td3 g3] & Hf3 & H).
  split_draw H.
  apply rbind_Ok in H as (df0 & Hframe & H). injection H as <- <-.
  apply transactions_frame_inv in Hframe as [Hlen ->]. split_lengths Hlen.
  rewrite !length_map in *.
  assert (Hl0 : length (repeat 0 (Z.to_nat (chunk_rows cfg s))) = length l).
  { rewrite repeat_length.
    pose proof (choice_length _ years (year_prob_arr cfg)
                  (Z.to_nat (chunk_rows cfg s)) g) as X.
    rewrite Edraw in X. symmetry. apply X. discriminate. }
  apply fill_year_spec in Hf1 as [Hl1 Hs1]; [|exact Hl0].
  apply fill_year_spec in Hf2 as [Hl2 Hs2]; [|congruence].
  apply fill_year_spec in Hf3 as [Hl3 Hs3]; [|congruence].
  apply List.Forall_forall. intros r Hin.
  apply in_map_iff in Hin as (i & <- & Hi). apply in_seq in Hi.
  cbn [year transaction_date payment_method].
  member_of l. member_of l3.
  assert (Hy : In (nth i l 0) years) by (apply Hmem, nth_In; lia).
  split; [exact Hy|]. split; [|apply Hmem0, nth_In; lia].
  assert (Hi' : (i < length l)%nat) by lia.
  destruct (Hs1 i Hi') as [A1 B1], (Hs2 i Hi') as [A2 B2], (Hs3 i Hi') as [A3 B3].
  remember (nth i l 0) as y eqn:Ey.
  assert (Hrange : year_start y <= nth i td3 0 < year_start y + year_days y).
  { simpl in Hy. destruct Hy as [E|[E|[E|[]]]]; subst y; rewrite <- E in *.
    - rewrite B3, B2 by discriminate. auto.
    - rewrite B3 by discriminate. auto.
    - auto. }
  replace (nth i td3 0) with (year_start y + (nth i td3 0 - year_start y)) by lia.
  apply year_of_day; [exact Hy | lia].
Qed.

End TransactionsFields.

(** ** Contiguous identifier columns *)

Lemma arange_shift (k a b : Z) :
  map (Z.add k) (arange a b) = arange (k + a) (k + b).
Proof.
  unfold arange. rewrite map_map.
  replace (k + b - (k + a)) with (b - a) by lia.
  apply map_ext. intros i. lia.
Qed.

Lemma arange_chunks_from (n b k : Z) :
  0 < n → 0 < b →
  concat (map (fun s => arange (k + s) (k + s + Z.min b (n - s))) (py_range 0 n b))
  = arange k (k + n).
Proof.
  intros Hn Hb.
  pose proof (arange_chunks n b 0 Hn Hb) as H.
  rewrite Z.add_0_r in H.
  apply (f_equal (map (Z.add k))) in H.
  rewrite arange_shift, concat_map, map_map in H.
  rewrite Z.add_0_r in H. rewrite <- H.
  f_equal. apply map_ext. intros s. rewrite arange_shift.
  f_equal; lia.
Qed.

Section FramesIds.
Context {G : Generator} {R : Type}.
Variable chunk : Z → bitgen → result (list R * bitgen).

Lemma frames_concat_map (f : R → Z) (ids : Z → list Z) (starts : list Z) g dfs :
  (∀ s g0 g1 df, chunk s g0 = Ok (df, g1) → map f df = ids s) →
  frames chunk starts g = Ok dfs →
  map f (concat dfs) = concat (map ids starts).
Proof.
  intros Hids H. apply frames_chunks in H. rewrite concat_map.
  induction H as [|s df ss dfs (g0 & g1 & Hc) _ IH]; simpl; [reflexivity|].
  f_equal; [exact (Hids _ _ _ _ Hc) | exact IH].
Qed.

End FramesIds.

Section TableIds.
Context {G : Generator}.

Lemma customers_chunk_ids cfg d0 s g df g' :
  Customers.chunk cfg d0 s g = Ok (df, g') →
  map Customers.customer_id df
  = arange (Customers.start_customer_id cfg + s)
           (Customers.start_customer_id cfg + s + Customers.chunk_rows cfg s).
Proof.
  unfold Customers.chunk. intros H. split_draws H.
  apply rbind_Ok in H as (st & Hst & H).
  apply rbind_Ok in H as (df0 & Hframe & H). injection H as <- <-.
  apply customers_frame_inv in Hframe as [_ ->].
  rewrite map_map. simpl.
  apply nth_ext with (d := 0) (d' := 0).
  - now rewrite length_map, length_seq.
  - intros i Hi. rewrite length_map, length_seq in Hi.
    rewrite nth_map_lt with (d := 0%nat) by now rewrite length_seq.
    now rewrite seq_nth.
Qed.

Lemma transactions_chunk_tids cfg s g df g' :
  Transactions.chunk cfg s g = Ok (df, g') →
  map Transactions.transaction_id df
  = arange (1 + s) (1 + s + Transactions.chunk_rows cfg s).
Proof.
  unfold Transactions.chunk. intros H.
  destruct (choice_accepts (Transactions.year_prob_arr cfg)); [|discriminate].
  cbn [negb] in H. do 4 split_draw H. do 2 pass_guard H.
  apply rbind_Ok in H as ([td1 g1] & _ & H).
  apply rbind_Ok in H as ([td2 g2] & _ & H).
  apply rbind_Ok in H as ([td3 g3] & _ & H).
  split_draw H.
  apply rbind_Ok in H as (df0 & Hframe & H). injection H as <- <-.
  apply transactions_frame_inv in Hframe as [_ ->].
  rewrite map_map. simpl.
  apply nth_ext with (d := 0) (d' := 0).
  - now rewrite length_map, length_seq.
  - intros i Hi. rewrite length_map, length_seq in Hi.
    rewrite nth_map_lt with (d := 0%nat) by now rewrite length_seq.
    now rewrite seq_nth.
Qed.

Lemma orders_chunk_oids cfg t s g df g' :
  Orders.chunk cfg t s g = Ok (df, g') →
  map Orders.order_id df = arange (1 + s) (1 + s + Orders.chunk_rows cfg s).
Proof.
  unfold Orders.chunk. intros H. split_draws H.
  apply rbind_Ok in H as (up & _ & H). split_draws H.
  apply rbind_Ok in H as (df0 & Hframe & H). injection H as <- <-.
  apply orders_frame_inv in Hframe as [_ ->].
  rewrite map_map. simpl.
  apply nth_ext with (d := 0) (d' := 0).
  - now rewrite length_map, length_seq.
  - intros i Hi. rewrite length_map, length_seq in Hi.
    rewrite nth_map_lt with (d := 0%nat) by now rewrite length_seq.
    now rewrite seq_nth.
Qed.

Lemma customers_table_ids cfg dfs :
  bad_counts (CustomersCall cfg) = false →
  Customers.chunks cfg = Ok dfs →
  map Customers.customer_id (concat dfs)
  = arange (Customers.start_customer_id cfg)
           (Customers.start_customer_id cfg + Customers.num_rows cfg).
Proof.
  intros Hbad H. simpl in Hbad. rewrite !orb_false_iff in Hbad.
  unfold Customers.chunks in H. apply rbind_Ok in H as (rng0 & Hrng0 & H).
  apply rbind_Ok in H as (d0 & _ & Hf).
  rewrite (frames_concat_map _ _ _ _ _ _
             (fun s g0 g1 df => customers_chunk_ids cfg d0 s g0 df g1) Hf).
  apply arange_chunks_from; lia.
Qed.

Lemma products_table_ids cfg dfs :
  bad_counts (ProductsCall cfg) = false →
  Products.chunks cfg = Ok dfs →
  map Products.product_id (concat dfs) = arange 1 (1 + Products.num_rows cfg).
Proof.
  intros Hbad H. simpl in Hbad. rewrite !orb_false_iff in Hbad.
  unfold Products.chunks in H.
  apply rbind_Ok in H as (rng0 & Hrng0 & H).
  rewrite (frames_concat_map _ _ _ _ _ _
             (fun s g0 g1 df => products_chunk_ids cfg s g0 df g1) H).
  apply arange_chunks_from; lia.
Qed.

Lemma transactions_table_ids cfg dfs :
  bad_counts (TransactionsCall cfg) = false →
  Transactions.chunks cfg = Ok dfs →
  map Transactions.transaction_id (concat dfs)
  = arange 1 (1 + Transactions.num_rows cfg).
Proof.
  intros Hbad H. simpl in Hbad. rewrite !orb_false_iff in Hbad.
  unfold Transactions.chunks in H. destruct (negb _); [discriminate|].
  apply rbind_Ok in H as (rng0 & Hrng0 & H).
  rewrite (frames_concat_map _ _ _ _ _ _
             (fun s g0 g1 df => transactions_chunk_tids cfg s g0 df g1) H).
  apply arange_chunks_from; lia.
Qed.

Lemma orders_table_ids cfg dfs :
  bad_counts (OrdersCall cfg) = false →
  Orders.chunks cfg = Ok dfs →
  map Orders.order_id (concat dfs) = arange 1 (1 + Orders.num_rows cfg).
Proof.
  intros Hbad H. simpl in Hbad. rewrite !orb_false_iff in Hbad.
  unfold Orders.chunks in H. apply rbind_Ok in H as (rng0 & Hrng0 & H).
  apply rbind_Ok in H as ([t g] & _ & Hf).
  rewrite (frames_concat_map _ _ _ _ _ _
             (fun s g0 g1 df => orders_chunk_oids cfg t s g0 df g1) Hf).
  apply arange_chunks_from; lia.
Qed.

Lemma products_file cfg fs p :
  (Products.create_products_dataset cfg fs).1 = Ok p →
  bad_counts (ProductsCall cfg) = false
  ∧ ∃ dfs, Products.chunks cfg = Ok dfs
           ∧ files (Products.create_products_dataset cfg fs).2 !! p
             = Some (Header Products.columns
                       :: map Row (map Products.cells (concat dfs))).
Proof.
  intros H.
  apply (run_Ok_inv (ProductsCall cfg)) in H as (Hbad & -> & dfs & Hem & Hfs).
  split; [exact Hbad|]. simpl in Hem, Hfs.
  apply rbind_Ok in Hem as (tdfs & Hch & [= <-]).
  exists tdfs. split; [exact Hch|].
  rewrite Hfs, written_file, <- concat_map. reflexivity.
Qed.

End TableIds.

(** * Further theorems *)

(** X1. The identifier columns that are not sampled are consecutive
    integers in file order, for a call whose integers fit int64:
    [transaction_id] of sales and transactions, [product_id] of products
    and [order_id] of orders run from 1 to [num_rows]; [customer_id] of
    customers runs from [start_customer_id] to
    [start_customer_id + num_rows - 1]. No gap, no duplicate, whatever
    the batch size and the generator. *)
Theorem identifier_columns_are_ranges {G : Generator} (fs : filesystem) (p : path) :
  (∀ cfg, machine_ok (SalesCall cfg) = true →
     (Sales.create_sales_dataset cfg fs).1 = Ok p →
     ∃ rows,
       files (Sales.create_sales_dataset cfg fs).2 !! p
       = Some (Header Sales.columns :: map Row (map Sales.cells rows))
       ∧ map Sales.transaction_id rows = arange 1 (Sales.num_rows cfg + 1))
  ∧ (∀ cfg, machine_ok (CustomersCall cfg) = true →
     (Customers.create_customers_dataset cfg fs).1 = Ok p →
     ∃ rows,
       files (Customers.create_customers_dataset cfg fs).2 !! p
       = Some (Header Customers.columns :: map Row (map Customers.cells rows))
       ∧ map Customers.customer_id rows
         = arange (Customers.start_customer_id cfg)
                  (Customers.start_customer_id cfg + Customers.num_rows cfg))
  ∧ (∀ cfg, machine_ok (ProductsCall cfg) = true →
     (Products.create_products_dataset cfg fs).1 = Ok p →
     ∃ rows,
       files (Products.create_products_dataset cfg fs).2 !! p
       = Some (Header Products.columns :: map Row (map Products.cells rows))
       ∧ map Products.product_id rows = arange 1 (1 + Products.num_rows cfg))
  ∧ (∀ cfg, machine_ok (TransactionsCall cfg) = true →
     (Transactions.create_transactions_dataset cfg fs).1 = Ok p →
     ∃ rows,
       files (Transactions.create_transactions_dataset cfg fs).2 !! p
       = Some (Header Transactions.columns
                 :: map Row (map Transactions.cells rows))
       ∧ map Transactions.transaction_id rows
         = arange 1 (1 + Transactions.num_rows cfg))
  ∧ (∀ cfg, machine_ok (OrdersCall cfg) = true →
     (Orders.create_orders_dataset cfg fs).1 = Ok p →
     ∃ rows,
       files (Orders.create_orders_dataset cfg fs).2 !! p
       = Some (Header Orders.columns :: map Row (map Orders.cells rows))
       ∧ map Orders.order_id rows = arange 1 (1 + Orders.num_rows cfg)).
Proof.
  repeat split; intros cfg _ H.
  - apply sales_file in H as (Hbad & dfs & Hch & Hf).
    exists (concat dfs). split; [exact Hf|]. now apply sales_chunks_tids.
  - apply customers_file in H as (Hbad & dfs & Hch & Hf).
    exists (concat dfs). split; [exact Hf|]. now apply customers_table_ids.
  - apply products_file in H as (Hbad & dfs & Hch & Hf).
    exists (concat dfs). split; [exact Hf|]. now apply products_table_ids.
  - apply transactions_file in H as (Hbad & dfs & Hch & Hf).
    exists (concat dfs). split; [exact Hf|]. now apply transactions_table_ids.
  - apply orders_file in H as (Hbad & dfs & Hch & Hf).
    exists (concat dfs). split; [exact Hf|]. now apply orders_table_ids.
Qed.

Lemma identifier_columns_are_ranges_witness :
  ∃ rows,
    files (Customers.create_customers_dataset (G := StreamRng.generator)
             small_customers empty_fs).2 !! ["out"; "customers.csv"]
    = Some (Header Customers.columns :: map Row (map Customers.cells rows))
    ∧ map Customers.customer_id rows
      = arange (Customers.start_customer_id small_customers)
               (Customers.start_customer_id small_customers
                + Customers.num_rows small_customers).
Proof.
  apply (proj1 (proj2 (identifier_columns_are_ranges (G := StreamRng.generator)
                         empty_fs ["out"; "customers.csv"])));
    vm_compute; reflexivity.
Defined.

(** X2. On a generator that satisfies the sampling laws, every row of the
    sales file has its date inside the calendar window
    [[start_date, start_date + days)], a quantity from 1 to 5, a channel
    among the three channels and a region among the eight regions. *)
Theorem sales_rows_in_bounds {G : Generator} {L : GeneratorLaws G}
    (cfg : Sales.config) (fs : filesystem) (p : path) :
  (Sales.create_sales_dataset cfg fs).1 = Ok p →
  ∃ rows,
    files (Sales.create_sales_dataset cfg fs).2 !! p
    = Some (Header Sales.columns :: map Row (map Sales.cells rows))
    ∧ Forall (fun r =>
        days_from_civil (Sales.start_date cfg) <= Sales.date r
          < days_from_civil (Sales.start_date cfg) + Sales.days cfg
        ∧ 1 <= Sales.quantity r <= 5
        ∧ In (Sales.channel r) Sales.channels
        ∧ In (Sales.region r) Sales.regions) rows.
Proof.
  intros H. apply sales_file in H as (Hbad & dfs & Hch & Hf).
  simpl in Hbad. rewrite !orb_false_iff in Hbad.
  unfold Sales.chunks in Hch. apply rbind_Ok in Hch as (rng0 & Hrng0 & Hch).
  apply rbind_Ok in Hch as ([t g] & Hp & Hfr).
  apply sales_prepare_inv in Hp as (_ & _ & Hidx & Hstart & _).
  exists (concat dfs). split; [exact Hf|].
  eapply frames_Forall; [|exact Hfr].
  intros s g0 g1 df _ Hc. rewrite <- Hstart.
  apply (sales_chunk_fields cfg t s g0 df g1); auto; lia.
Qed.

Lemma sales_rows_in_bounds_witness :
  ∃ rows,
    files (Sales.create_sales_dataset (G := StreamRng.generator)
             (small_sales 5 2) empty_fs).2 !! ["out"; "large_sales_data.csv"]
    = Some (Header Sales.columns :: map Row (map Sales.cells rows))
    ∧ Forall (fun r =>
        days_from_civil (Sales.start_date (small_sales 5 2)) <= Sales.date r
          < days_from_civil (Sales.start_date (small_sales 5 2))
            + Sales.days (small_sales 5 2)
        ∧ 1 <= Sales.quantity r <= 5
        ∧ In (Sales.channel r) Sales.channels
        ∧ In (Sales.region r) Sales.regions) rows.
Proof.
  apply (sales_rows_in_bounds (G := StreamRng.generator) (small_sales 5 2) empty_fs).
  vm_compute. reflexivity.
Defined.

(** X3. On a generator that satisfies the sampling laws, every row of the
    orders file has its order date inside the calendar window, a quantity
    from 1 to 9, a channel among the three channels and a status among
    the five statuses. *)
Theorem orders_rows_in_bounds {G : Generator} {L : GeneratorLaws G}
    (cfg : Orders.config) (fs : filesystem) (p : path) :
  (Orders.create_orders_dataset cfg fs).1 = Ok p →
  ∃ rows,
    files (Orders.create_orders_dataset cfg fs).2 !! p
    = Some (Header Orders.columns :: map Row (map Orders.cells rows))
    ∧ Forall (fun r =>
        days_from_civil (Orders.start_date cfg) <= Orders.order_date r
          < days_from_civil (Orders.start_date cfg) + Orders.days cfg
        ∧ 1 <= Orders.quantity r <= 9
        ∧ In (Orders.channel r) Orders.channels
        ∧ In (Orders.status r) Orders.statuses) rows.
Proof.
  intros H. apply orders_file in H as (Hbad & dfs & Hch & Hf).
  simpl in Hbad. rewrite !orb_false_iff in Hbad.
  unfold Orders.chunks in Hch. apply rbind_Ok in Hch as (rng0 & Hrng0 & Hch).
  apply rbind_Ok in Hch as ([t g] & Hp & Hfr).
  apply orders_prepare_inv in Hp as (_ & _ & Hidx & Hstart & _).
  exists (concat dfs). split; [exact Hf|].
  eapply frames_Forall; [|exact Hfr].
  intros s g0 g1 df _ Hc. rewrite <- Hstart.
  apply (orders_chunk_fields cfg t s g0 df g1); auto; lia.
Qed.

Lemma orders_rows_in_bounds_witness :
  ∃ rows,
    files (Orders.create_orders_dataset (G := StreamRng.generator)
             small_orders empty_fs).2 !! ["out"; "orders.csv"]
    = Some (Header Orders.columns :: map Row (map Orders.cells rows))
    ∧ Forall (fun r =>
        days_from_civil (Orders.start_date small_orders) <= Orders.order_date r
          < days_from_civil (Orders.start_date small_orders)
            + Orders.days small_orders
        ∧ 1 <= Orders.quantity r <= 9
        ∧ In (Orders.channel r) Orders.channels
        ∧ In (Orders.status r) Orders.statuses) rows.
Proof.
  apply (orders_rows_in_bounds (G := StreamRng.generator) small_orders empty_fs).
  vm_compute. reflexivity.
Defined.

(** X4. In every row of the customers file the name columns are built
    from the row's own identifier: [first_name] is ["User"] followed by
    the identifier in decimal, [last_name] is ["Lastname"] followed by
    it, [email] is ["user"], the identifier and ["@example.com"]; and the
    age lies between 18 and 80. This holds for any generator. *)
Theorem customer_names_follow_id {G : Generator} (cfg : Customers.config)
    (fs : filesystem) (p : path) :
  (Customers.create_customers_dataset cfg fs).1 = Ok p →
  ∃ rows,
    files (Customers.create_customers_dataset cfg fs).2 !! p
    = Some (Header Customers.columns :: map Row (map Customers.cells rows))
    ∧ Forall (fun r =>
        Customers.first_name r = "User" ++ str (Customers.customer_id r)
        ∧ Customers.last_name r = "Lastname" ++ str (Customers.customer_id r)
        ∧ Customers.email r
          = ("user" ++ str (Customers.customer_id r)) ++ "@example.com"
        ∧ 18 <= Customers.age r <= 80) rows.
Proof.
  intros H. apply customers_file in H as (_ & dfs & Hch & Hf).
  unfold Customers.chunks in Hch. apply rbind_Ok in Hch as (rng0 & Hrng0 & Hch).
  apply rbind_Ok in Hch as (d0 & _ & Hfr).
  exists (concat dfs). split; [exact Hf|].
  eapply frames_Forall; [|exact Hfr].
  intros s g0 g1 df _ Hc. exact (customers_chunk_names _ _ _ _ _ _ Hc).
Qed.

Lemma customer_names_follow_id_witness :
  ∃ rows,
    files (Customers.create_customers_dataset (G := StreamRng.generator)
             small_customers empty_fs).2 !! ["out"; "customers.csv"]
    = Some (Header Customers.columns :: map Row (map Customers.cells rows))
    ∧ Forall (fun r =>
        Customers.first_name r = "User" ++ str (Customers.customer_id r)
        ∧ Customers.last_name r = "Lastname" ++ str (Customers.customer_id r)
        ∧ Customers.email r
          = ("user" ++ str (Customers.customer_id r)) ++ "@example.com"
        ∧ 18 <= Customers.age r <= 80) rows.
Proof.
  apply (customer_names_follow_id (G := StreamRng.generator)
           small_customers empty_fs).
  vm_compute. reflexivity.
Defined.

(** X5. On a generator that satisfies the sampling laws, every row of the
    customers file has its signup date inside the window
    [[start_date, start_date + days)], a city among the four cities, a
    loyalty tier among the four tiers, a phone ["555-"] followed by a
    number below 10000 padded to four digits, an address made of a street
    number from 1 to 9999 and [" Main St"], and a zip code that is a
    number from 10000 to 99999. *)
Theorem customers_rows_in_bounds {G : Generator} {L : GeneratorLaws G}
    (cfg : Customers.config) (fs : filesystem) (p : path) :
  (Customers.create_customers_dataset cfg fs).1 = Ok p →
  ∃ rows,
    files (Customers.create_customers_dataset cfg fs).2 !! p
    = Some (Header Customers.columns :: map Row (map Customers.cells rows))
    ∧ Forall (fun r =>
        days_from_civil (Customers.start_date cfg) <= Customers.signup_date r
          < days_from_civil (Customers.start_date cfg) + Customers.days cfg
        ∧ In (Customers.city r) Customers.cities
        ∧ In (Customers.loyalty_tier r) Customers.tiers
        ∧ (∃ z, 0 <= z < 10000 ∧ Customers.phone r = "555-" ++ zfill (str z) 4)
        ∧ (∃ z, 1 <= z < 10000 ∧ Customers.address r = str z ++ " Main St")
        ∧ (∃ z, 10000 <= z < 100000 ∧ Customers.zip_code r = zfill (str z) 5))
        rows.
Proof.
  intros H. apply customers_file in H as (Hbad & dfs & Hch & Hf).
  simpl in Hbad. rewrite !orb_false_iff in Hbad.
  unfold Customers.chunks in Hch. apply rbind_Ok in Hch as (rng0 & Hrng0 & Hch).
  apply rbind_Ok in Hch as (d0 & Hd0 & Hfr).
  unfold np_datetime64 in Hd0.
  destruct (valid_date (Customers.start_date cfg)); [|discriminate].
  injection Hd0 as <-.
  exists (concat dfs). split; [exact Hf|].
  eapply frames_Forall; [|exact Hfr].
  intros s g0 g1 df _ Hc.
  apply (customers_chunk_fields cfg _ s g0 df g1); [lia | exact Hc].
Qed.

Lemma customers_rows_in_bounds_witness :
  ∃ rows,
    files (Customers.create_customers_dataset (G := StreamRng.generator)
             small_customers empty_fs).2 !! ["out"; "customers.csv"]
    = Some (Header Customers.columns :: map Row (map Customers.cells rows))
    ∧ Forall (fun r =>
        days_from_civil (Customers.start_date small_customers)
          <= Customers.signup_date r
          < days_from_civil (Customers.start_date small_customers)
            + Customers.days small_customers
        ∧ In (Customers.city r) Customers.cities
        ∧ In (Customers.loyalty_tier r) Customers.tiers
        ∧ (∃ z, 0 <= z < 10000 ∧ Customers.phone r = "555-" ++ zfill (str z) 4)
        ∧ (∃ z, 1 <= z < 10000 ∧ Customers.address r = str z ++ " Main St")
        ∧ (∃ z, 10000 <= z < 100000 ∧ Customers.zip_code r = zfill (str z) 5))
        rows.
Proof.
  apply (customers_rows_in_bounds (G := StreamRng.generator)
           small_customers empty_fs).
  vm_compute. reflexivity.
Defined.

(** X6. On a generator that satisfies the sampling laws, every row of the
    ratings file has a rating from 1 to 5 and a timestamp inside the
    calendar window: at or after midnight of the start date and before
    midnight [days] days later (timestamps in seconds). *)
Theorem ratings_rows_in_bounds {G : Generator} {L : GeneratorLaws G}
    (cfg : Ratings.config) (fs : filesystem) (p : path) :
  (Ratings.create_ratings_dataset cfg fs).1 = Ok p →
  ∃ rows,
    files (Ratings.create_ratings_dataset cfg fs).2 !! p
    = Some (Header Ratings.columns :: map Row (map Ratings.cells rows))
    ∧ Forall (fun r =>
        1 <= Ratings.rating r <= 5
        ∧ days_from_civil (Ratings.start_date cfg) * 86400 <= Ratings.timestamp r
          < (days_from_civil (Ratings.start_date cfg) + Ratings.days cfg) * 86400)
        rows.
Proof.
  intros H. apply ratings_file in H as (Hbad & dfs & Hch & Hf).
  simpl in Hbad. rewrite !orb_false_iff in Hbad.
  unfold Ratings.chunks in Hch. apply rbind_Ok in Hch as (rng0 & Hrng0 & Hch).
  apply rbind_Ok in Hch as (t & Hp & Hfr).
  pose proof (ratings_prepare_inv _ _ Hp) as (Hd & Hidx).
  assert (Hts : Ratings.start_ts t = days_from_civil (Ratings.start_date cfg) * 86400).
  { unfold Ratings.prepare, np_datetime64 in Hp. rewrite Hd in Hp. simpl in Hp.
    destruct (Ratings.seasonality cfg); simpl in Hp; now injection Hp as <-. }
  exists (concat dfs). split; [exact Hf|].
  eapply frames_Forall; [|exact Hfr].
  intros s g0 g1 df _ Hc.
  pose proof (ratings_chunk_fields cfg t s g0 df g1) as X.
  eapply List.Forall_impl; [|apply X; [lia | exact Hidx | exact Hc]].
  intros r [Hr Ht]. rewrite Hts in Ht. split; [exact Hr | lia].
Qed.

Lemma ratings_rows_in_bounds_witness :
  ∃ rows,
    files (Ratings.create_ratings_dataset (G := StreamRng.generator)
             small_ratings empty_fs).2 !! ["out"; "ratings.csv"]
    = Some (Header Ratings.columns :: map Row (map Ratings.cells rows))
    ∧ Forall (fun r =>
        1 <= Ratings.rating r <= 5
        ∧ days_from_civil (Ratings.start_date small_ratings) * 86400
          <= Ratings.timestamp r
          < (days_from_civil (Ratings.start_date small_ratings)
             + Ratings.days small_ratings) * 86400) rows.
Proof.
  apply (ratings_rows_in_bounds (G := StreamRng.generator) small_ratings empty_fs).
  vm_compute. reflexivity.
Defined.

(** X7. Every row of the products file has a stock from 0 to 1000 and an
    [is_active] flag that is 0 or 1, for any generator; on a generator
    that satisfies the sampling laws its category is one of the twenty
    categories and its brand one of the eight brands. *)
Theorem products_rows_in_bounds {G : Generator} {L : GeneratorLaws G}
    (cfg : Products.config) (fs : filesystem) (p : path) :
  (Products.create_products_dataset cfg fs).1 = Ok p →
  ∃ rows,
    files (Products.create_products_dataset cfg fs).2 !! p
    = Some (Header Products.columns :: map Row (map Products.cells rows))
    ∧ Forall (fun r =>
        0 <= Products.stock r <= 1000
        ∧ (Products.is_active r = 0 ∨ Products.is_active r = 1)
        ∧ In (Products.category r) Products.categories
        ∧ In (Products.brand r) Products.brands) rows.
Proof.
  intros H. apply products_file in H as (_ & dfs & Hch & Hf).
  unfold Products.chunks in Hch.
  apply rbind_Ok in Hch as (rng0 & Hrng0 & Hch).
  exists (concat dfs). split; [exact Hf|].
  eapply frames_Forall; [|exact Hch].
  intros s g0 g1 df _ Hc.
  pose proof (products_chunk_fields _ _ _ _ _ Hc) as H1.
  pose proof (products_chunk_categories _ _ _ _ _ Hc) as H2.
  rewrite List.Forall_forall in *. intros r Hr.
  destruct (H1 r Hr) as [A B], (H2 r Hr) as [C D]. auto.
Qed.

Lemma products_rows_in_bounds_witness :
  ∃ rows,
    files (Products.create_products_dataset (G := StreamRng.generator)
             small_products empty_fs).2 !! ["out"; "products.csv"]
    = Some (Header Products.columns :: map Row (map Products.cells rows))
    ∧ Forall (fun r =>
        0 <= Products.stock r <= 1000
        ∧ (Products.is_active r = 0 ∨ Products.is_active r = 1)
        ∧ In (Products.category r) Products.categories
        ∧ In (Products.brand r) Products.brands) rows.
Proof.
  apply (products_rows_in_bounds (G := StreamRng.generator) small_products empty_fs).
  vm_compute. reflexivity.
Defined.

(** X8. On a generator that satisfies the sampling laws, every row of the
    transactions file has a year among 2022, 2023 and 2024, a transaction
    date that falls in that very year, and a payment method among the
    four methods. *)
Theorem transaction_date_in_its_year {G : Generator} {L : GeneratorLaws G}
    (cfg : Transactions.config) (fs : filesystem) (p : path) :
  (Transactions.create_transactions_dataset cfg fs).1 = Ok p →
  ∃ rows,
    files (Transactions.create_transactions_dataset cfg fs).2 !! p
    = Some (Header Transactions.columns :: map Row (map Transactions.cells rows))
    ∧ Forall (fun r =>
        In (Transactions.year r) [2022; 2023; 2024]
        ∧ c_year (civil_from_days (Transactions.transaction_date r))
          = Transactions.year r
        ∧ In (Transactions.payment_method r) Transactions.payment_methods) rows.
Proof.
  intros H. apply transactions_file in H as (_ & dfs & Hch & Hf).
  unfold Transactions.chunks in Hch. destruct (negb _); [discriminate|].
  apply rbind_Ok in Hch as (rng0 & Hrng0 & Hch).
  exists (concat dfs). split; [exact Hf|].
  eapply frames_Forall; [|exact Hch].
  intros s g0 g1 df _ Hc. exact (transactions_chunk_fields _ _ _ _ _ Hc).
Qed.

Lemma transaction_date_in_its_year_witness :
  ∃ rows,
    files (Transactions.create_transactions_dataset (G := StreamRng.generator)
             (small_transactions [0.3; 0.3; 0.4]%float) empty_fs).2
      !! ["out"; "transactions.csv"]
    = Some (Header Transactions.columns :: map Row (map Transactions.cells rows))
    ∧ Forall (fun r =>
        In (Transactions.year r) [2022; 2023; 2024]
        ∧ c_year (civil_from_days (Transactions.transaction_date r))
          = Transactions.year r
        ∧ In (Transactions.payment_method r) Transactions.payment_methods) rows.
Proof.
  apply (transaction_date_in_its_year (G := StreamRng.generator)
           (small_transactions [0.3; 0.3; 0.4]%float) empty_fs).
  vm_compute. reflexivity.
Defined.

(** X9. Within one sales file the unit price is a function of the
    product: two rows with the same [product_id] show the same
    [unit_price], whatever chunks they were written in. *)
Theorem unit_price_fixed_per_product {G : Generator} (cfg : Sales.config)
    (fs : filesystem) (p : path) :
  (Sales.create_sales_dataset cfg fs).1 = Ok p →
  ∃ rows,
    files (Sales.create_sales_dataset cfg fs).2 !! p
    = Some (Header Sales.columns :: map Row (map Sales.cells rows))
    ∧ ∀ r1 r2, In r1 rows → In r2 rows →
        Sales.product_id r1 = Sales.product_id r2 →
        Sales.unit_price r1 = Sales.unit_price r2.
Proof.
  intros H. apply sales_file in H as (_ & dfs & Hch & Hf).
  unfold Sales.chunks in Hch. apply rbind_Ok in Hch as (rng0 & Hrng0 & Hch).
  apply rbind_Ok in Hch as ([t g] & _ & Hfr).
  exists (concat dfs). split; [exact Hf|].
  assert (Hall : Forall (fun r =>
            np_index (Sales.product_unit_price t) (Sales.product_id r - 1)
            = Ok (Sales.unit_price r)) (concat dfs)).
  { eapply frames_Forall; [|exact Hfr].
    intros s g0 g1 df _ Hc.
    eapply List.Forall_impl; [|exact (sales_chunk_rows _ _ _ _ _ _ Hc)].
    now intros r [_ Hr]. }
  rewrite List.Forall_forall in Hall.
  intros r1 r2 H1 H2 E. apply Hall in H1, H2. congruence.
Qed.

Lemma unit_price_fixed_per_product_witness :
  ∃ rows,
    files (Sales.create_sales_dataset (G := StreamRng.generator)
             (small_sales 5 2) empty_fs).2 !! ["out"; "large_sales_data.csv"]
    = Some (Header Sales.columns :: map Row (map Sales.cells rows))
    ∧ ∀ r1 r2, In r1 rows → In r2 rows →
        Sales.product_id r1 = Sales.product_id r2 →
        Sales.unit_price r1 = Sales.unit_price r2.
Proof.
  apply (unit_price_fixed_per_product (G := StreamRng.generator)
           (small_sales 5 2) empty_fs).
  vm_compute. reflexivity.
Defined.

(** * The footprint of a call *)

Lemma leaves_rest_refl (p : path) (D : gset path) (fs : filesystem) :
  leaves_rest p D fs fs.
Proof.
  repeat split; [set_solver..|]. exists []. now rewrite app_nil_r.
Qed.

Lemma leaves_rest_trans (p : path) (D : gset path) (fs1 fs2 fs3 : filesystem) :
  leaves_rest p D fs1 fs2 → leaves_rest p D fs2 fs3 → leaves_rest p D fs1 fs3.
Proof.
  intros (F1 & A1 & B1 & ws1 & W1 & P1) (F2 & A2 & B2 & ws2 & W2 & P2).
  repeat split.
  - intros q Hq. now rewrite F2, F1.
  - transitivity (dirs fs2); assumption.
  - intros x Hx. apply B2, elem_of_union in Hx as [Hx|Hx];
      [apply B1, Hx | apply elem_of_union; now right].
  - exists (ws1 ++ ws2)%list. split.
    + now rewrite W2, W1, app_assoc.
    + now apply Forall_app.
Qed.

Lemma leaves_rest_mkdir (p f : path) (fs : filesystem) :
  leaves_rest p (list_to_set (ancestors f)) fs (mkdir_parents f fs).
Proof.
  unfold mkdir_parents. repeat split; simpl; [set_solver..|].
  exists []. now rewrite app_nil_r.
Qed.

Lemma leaves_rest_to_csv (p : path) (D : gset path) (m : write_mode) (h : bool)
    (cols : list string) (rows : list (list cell)) (fs : filesystem) :
  leaves_rest p D fs (to_csv p m h cols rows fs).
Proof.
  unfold to_csv. repeat split; simpl.
  - intros q Hq. now apply lookup_insert_ne.
  - set_solver.
  - set_solver.
  - eexists. split; [reflexivity|]. now constructor.
Qed.

Section Confined.
Context {A B : Type}.
Variable p : path.
Variable D : gset path.

Lemma confined_ret (a : A) : confined p D (io_ret a).
Proof. intros fs. apply leaves_rest_refl. Qed.

Lemma confined_lift (r : result A) : confined p D (io_lift r).
Proof. intros fs. apply leaves_rest_refl. Qed.

Lemma confined_check (cond : bool) (msg : string) : confined p D (check cond msg).
Proof. intros fs. unfold check. destruct cond; apply leaves_rest_refl. Qed.

Lemma confined_to_csv m h cols rows : confined p D (io_effect (to_csv p m h cols rows)).
Proof. intros fs. apply leaves_rest_to_csv. Qed.

Lemma confined_bind (c : io A) (k : A → io B) :
  confined p D c → (∀ a, confined p D (k a)) → confined p D (io_bind c k).
Proof.
  intros Hc Hk fs. unfold io_bind. specialize (Hc fs).
  destruct (c fs) as [[a|e] fs1]; simpl in Hc |- *; [|exact Hc].
  eapply leaves_rest_trans; [exact Hc | apply Hk].
Qed.

Lemma confined_for_each {X : Type} (body : X → A → io A) (xs : list X) :
  (∀ x s, confined p D (body x s)) → ∀ s, confined p D (for_each xs body s).
Proof.
  intros Hb. induction xs as [|x xs IH]; intros s; cbn [for_each].
  - apply (confined_ret s).
  - intros fs. unfold io_bind. pose proof (Hb x s fs) as H1.
    destruct (body x s fs) as [[s1|e] fs1]; simpl in H1 |- *; [|exact H1].
    eapply leaves_rest_trans; [exact H1 | apply IH].
Qed.

End Confined.

Lemma confined_mkdir (p f : path) :
  confined p (list_to_set (ancestors f)) (io_effect (mkdir_parents f)).
Proof. intros fs. apply leaves_rest_mkdir. Qed.

Lemma confined_write_chunks {G : Generator} {R : Type}
    (chunk : Z → bitgen → result (list R * bitgen)) (p : path) (D : gset path)
    (cols : list string) (cells : R → list cell) (starts : list Z) (g : bitgen) :
  confined p D (write_chunks chunk p cols cells starts g).
Proof.
  unfold write_chunks. apply confined_bind; [|intros; apply confined_ret].
  apply confined_for_each. intros s [g0 w]. unfold chunk_step.
  apply confined_bind; [apply confined_lift|]. intros [df g1].
  apply confined_bind; [apply confined_to_csv | intros; apply confined_ret].
Qed.

Ltac confine :=
  repeat first
    [ apply confined_mkdir
    | apply confined_check
    | apply confined_lift
    | apply confined_ret
    | apply confined_write_chunks
    | apply confined_bind; [|intros ?]
    | match goal with
      | |- confined _ _ (match ?x with _ => _ end) => destruct x
      end ].

Lemma run_confined {G : Generator} (c : call) :
  confined (output_path_of c) (list_to_set (ancestors (folder_of c))) (run c).
Proof.
  destruct c as [cfg|cfg|cfg|cfg|cfg|cfg]; simpl;
    unfold output_path_of, folder_of, csv_file_of.
  - unfold Sales.create_sales_dataset. confine.
  - unfold Customers.create_customers_dataset. confine.
  - unfold Ratings.create_ratings_dataset. confine.
  - unfold Products.create_products_dataset. confine.
  - unfold Transactions.create_transactions_dataset. confine.
  - unfold Orders.create_orders_dataset. confine.
Qed.

(** * The batches of a run *)

Lemma range_len_length (start stop step : Z) :
  length (py_range start stop step) = range_len start stop step.
Proof. unfold py_range. now rewrite length_map, length_seq. Qed.

Lemma batch_sizes_bounds (c : call) :
  bad_counts c = false →
  Forall (fun x => 1 <= x <= chunk_size_of c) (batch_sizes c)
  ∧ Z.of_nat (length (batch_sizes c)) = (num_rows_of c - 1) / chunk_size_of c + 1.
Proof.
  intros Hbad.
  assert (Hgen : ∀ n b o (f : Z → Z) (starts : list Z),
            0 < n → 0 < b → starts = py_range o (n + o) b →
            (∀ s, f s = Z.min b (n + o - s)) →
            Forall (fun x => 1 <= x <= b) (map f starts)
            ∧ Z.of_nat (length (map f starts)) = (n - 1) / b + 1).
  { intros n b o f starts Hn Hb -> Hf. split.
    - apply List.Forall_forall. intros x Hx.
      apply in_map_iff in Hx as (s & <- & Hs). rewrite Hf.
      pose proof (batch_pos n b o s Hb Hs). lia.
    - rewrite length_map, range_len_length, range_len_pos by lia.
      assert (0 <= (n - 1) / b) by (apply Z.div_pos; lia).
      replace (n + o - o - 1) with (n - 1) by lia. lia. }
  destruct c as [cfg|cfg|cfg|cfg|cfg|cfg]; simpl in Hbad |- *;
    rewrite !orb_false_iff in Hbad.
  - apply (Hgen (Sales.num_rows cfg) (Sales.chunk_size cfg) 1); try lia.
    + reflexivity.
    + intros s. unfold Sales.chunk_rows. f_equal. lia.
  - apply (Hgen (Customers.num_rows cfg) (Customers.chunk_size cfg) 0); try lia.
    + unfold Customers.starts. now rewrite Z.add_0_r.
    + intros s. unfold Customers.chunk_rows. f_equal. lia.
  - apply (Hgen (Ratings.num_rows cfg) (Ratings.chunk_size cfg) 0); try lia.
    + unfold Ratings.starts. now rewrite Z.add_0_r.
    + intros s. unfold Ratings.chunk_rows. f_equal. lia.
  - apply (Hgen (Products.num_rows cfg) (Products.chunk_size cfg) 0); try lia.
    + unfold Products.starts. now rewrite Z.add_0_r.
    + intros s. unfold Products.chunk_rows. f_equal. lia.
  - apply (Hgen (Transactions.num_rows cfg) (Transactions.chunk_size cfg) 0);
      try lia.
    + unfold Transactions.starts. now rewrite Z.add_0_r.
    + intros s. unfold Transactions.chunk_rows. f_equal. lia.
  - apply (Hgen (Orders.num_rows cfg) (Orders.chunk_size cfg) 0); try lia.
    + unfold Orders.starts. now rewrite Z.add_0_r.
    + intros s. unfold Orders.chunk_rows. f_equal. lia.
Qed.

Lemma run_write_sizes {G : Generator} {L : GeneratorLaws G} (c : call)
    (fs : filesystem) :
  bad_counts c = false → inputs_ok c = true → machine_ok c = true →
  map w_rows (new_writes fs (run c fs).2) = map Z.to_nat (batch_sizes c).
Proof.
  intros Hbad Hin Hm.
  destruct (emitted_total c Hbad Hin Hm) as (dfs & Hem & Hl).
  pose proof (run_accepts c fs Hbad) as Hr. rewrite Hem in Hr.
  rewrite Hr. simpl. rewrite written_new_writes by reflexivity.
  rewrite <- Hl. destruct dfs as [|df dfs]; [reflexivity|].
  simpl. f_equal. rewrite !map_map. reflexivity.
Qed.

(** * A chunk loop whose first chunk raises *)

Lemma first_chunk_raises {G : Generator} {R : Type}
    (chunk : Z → bitgen → result (list R * bitgen)) (p : path)
    (cols : list string) (cells : R → list cell) (starts : list Z) (g : bitgen)
    (e : exn) (fs : filesystem) :
  starts ≠ [] → (∀ s g0, chunk s g0 = Raise e) →
  write_chunks chunk p cols cells starts g fs = (Raise e, fs).
Proof.
  intros Hne Hc. destruct starts as [|s starts]; [congruence|].
  unfold write_chunks. cbn [for_each]. unfold io_bind.
  now rewrite (chunk_step_Raise _ _ _ _ _ _ _ _ _ (Hc s g)).
Qed.

(** * Further theorems: footprint, batches, refused inputs *)

(** X10. Whatever its outcome, a call of any of the six generators
    changes no file other than its own output path, removes no
    directory, creates no directory besides the destination folder and
    its ancestors, and sends every [to_csv] call to its output path. *)
Theorem call_touches_only_its_file {G : Generator} (c : call) (fs : filesystem) :
  (∀ q, q ≠ output_path_of c → files (run c fs).2 !! q = files fs !! q)
  ∧ dirs fs ⊆ dirs (run c fs).2
  ∧ dirs (run c fs).2 ⊆ dirs fs ∪ list_to_set (ancestors (folder_of c))
  ∧ Forall (fun w => w_path w = output_path_of c) (new_writes fs (run c fs).2).
Proof.
  destruct (run_confined c fs) as (Hf & Hd1 & Hd2 & ws & Hw & Hp).
  repeat split; try assumption.
  unfold new_writes. rewrite Hw, drop_app_length. exact Hp.
Qed.

(** X11. On a generator that satisfies the sampling laws, a call with
    positive counts, well-formed inputs and integers that NumPy takes as
    they are (a seed that is not negative, sizes within int64) hands
    [to_csv] at least one and at most [chunk_size] rows at a time, in
    [(num_rows - 1) // chunk_size + 1] calls: the number of rows held in
    a frame is bounded by the chunk size, whatever the row count. *)
Theorem frames_bounded_by_chunk_size {G : Generator} {L : GeneratorLaws G}
    (c : call) (fs : filesystem) :
  bad_counts c = false → inputs_ok c = true → machine_ok c = true →
  Forall (fun w => 1 <= Z.of_nat (w_rows w) <= chunk_size_of c)
         (new_writes fs (run c fs).2)
  ∧ Z.of_nat (length (new_writes fs (run c fs).2))
    = (num_rows_of c - 1) / chunk_size_of c + 1.
Proof.
  intros Hbad Hin Hm.
  pose proof (run_write_sizes c fs Hbad Hin Hm) as Hw.
  destruct (batch_sizes_bounds c Hbad) as [Hb Hl].
  split.
  - apply List.Forall_forall. intros w Hw'.
    assert (Hi : In (w_rows w) (map Z.to_nat (batch_sizes c)))
      by (rewrite <- Hw; now apply in_map).
    apply in_map_iff in Hi as (x & Hx & Hi).
    rewrite List.Forall_forall in Hb. specialize (Hb x Hi). lia.
  - rewrite <- Hl. f_equal.
    rewrite <- (length_map w_rows), Hw. now rewrite length_map.
Qed.

Lemma frames_bounded_by_chunk_size_witness :
  Forall (fun w => 1 <= Z.of_nat (w_rows w) <= 2)
         (new_writes empty_fs (stream_run (SalesCall (small_sales 5 2)) empty_fs).2)
  ∧ Z.of_nat (length (new_writes empty_fs
                        (stream_run (SalesCall (small_sales 5 2)) empty_fs).2))
    = (5 - 1) / 2 + 1.
Proof.
  apply (frames_bounded_by_chunk_size (G := StreamRng.generator) (L := stream_laws)
           (SalesCall (small_sales 5 2)) empty_fs); reflexivity.
Defined.

(** X12. A call whose counts are positive but whose start date is not a
    calendar date (sales, customers, ratings, orders), or whose
    [year_prob] has a wrong length or is refused by [rng.choice]
    (transactions), raises [ValueError] having created the destination
    directory and done nothing else: no file is created or truncated and
    no [to_csv] call is made. *)
Theorem invalid_inputs_write_nothing {G : Generator} (c : call) (fs : filesystem) :
  bad_counts c = false → inputs_ok c = false →
  ∃ msg, run c fs = (Raise (ValueError msg), mkdir_parents (folder_of c) fs).
Proof.
  destruct c as [cfg|cfg|cfg|cfg|cfg|cfg]; intros Hbad Hin; simpl in Hbad, Hin;
    rewrite !orb_false_iff in Hbad; simpl.
  - destruct Hbad as (((((H1 & H2) & H3) & H4) & H5) & H6).
    unfold Sales.create_sales_dataset, io_bind, io_effect, check, io_raise,
      io_ret, io_lift.
    rewrite H1, H2, H3, H4, H5, H6. simpl.
    unfold default_rng at 1.
    match goal with |- context [if ?b then _ else _] =>
      destruct b; simpl; [eauto|] end.
    unfold Sales.prepare, np_datetime64. rewrite Hin.
    repeat match goal with |- context [match ?e with pair _ _ => _ end] =>
      destruct e end. simpl. eauto.
  - destruct Hbad as (((H1 & H2) & H3) & H4).
    unfold Customers.create_customers_dataset, io_bind, io_effect, check,
      io_raise, io_ret, io_lift.
    rewrite H1, H2, H3, H4. simpl.
    unfold default_rng at 1.
    match goal with |- context [if ?b then _ else _] =>
      destruct b; simpl; [eauto|] end.
    unfold np_datetime64. rewrite Hin. eauto.
  - destruct Hbad as ((((H1 & H2) & H3) & H4) & H5).
    unfold Ratings.create_ratings_dataset, io_bind, io_effect, check,
      io_raise, io_ret, io_lift.
    rewrite H1, H2, H3, H4, H5. simpl.
    unfold default_rng at 1.
    match goal with |- context [if ?b then _ else _] =>
      destruct b; simpl; [eauto|] end.
    unfold Ratings.prepare, np_datetime64. rewrite Hin. simpl. eauto.
  - discriminate.
  - destruct Hbad as (((H1 & H2) & H3) & H4).
    assert (Hne : Transactions.starts cfg ≠ []) by (apply py_range_nonempty; lia).
    unfold Transactions.create_transactions_dataset, io_bind, io_effect, check,
      io_raise, io_ret, io_lift.
    rewrite H1, H2, H3, H4. simpl.
    destruct (Nat.eqb (length (Transactions.year_prob cfg)) 3); simpl in Hin |- *;
      [|eauto].
    unfold default_rng at 1.
    match goal with |- context [if ?b then _ else _] =>
      destruct b; simpl; [eauto|] end.
    erewrite first_chunk_raises; [eauto | exact Hne |].
    intros s g0. unfold Transactions.chunk. now rewrite Hin.
  - destruct Hbad as (((((H1 & H2) & H3) & H4) & H5) & H6).
    unfold Orders.create_orders_dataset, io_bind, io_effect, check, io_raise,
      io_ret, io_lift.
    rewrite H1, H2, H3, H4, H5, H6. simpl.
    unfold default_rng at 1.
    match goal with |- context [if ?b then _ else _] =>
      destruct b; simpl; [eauto|] end.
    unfold Orders.prepare, np_datetime64. rewrite Hin.
    repeat match goal with |- context [match ?e with pair _ _ => _ end] =>
      destruct e end. simpl. eauto.
Qed.

Lemma invalid_inputs_write_nothing_witness :
  ∃ msg,
    stream_run (TransactionsCall (small_transactions [-0.5; 0.8; 0.7]%float)) stale_fs
    = (Raise (ValueError msg), mkdir_parents ["out"] stale_fs).
Proof.
  apply (invalid_inputs_write_nothing (G := StreamRng.generator)
           (TransactionsCall (small_transactions [-0.5; 0.8; 0.7]%float)) stale_fs);
    vm_compute; reflexivity.
Defined.

(** * The orchestrator: six calls in a row *)

Section RunAll.
Context {G : Generator}.

Lemma run_all_other_file (cs : list call) (q : path) :
  ∀ fs, (∀ c, In c cs → output_path_of c ≠ q) →
        files (run_all cs fs) !! q = files fs !! q.
Proof.
  induction cs as [|c cs IH]; intros fs Hq; [reflexivity|].
  unfold run_all. cbn [fold_left]. fold (run_all cs (run c fs).2).
  rewrite IH by (intros c' Hc'; apply Hq; now right).
  destruct (run_confined c fs) as (Hf & _).
  apply Hf. intros E. apply (Hq c); [now left | now symmetry].
Qed.

Lemma run_all_file (cs : list call) (c : call) :
  ∀ fs, NoDup (map output_path_of cs) → In c cs →
        (run c fs).1 = Ok (output_path_of c) →
        bad_counts c = false →
        ∃ dfs, emitted_frames c = Ok dfs
               ∧ files (run_all cs fs) !! output_path_of c
                 = Some (Header (columns_of c) :: map Row (concat dfs)).
Proof.
  induction cs as [|c0 cs IH]; intros fs Hnd Hin Hok Hbad; [destruct Hin|].
  simpl in Hnd. apply NoDup_cons in Hnd as [Hnotin Hnd].
  rewrite list_elem_of_In in Hnotin.
  unfold run_all. cbn [fold_left]. fold (run_all cs (run c0 fs).2).
  pose proof (run_accepts c (run c0 fs).2 Hbad) as Hacc.
  pose proof (run_accepts c fs Hbad) as Hacc0.
  destruct (emitted_frames c) as [dfs|e] eqn:Hem.
  2:{ destruct Hacc0 as [fs' Hr]. rewrite Hr in Hok. discriminate. }
  destruct (decide (output_path_of c ∈ map output_path_of cs)) as [Hi|Hn];
    rewrite list_elem_of_In in *.
  - apply in_map_iff in Hi as (c' & Hp & Hc').
    destruct Hin as [->|Hin].
    + exfalso. apply Hnotin. rewrite <- Hp. now apply in_map.
    + apply (IH (run c0 fs).2 Hnd Hin); [now rewrite Hacc | exact Hbad].
  - destruct Hin as [->|Hin]; [|exfalso; apply Hn; now apply in_map].
    exists dfs. split; [reflexivity|].
    rewrite run_all_other_file.
    + rewrite Hacc0. apply written_file.
    + intros c' Hc' E. apply Hn. rewrite <- E. now apply in_map.
Qed.

Lemma run_all_dirs (cs : list call) (folder : path) :
  ∀ fs, cs ≠ [] →
        (∀ c, In c cs → folder_of c = folder
                        ∧ ∀ fs0, (run c fs0).1 = Ok (output_path_of c)) →
        dirs (run_all cs fs) = dirs fs ∪ list_to_set (ancestors folder).
Proof.
  induction cs as [|c cs IH]; intros fs Hne Hall; [congruence|].
  unfold run_all. cbn [fold_left]. fold (run_all cs (run c fs).2).
  destruct (Hall c (or_introl eq_refl)) as [Hfold Hok].
  assert (Hd : dirs (run c fs).2 = dirs fs ∪ list_to_set (ancestors folder)).
  { destruct (run_Ok_inv c fs _ (Hok fs)) as (_ & _ & dfs & _ & ->).
    simpl. now rewrite Hfold. }
  destruct cs as [|c1 cs]; [exact Hd|].
  rewrite IH; [|discriminate | intros c' Hc'; apply Hall; now right].
  rewrite Hd. now rewrite <- (assoc_L (∪)), (idemp_L (∪)).
Qed.

End RunAll.

Section MainRuns.
Context {G : Generator} {L : GeneratorLaws G}.

Lemma run_succeeds (c : call) (fs : filesystem) :
  bad_counts c = false → inputs_ok c = true → machine_ok c = true →
  run c fs = (Ok (output_path_of c), (run c fs).2).
Proof.
  intros Hbad Hin Hm.
  destruct (emitted_total c Hbad Hin Hm) as (dfs & Hem & _).
  pose proof (run_accepts c fs Hbad) as Hr. rewrite Hem in Hr.
  now rewrite Hr.
Qed.

Lemma emitted_rows (c : call) (dfs : list (list (list cell))) :
  bad_counts c = false → inputs_ok c = true → machine_ok c = true →
  emitted_frames c = Ok dfs →
  Z.of_nat (length (concat dfs)) = num_rows_of c.
Proof.
  intros Hbad Hin Hm Hem.
  destruct (emitted_total c Hbad Hin Hm) as (dfs' & Hem' & Hl).
  rewrite Hem in Hem'. injection Hem' as <-.
  destruct (batch_sizes_sum c Hbad) as [Hsum Hpos].
  rewrite length_concat_sum, Hl, fsum_Z_to_nat by assumption. exact Hsum.
Qed.

Variable folder : path.
Hypothesis Hacc :
  choice_accepts (Transactions.year_prob_arr (main_transactions folder)) = true.

Lemma main_calls_ok (c : call) :
  In c (main_calls folder) →
  bad_counts c = false ∧ inputs_ok c = true ∧ folder_of c = folder.
Proof.
  intros Hin. simpl in Hin.
  destruct Hin as [<-|[<-|[<-|[<-|[<-|[<-|[]]]]]]];
    (split; [reflexivity|split; [|reflexivity]]); try reflexivity.
  simpl. now rewrite Hacc.
Qed.

Lemma main_calls_machine (c : call) :
  In c (main_calls folder) → machine_ok c = true.
Proof.
  intros Hin. simpl in Hin.
  destruct Hin as [<-|[<-|[<-|[<-|[<-|[<-|[]]]]]]]; reflexivity.
Qed.

Lemma main_paths :
  map output_path_of (main_calls folder)
  = map (fun name => (folder ++ [name])%list)
        ["large_sales_data.csv"; "customers.csv"; "ratings.csv"; "products.csv";
         "transactions.csv"; "orders.csv"].
Proof. reflexivity. Qed.

Lemma main_paths_NoDup : NoDup (map output_path_of (main_calls folder)).
Proof.
  rewrite main_paths. apply NoDup_fmap_2.
  - intros x y E. apply app_inv_head in E. now injection E.
  - apply NoDup_ListNoDup. repeat constructor; simpl; intuition discriminate.
Qed.

Lemma generate_all_runs (fs : filesystem) :
  generate_all folder fs
  = (Ok (map output_path_of (main_calls folder)),
     run_all (main_calls folder) fs).
Proof.
  assert (Hrun : ∀ c fs0, In c (main_calls folder) →
                          run c fs0 = (Ok (output_path_of c), (run c fs0).2)).
  { intros c fs0 Hc. destruct (main_calls_ok c Hc) as (Hb & Hi & _).
    apply run_succeeds; [exact Hb | exact Hi | now apply main_calls_machine]. }
  unfold generate_all, io_bind, io_ret, run_all. cbn [main_calls fold_left map].
  pose proof (Hrun (SalesCall (main_sales folder))) as H1. simpl in H1.
  rewrite H1 by auto.
  pose proof (Hrun (CustomersCall (main_customers folder))) as H2. simpl in H2.
  rewrite H2 by auto.
  pose proof (Hrun (RatingsCall (main_ratings folder))) as H3. simpl in H3.
  rewrite H3 by auto.
  pose proof (Hrun (ProductsCall (main_products folder))) as H4. simpl in H4.
  rewrite H4 by auto.
  pose proof (Hrun (TransactionsCall (main_transactions folder))) as H5.
  simpl in H5. rewrite H5 by auto 6.
  pose proof (Hrun (OrdersCall (main_orders folder))) as H6. simpl in H6.
  rewrite H6 by auto 7.
  reflexivity.
Qed.

Lemma main_file (fs : filesystem) (c : call) :
  In c (main_calls folder) →
  ∃ dfs, emitted_frames c = Ok dfs
         ∧ Z.of_nat (length (concat dfs)) = num_rows_of c
         ∧ files (run_all (main_calls folder) fs) !! output_path_of c
           = Some (Header (columns_of c) :: map Row (concat dfs)).
Proof.
  intros Hc. destruct (main_calls_ok c Hc) as (Hb & Hi & _).
  pose proof (main_calls_machine c Hc) as Hm.
  destruct (run_all_file (main_calls folder) c fs main_paths_NoDup Hc)
    as (dfs & Hem & Hf); [now rewrite run_succeeds | exact Hb |].
  exists dfs. repeat split; try assumption. now apply emitted_rows.
Qed.

End MainRuns.

(** * Keys of the tables *)

Lemma In_arange (a b x : Z) : a <= x < b → In x (arange a b).
Proof.
  intros H. unfold arange. apply in_map_iff.
  exists (Z.to_nat (x - a)). split; [lia|]. apply in_seq. lia.
Qed.

Lemma NoDup_arange (a b : Z) : List.NoDup (arange a b).
Proof.
  unfold arange. apply NoDup_ListNoDup, NoDup_fmap_2; [|apply NoDup_seq].
  intros i j E. lia.
Qed.

Section TableRefs.
Context {G : Generator} {L : GeneratorLaws G}.

Lemma sales_table_refs cfg dfs :
  bad_counts (SalesCall cfg) = false →
  Sales.chunks cfg = Ok dfs →
  Forall (fun r => 1 <= Sales.product_id r <= Sales.num_products cfg
                   ∧ 1 <= Sales.customer_id r <= Sales.num_customers cfg
                   ∧ 1 <= Sales.store_id r <= Sales.num_stores cfg) (concat dfs).
Proof.
  intros Hbad Hch. simpl in Hbad. rewrite !orb_false_iff in Hbad.
  unfold Sales.chunks in Hch. apply rbind_Ok in Hch as (rng0 & Hrng0 & Hch).
  apply rbind_Ok in Hch as ([t g] & Hp & Hfr).
  apply sales_prepare_inv in Hp as (_ & Hids & _).
  eapply frames_Forall; [|exact Hfr].
  intros s g0 g1 df _ Hc.
  apply (sales_chunk_ids cfg t s g0 df g1); auto; lia.
Qed.

Lemma ratings_table_refs cfg dfs :
  bad_counts (RatingsCall cfg) = false →
  Ratings.chunks cfg = Ok dfs →
  Forall (fun r => 1 <= Ratings.user_id r <= Ratings.num_users cfg
                   ∧ 1 <= Ratings.product_id r <= Ratings.num_products cfg)
         (concat dfs).
Proof.
  intros Hbad Hch. simpl in Hbad. rewrite !orb_false_iff in Hbad.
  unfold Ratings.chunks in Hch. apply rbind_Ok in Hch as (rng0 & Hrng0 & Hch).
  apply rbind_Ok in Hch as (t & Hp & Hfr).
  eapply frames_Forall; [|exact Hfr].
  intros s g0 g1 df _ Hc.
  apply (ratings_chunk_ids cfg t s g0 df g1); auto; lia.
Qed.

Lemma transactions_table_refs cfg dfs :
  bad_counts (TransactionsCall cfg) = false →
  Transactions.chunks cfg = Ok dfs →
  Forall (fun r =>
            1 <= Transactions.customer_id r <= Transactions.num_customers cfg
            ∧ 1 <= Transactions.product_id r <= Transactions.num_products cfg)
         (concat dfs).
Proof.
  intros Hbad Hch. simpl in Hbad. rewrite !orb_false_iff in Hbad.
  unfold Transactions.chunks in Hch. destruct (negb _); [discriminate|].
  apply rbind_Ok in Hch as (rng0 & Hrng0 & Hch).
  eapply frames_Forall; [|exact Hch].
  intros s g0 g1 df _ Hc.
  apply (transactions_chunk_ids cfg s g0 df g1); auto; lia.
Qed.

Lemma orders_table_refs cfg dfs :
  bad_counts (OrdersCall cfg) = false →
  Orders.chunks cfg = Ok dfs →
  Forall (fun r => 1 <= Orders.product_id r <= Orders.num_products cfg
                   ∧ 1 <= Orders.customer_id r <= Orders.num_customers cfg
                   ∧ 1 <= Orders.store_id r <= Orders.num_stores cfg) (concat dfs).
Proof.
  intros Hbad Hch. simpl in Hbad. rewrite !orb_false_iff in Hbad.
  unfold Orders.chunks in Hch. apply rbind_Ok in Hch as (rng0 & Hrng0 & Hch).
  apply rbind_Ok in Hch as ([t g] & Hp & Hfr).
  apply orders_prepare_inv in Hp as (_ & Hids & _).
  eapply frames_Forall; [|exact Hfr].
  intros s g0 g1 df _ Hc.
  apply (orders_chunk_ids cfg t s g0 df g1); auto; lia.
Qed.

End TableRefs.

Lemma emitted_rows_of {R : Type} (chunks : result (list (list R)))
    (cells : R → list cell) (dfs : list (list (list cell))) :
  rbind chunks (fun d => Ok (map (map cells) d)) = Ok dfs →
  ∃ d, chunks = Ok d ∧ concat dfs = map cells (concat d).
Proof.
  intros H. apply rbind_Ok in H as (d & Hd & H). injection H as <-.
  exists d. split; [exact Hd|]. now rewrite concat_map.
Qed.

(** * Further theorems: the orchestrator *)

(** X13. On a generator that satisfies the sampling laws and accepts the
    default year probabilities, the six calls of [main] all return: the
    created paths are the six file names in the folder, each file holds
    its schema's header line and then exactly 1,000,000 (sales), 500,000
    (customers), 2,000,000 (ratings), 10,000 (products), 3,000,000
    (transactions) and 2,500,000 (orders) data rows, no later call
    disturbs an earlier file, every other file is as before, and the
    only new directories are the folder and its ancestors. *)
Theorem main_writes_six_tables {G : Generator} {L : GeneratorLaws G}
    (folder : path) (fs : filesystem) :
  choice_accepts (Transactions.year_prob_arr (main_transactions folder)) = true →
  (generate_all folder fs).1
  = Ok (map (fun name => (folder ++ [name])%list)
            ["large_sales_data.csv"; "customers.csv"; "ratings.csv";
             "products.csv"; "transactions.csv"; "orders.csv"])
  ∧ Forall2 (fun c n =>
       ∃ rows, files (generate_all folder fs).2 !! output_path_of c
               = Some (Header (columns_of c) :: map Row rows)
               ∧ Z.of_nat (length rows) = n)
      (main_calls folder) [1000000; 500000; 2000000; 10000; 3000000; 2500000]
  ∧ (∀ q, ¬ In q (map output_path_of (main_calls folder)) →
          files (generate_all folder fs).2 !! q = files fs !! q)
  ∧ dirs (generate_all folder fs).2 = dirs fs ∪ list_to_set (ancestors folder).
Proof.
  intros Hacc. rewrite (generate_all_runs folder Hacc fs). cbn [fst snd].
  split; [now rewrite <- main_paths|]. split; [|split].
  - assert (Hrow : ∀ c n, In c (main_calls folder) → num_rows_of c = n →
              ∃ rows, files (run_all (main_calls folder) fs) !! output_path_of c
                      = Some (Header (columns_of c) :: map Row rows)
                      ∧ Z.of_nat (length rows) = n).
    { intros c n Hc <-.
      destruct (main_file folder Hacc fs c Hc) as (dfs & _ & Hn & Hf). eauto. }
    unfold main_calls at 1.
    repeat (constructor; [apply Hrow; [simpl; auto 7 | reflexivity]|]).
    constructor.
  - intros q Hq. apply run_all_other_file.
    intros c Hc E. apply Hq. rewrite <- E. now apply in_map.
  - apply run_all_dirs; [discriminate|].
    intros c Hc. destruct (main_calls_ok folder Hacc c Hc) as (Hb & Hi & Hfo).
    split; [exact Hfo|]. intros fs0.
    rewrite run_succeeds; [reflexivity | exact Hb | exact Hi |].
    now apply (main_calls_machine folder).
Qed.

Lemma main_writes_six_tables_witness :
  (generate_all (G := StreamRng.generator) ["data"] empty_fs).1
  = Ok (map (fun name => (["data"] ++ [name])%list)
            ["large_sales_data.csv"; "customers.csv"; "ratings.csv";
             "products.csv"; "transactions.csv"; "orders.csv"])
  ∧ Forall2 (fun c n =>
       ∃ rows, files (generate_all (G := StreamRng.generator) ["data"] empty_fs).2
                 !! output_path_of c
               = Some (Header (columns_of c) :: map Row rows)
               ∧ Z.of_nat (length rows) = n)
      (main_calls ["data"]) [1000000; 500000; 2000000; 10000; 3000000; 2500000]
  ∧ (∀ q, ¬ In q (map output_path_of (main_calls ["data"])) →
          files (generate_all (G := StreamRng.generator) ["data"] empty_fs).2 !! q
          = files empty_fs !! q)
  ∧ dirs (generate_all (G := StreamRng.generator) ["data"] empty_fs).2
    = dirs empty_fs ∪ list_to_set (ancestors ["data"]).
Proof.
  apply (main_writes_six_tables (G := StreamRng.generator) (L := stream_laws)
           ["data"] empty_fs).
  vm_compute. reflexivity.
Defined.

(** X14. Under the same assumptions the tables written by [main] join
    without missing keys: the customers and products files list each
    key once, and every [customer_id] / [user_id] and [product_id] of a
    sales, ratings, transactions or orders row is the key of a row of
    the customers file, respectively of the products file. *)
Theorem main_tables_join {G : Generator} {L : GeneratorLaws G}
    (folder : path) (fs : filesystem) :
  choice_accepts (Transactions.year_prob_arr (main_transactions folder)) = true →
  ∃ sales customers ratings products transactions orders,
    (files (generate_all folder fs).2 !! (folder ++ ["large_sales_data.csv"])%list
     = Some (Header Sales.columns :: map Row (map Sales.cells sales))
     ∧ files (generate_all folder fs).2 !! (folder ++ ["customers.csv"])%list
       = Some (Header Customers.columns :: map Row (map Customers.cells customers))
     ∧ files (generate_all folder fs).2 !! (folder ++ ["ratings.csv"])%list
       = Some (Header Ratings.columns :: map Row (map Ratings.cells ratings))
     ∧ files (generate_all folder fs).2 !! (folder ++ ["products.csv"])%list
       = Some (Header Products.columns :: map Row (map Products.cells products))
     ∧ files (generate_all folder fs).2 !! (folder ++ ["transactions.csv"])%list
       = Some (Header Transactions.columns
                 :: map Row (map Transactions.cells transactions))
     ∧ files (generate_all folder fs).2 !! (folder ++ ["orders.csv"])%list
       = Some (Header Orders.columns :: map Row (map Orders.cells orders)))
    ∧ List.NoDup (map Customers.customer_id customers)
    ∧ List.NoDup (map Products.product_id products)
    ∧ Forall (fun r =>
        In (Sales.customer_id r) (map Customers.customer_id customers)
        ∧ In (Sales.product_id r) (map Products.product_id products)) sales
    ∧ Forall (fun r =>
        In (Ratings.user_id r) (map Customers.customer_id customers)
        ∧ In (Ratings.product_id r) (map Products.product_id products)) ratings
    ∧ Forall (fun r =>
        In (Transactions.customer_id r) (map Customers.customer_id customers)
        ∧ In (Transactions.product_id r) (map Products.product_id products))
        transactions
    ∧ Forall (fun r =>
        In (Orders.customer_id r) (map Customers.customer_id customers)
        ∧ In (Orders.product_id r) (map Products.product_id products)) orders.
Proof.
  intros Hacc. rewrite (generate_all_runs folder Hacc fs). cbn [snd].
  pose proof (main_file folder Hacc fs) as Hfile.
  destruct (Hfile (SalesCall (main_sales folder))) as (e1 & E1 & _ & F1);
    [simpl; auto 7|].
  destruct (Hfile (CustomersCall (main_customers folder))) as (e2 & E2 & _ & F2);
    [simpl; auto 7|].
  destruct (Hfile (RatingsCall (main_ratings folder))) as (e3 & E3 & _ & F3);
    [simpl; auto 7|].
  destruct (Hfile (ProductsCall (main_products folder))) as (e4 & E4 & _ & F4);
    [simpl; auto 7|].
  destruct (Hfile (TransactionsCall (main_transactions folder)))
    as (e5 & E5 & _ & F5); [simpl; auto 7|].
  destruct (Hfile (OrdersCall (main_orders folder))) as (e6 & E6 & _ & F6);
    [simpl; auto 7|].
  clear Hfile.
  apply emitted_rows_of in E1 as (d1 & C1 & R1).
  apply emitted_rows_of in E2 as (d2 & C2 & R2).
  apply emitted_rows_of in E3 as (d3 & C3 & R3).
  apply emitted_rows_of in E4 as (d4 & C4 & R4).
  apply emitted_rows_of in E5 as (d5 & C5 & R5).
  apply emitted_rows_of in E6 as (d6 & C6 & R6).
  rewrite R1 in F1. rewrite R2 in F2. rewrite R3 in F3.
  rewrite R4 in F4. rewrite R5 in F5. rewrite R6 in F6.
  exists (concat d1), (concat d2), (concat d3), (concat d4), (concat d5),
    (concat d6).
  split; [repeat split; assumption|].
  rewrite (customers_table_ids (main_customers folder) d2 eq_refl C2).
  rewrite (products_table_ids (main_products folder) d4 eq_refl C4).
  split; [apply NoDup_arange|]. split; [apply NoDup_arange|].
  split; [|split; [|split]].
  - eapply List.Forall_impl;
      [|exact (sales_table_refs (main_sales folder) d1 eq_refl C1)].
    intros r (Hp & Hc & _). simpl in Hp, Hc.
    split; apply In_arange; simpl; unfold NUM_CUSTOMERS, NUM_PRODUCTS in *; lia.
  - eapply List.Forall_impl;
      [|exact (ratings_table_refs (main_ratings folder) d3 eq_refl C3)].
    intros r (Hu & Hp). simpl in Hu, Hp.
    split; apply In_arange; simpl; unfold NUM_CUSTOMERS, NUM_PRODUCTS in *; lia.
  - eapply List.Forall_impl;
      [|exact (transactions_table_refs (main_transactions folder) d5 eq_refl C5)].
    intros r (Hc & Hp). simpl in Hc, Hp.
    split; apply In_arange; simpl; unfold NUM_CUSTOMERS, NUM_PRODUCTS in *; lia.
  - eapply List.Forall_impl;
      [|exact (orders_table_refs (main_orders folder) d6 eq_refl C6)].
    intros r (Hp & Hc & _). simpl in Hp, Hc.
    split; apply In_arange; simpl; unfold NUM_CUSTOMERS, NUM_PRODUCTS in *; lia.
Qed.

Lemma main_tables_join_witness :
  ∃ sales customers ratings products transactions orders,
    (files (generate_all (G := StreamRng.generator) ["data"] empty_fs).2 !! (["data"] ++ ["large_sales_data.csv"])%list
     = Some (Header Sales.columns :: map Row (map Sales.cells sales))
     ∧ files (generate_all (G := StreamRng.generator) ["data"] empty_fs).2 !! (["data"] ++ ["customers.csv"])%list
       = Some (Header Customers.columns :: map Row (map Customers.cells customers))
     ∧ files (generate_all (G := StreamRng.generator) ["data"] empty_fs).2 !! (["data"] ++ ["ratings.csv"])%list
       = Some (Header Ratings.columns :: map Row (map Ratings.cells ratings))
     ∧ files (generate_all (G := StreamRng.generator) ["data"] empty_fs).2 !! (["data"] ++ ["products.csv"])%list
       = Some (Header Products.columns :: map Row (map Products.cells products))
     ∧ files (generate_all (G := StreamRng.generator) ["data"] empty_fs).2 !! (["data"] ++ ["transactions.csv"])%list
       = Some (Header Transactions.columns
                 :: map Row (map Transactions.cells transactions))
     ∧ files (generate_all (G := StreamRng.generator) ["data"] empty_fs).2 !! (["data"] ++ ["orders.csv"])%list
       = Some (Header Orders.columns :: map Row (map Orders.cells orders)))
    ∧ List.NoDup (map Customers.customer_id customers)
    ∧ List.NoDup (map Products.product_id products)
    ∧ Forall (fun r =>
        In (Sales.customer_id r) (map Customers.customer_id customers)
        ∧ In (Sales.product_id r) (map Products.product_id products)) sales
    ∧ Forall (fun r =>
        In (Ratings.user_id r) (map Customers.customer_id customers)
        ∧ In (Ratings.product_id r) (map Products.product_id products)) ratings
    ∧ Forall (fun r =>
        In (Transactions.customer_id r) (map Customers.customer_id customers)
        ∧ In (Transactions.product_id r) (map Products.product_id products))
        transactions
    ∧ Forall (fun r =>
        In (Orders.customer_id r) (map Customers.customer_id customers)
        ∧ In (Orders.product_id r) (map Products.product_id products)) orders.
Proof.
  apply (main_tables_join (G := StreamRng.generator) (L := stream_laws)
           ["data"] empty_fs).
  vm_compute. reflexivity.
Defined.

(** * Compressed copies *)

Lemma gz_path_of_app (folder : path) (name : string) :
  gz_path_of (folder ++ [name])%list
  = (folder ++ [with_suffix name (String.append (suffix name) ".gz")])%list.
Proof.
  unfold gz_path_of, path_name. now rewrite removelast_last, last_last.
Qed.

Section Gzip.
Variable st_size : file → Z.
Variable gzip_min_size_mb : float.
Variable remove_original_csv : bool.

Lemma gzip_step_other_plain (d : disk) (p q : path) :
  q ≠ p → q ≠ gz_path_of p →
  files (plain (gzip_step st_size gzip_min_size_mb remove_original_csv d p)) !! q
  = files (plain d) !! q.
Proof.
  intros H1 H2. unfold gzip_step, gzip_csv_copy.
  destruct (disk_file d p) as [f|]; [|reflexivity].
  destruct (negb _); [reflexivity|].
  destruct (PrimFloat.ltb _ _); [reflexivity|].
  destruct (String.eqb _ _); [reflexivity|].
  destruct remove_original_csv; simpl;
    now rewrite ?lookup_delete_ne by congruence.
Qed.

Lemma gzip_step_other_gz (d : disk) (p g : path) :
  g ≠ p → g ≠ gz_path_of p →
  gz (gzip_step st_size gzip_min_size_mb remove_original_csv d p) !! g
  = gz d !! g.
Proof.
  intros H1 H2. unfold gzip_step, gzip_csv_copy.
  destruct (disk_file d p) as [f|]; [|reflexivity].
  destruct (negb _); [reflexivity|].
  destruct (PrimFloat.ltb _ _); [reflexivity|].
  destruct (String.eqb _ _); [reflexivity|].
  destruct remove_original_csv; simpl;
    now rewrite ?lookup_delete_ne, lookup_insert_ne by congruence.
Qed.

Lemma gzip_step_at (d : disk) (p : path) (ls : list line) :
  files (plain d) !! p = Some ls →
  lower (suffix (path_name p)) = ".csv" →
  gz_path_of p ≠ p →
  files (plain (gzip_step st_size gzip_min_size_mb remove_original_csv d p)) !! p
  = (if reaches st_size gzip_min_size_mb (Plain ls) && remove_original_csv
     then None else Some ls)
  ∧ (reaches st_size gzip_min_size_mb (Plain ls) = true →
     gz (gzip_step st_size gzip_min_size_mb remove_original_csv d p)
       !! gz_path_of p
     = Some (Plain ls)).
Proof.
  intros Hp Hs Hne. unfold gzip_step, gzip_csv_copy, reaches, disk_file.
  rewrite Hp, Hs.
  cbn [String.eqb Ascii.eqb Bool.eqb negb].
  destruct (PrimFloat.ltb _ _); cbn [negb andb]; [split; [exact Hp|discriminate]|].
  destruct (String.eqb_spec (path_name p) "") as [E|_];
    [rewrite E in Hs; vm_compute in Hs; discriminate|].
  destruct remove_original_csv; simpl.
  - split; [apply lookup_delete_eq|]. intros _.
    rewrite lookup_delete_ne by congruence. apply lookup_insert_eq.
  - split; [|intros _; apply lookup_insert_eq].
    rewrite lookup_delete_ne by congruence. exact Hp.
Qed.

Lemma gzip_fold_other_plain (ps : list path) (q : path) :
  ∀ d, (∀ p, In p ps → q ≠ p ∧ q ≠ gz_path_of p) →
       files (plain (fold_left
                       (gzip_step st_size gzip_min_size_mb remove_original_csv)
                       ps d)) !! q
       = files (plain d) !! q.
Proof.
  induction ps as [|p ps IH]; intros d H; [reflexivity|].
  cbn [fold_left]. rewrite IH by (intros p' Hp'; apply H; now right).
  destruct (H p (or_introl eq_refl)). now apply gzip_step_other_plain.
Qed.

Lemma gzip_fold_other_gz (ps : list path) (g : path) :
  ∀ d, (∀ p, In p ps → g ≠ p ∧ g ≠ gz_path_of p) →
       gz (fold_left (gzip_step st_size gzip_min_size_mb remove_original_csv)
                     ps d) !! g
       = gz d !! g.
Proof.
  induction ps as [|p ps IH]; intros d H; [reflexivity|].
  cbn [fold_left]. rewrite IH by (intros p' Hp'; apply H; now right).
  destruct (H p (or_introl eq_refl)). now apply gzip_step_other_gz.
Qed.

Lemma gzip_fold_at (ps : list path) (p : path) (d : disk) (ls : list line) :
  List.NoDup ps →
  (∀ q q', In q ps → In q' ps → gz_path_of q ≠ q') →
  (∀ q q', In q ps → In q' ps → gz_path_of q = gz_path_of q' → q = q') →
  (∀ q, In q ps → lower (suffix (path_name q)) = ".csv") →
  In p ps →
  files (plain d) !! p = Some ls →
  files (plain (fold_left
                  (gzip_step st_size gzip_min_size_mb remove_original_csv)
                  ps d)) !! p
  = (if reaches st_size gzip_min_size_mb (Plain ls) && remove_original_csv
     then None else Some ls)
  ∧ (reaches st_size gzip_min_size_mb (Plain ls) = true →
     gz (fold_left (gzip_step st_size gzip_min_size_mb remove_original_csv)
                   ps d) !! gz_path_of p
     = Some (Plain ls)).
Proof.
  intros Hnd Hgz Hinj Hsuf Hin Hp.
  destruct (in_split _ _ Hin) as (l1 & l2 & ->).
  apply NoDup_remove in Hnd as [_ Hnotin].
  assert (Hother : ∀ q, In q (l1 ++ l2)%list → In q (l1 ++ p :: l2)%list ∧ q ≠ p).
  { intros q Hq. split.
    - apply in_app_iff in Hq as [Hq|Hq]; apply in_app_iff; [now left|].
      right. now right.
    - intros ->. contradiction. }
  rewrite fold_left_app. cbn [fold_left].
  set (d1 := fold_left (gzip_step st_size gzip_min_size_mb remove_original_csv)
                       l1 d).
  assert (Hp1 : files (plain d1) !! p = Some ls).
  { unfold d1. rewrite gzip_fold_other_plain; [exact Hp|].
    intros q Hq. destruct (Hother q) as [Hq' Hne]; [apply in_app_iff; now left|].
    split; [congruence|]. intros E. now apply (Hgz q p). }
  destruct (gzip_step_at d1 p ls Hp1 (Hsuf p Hin) (Hgz p p Hin Hin)) as [Ha Hb].
  split.
  - rewrite gzip_fold_other_plain; [exact Ha|].
    intros q Hq. destruct (Hother q) as [Hq' Hne]; [apply in_app_iff; now right|].
    split; [congruence|]. intros E. now apply (Hgz q p).
  - intros Hbig. rewrite gzip_fold_other_gz; [now apply Hb|].
    intros q Hq. destruct (Hother q) as [Hq' Hne]; [apply in_app_iff; now right|].
    split.
    + intros E. now apply (Hgz p q).
    + intros E. apply Hne. symmetry. now apply Hinj.
Qed.

End Gzip.

Lemma main_gz_names (folder : path) (p : path) :
  In p (map output_path_of (main_calls folder)) →
  ∃ name,
    In name ["large_sales_data.csv"; "customers.csv"; "ratings.csv";
             "products.csv"; "transactions.csv"; "orders.csv"]
    ∧ p = (folder ++ [name])%list
    ∧ gz_path_of p = (folder ++ [String.append name ".gz"])%list
    ∧ lower (suffix (path_name p)) = ".csv".
Proof.
  intros Hp. rewrite main_paths in Hp. apply in_map_iff in Hp as (name & <- & Hn).
  exists name. split; [exact Hn|]. split; [reflexivity|].
  rewrite gz_path_of_app. unfold path_name. rewrite last_last.
  simpl in Hn. destruct Hn as [<-|[<-|[<-|[<-|[<-|[<-|[]]]]]]];
    split; vm_compute; reflexivity.
Qed.

Lemma main_gz_distinct (folder : path) (q q' : path) :
  In q (map output_path_of (main_calls folder)) →
  In q' (map output_path_of (main_calls folder)) →
  gz_path_of q ≠ q' ∧ (gz_path_of q = gz_path_of q' → q = q').
Proof.
  intros Hq Hq'.
  destruct (main_gz_names folder q Hq) as (n & Hn & -> & -> & _).
  destruct (main_gz_names folder q' Hq') as (n' & Hn' & -> & -> & _).
  simpl in Hn, Hn'.
  destruct Hn as [<-|[<-|[<-|[<-|[<-|[<-|[]]]]]]];
    destruct Hn' as [<-|[<-|[<-|[<-|[<-|[<-|[]]]]]]];
    (split; [intros E; apply app_inv_head in E; discriminate|]);
    intros E; try reflexivity; apply app_inv_head in E; discriminate.
Qed.

(** X15. Under the same assumptions [main] returns, and no table is
    lost to the compression pass: the CSV of each of the six tables is
    still in place with the lines its generator wrote, unless
    [create_gzip_copies] and [remove_original_csv] are both set and the
    file reaches [gzip_min_size_mb], in which case it is gone; and
    whenever [create_gzip_copies] is set and the file reaches the
    threshold, the gzip file next to it ([.csv.gz]) holds those lines. *)
Theorem main_keeps_every_table {G : Generator} {L : GeneratorLaws G}
    (st_size : file → Z) (folder : path) (create_gzip_copies : bool)
    (gzip_min_size_mb : float) (remove_original_csv : bool) (d : disk) :
  choice_accepts (Transactions.year_prob_arr (main_transactions folder)) = true →
  (main st_size folder create_gzip_copies gzip_min_size_mb remove_original_csv d).1
  = Ok tt
  ∧ ∀ c, In c (main_calls folder) →
      ∃ ls,
        files (generate_all folder (plain d)).2 !! output_path_of c = Some ls
        ∧ files (plain (main st_size folder create_gzip_copies gzip_min_size_mb
                             remove_original_csv d).2) !! output_path_of c
          = (if create_gzip_copies
                && reaches st_size gzip_min_size_mb (Plain ls)
                && remove_original_csv
             then None else Some ls)
        ∧ (create_gzip_copies && reaches st_size gzip_min_size_mb (Plain ls)
           = true →
           gz (main st_size folder create_gzip_copies gzip_min_size_mb
                    remove_original_csv d).2 !! gz_path_of (output_path_of c)
           = Some (Plain ls)).
Proof.
  intros Hacc. unfold main. rewrite (generate_all_runs folder Hacc (plain d)).
  cbn [fst snd]. split; [reflexivity|]. intros c Hc.
  destruct (main_file folder Hacc (plain d) c Hc) as (dfs & _ & _ & Hf).
  eexists. split; [exact Hf|].
  destruct create_gzip_copies; cbn [andb];
    [|split; [exact Hf | discriminate]].
  apply gzip_fold_at.
  - apply NoDup_ListNoDup, main_paths_NoDup.
  - intros q q' Hq Hq'. now apply (main_gz_distinct folder).
  - intros q q' Hq Hq'. now apply (main_gz_distinct folder).
  - intros q Hq. now destruct (main_gz_names folder q Hq) as (n & _ & _ & _ & Hs).
  - now apply in_map.
  - exact Hf.
Qed.

Lemma main_keeps_every_table_witness :
  (main (G := StreamRng.generator) (fun _ => 67108864)
        ["data"] true 25 true (mk_disk empty_fs ∅)).1
  = Ok tt
  ∧ ∀ c, In c (main_calls ["data"]) →
      ∃ ls,
        files (generate_all (G := StreamRng.generator) ["data"]
                 (plain (mk_disk empty_fs ∅))).2 !! output_path_of c = Some ls
        ∧ files (plain (main (G := StreamRng.generator) (fun _ => 67108864)
                          ["data"] true 25 true (mk_disk empty_fs ∅)).2)
            !! output_path_of c
          = (if true && reaches (fun _ => 67108864) 25 (Plain ls) && true
             then None else Some ls)
        ∧ (true && reaches (fun _ => 67108864) 25 (Plain ls) = true →
           gz (main (G := StreamRng.generator) (fun _ => 67108864)
                 ["data"] true 25 true (mk_disk empty_fs ∅)).2
             !! gz_path_of (output_path_of c)
           = Some (Plain ls)).
Proof.
  apply (main_keeps_every_table (G := StreamRng.generator) (L := stream_laws)
           (fun _ => 67108864) ["data"] true 25 true (mk_disk empty_fs ∅)).
  vm_compute. reflexivity.
Defined.

(** * The name of the compressed copy *)

Lemma string_of_list_ascii_app (a b : list ascii) :
  string_of_list_ascii (a ++ b)
  = String.append (string_of_list_ascii a) (string_of_list_ascii b).
Proof.
  induction a as [|c a IH]; [reflexivity|].
  change (String c (string_of_list_ascii (a ++ b))
          = String c (String.append (string_of_list_ascii a)
                                    (string_of_list_ascii b))).
  now rewrite IH.
Qed.

Lemma length_string_of_list_ascii (l : list ascii) :
  String.length (string_of_list_ascii l) = length l.
Proof. induction l as [|c l IH]; simpl; [reflexivity | now rewrite IH]. Qed.

Lemma string_append_assoc (s1 s2 s3 : string) :
  String.append (String.append s1 s2) s3 = String.append s1 (String.append s2 s3).
Proof.
  induction s1 as [|c s1 IH]; [reflexivity|].
  change (String c (String.append (String.append s1 s2) s3)
          = String c (String.append s1 (String.append s2 s3))).
  now rewrite IH.
Qed.

Lemma string_length_append (s1 s2 : string) :
  String.length (String.append s1 s2) = (String.length s1 + String.length s2)%nat.
Proof.
  induction s1 as [|c s1 IH]; [reflexivity|].
  change (S (String.length (String.append s1 s2))
          = S (String.length s1 + String.length s2)).
  now rewrite IH.
Qed.

Lemma with_suffix_gz (name : string) :
  with_suffix name (String.append (suffix name) ".gz") = String.append name ".gz".
Proof.
  unfold with_suffix.
  assert (H : String.append
                (string_of_list_ascii
                   (take (length (list_ascii_of_string name)
                          - String.length (suffix name))
                         (list_ascii_of_string name)))
                (suffix name) = name).
  { unfold suffix.
    destruct (rfind_dot (list_ascii_of_string name) 0 None) as [i|].
    - destruct (_ && _) eqn:E.
      + apply andb_true_iff in E as [_ E]. apply Nat.ltb_lt in E.
        rewrite length_string_of_list_ascii, length_drop.
        replace (length (list_ascii_of_string name)
                 - (length (list_ascii_of_string name) - i))%nat with i by lia.
        rewrite <- string_of_list_ascii_app, take_drop.
        apply string_of_list_ascii_of_string.
      + simpl. rewrite Nat.sub_0_r, firstn_all, append_empty_r.
        apply string_of_list_ascii_of_string.
    - simpl. rewrite Nat.sub_0_r, firstn_all, append_empty_r.
      apply string_of_list_ascii_of_string. }
  rewrite <- string_append_assoc. now rewrite H.
Qed.

Lemma gz_path_of_name (p : path) :
  gz_path_of p = (removelast p ++ [String.append (path_name p) ".gz"])%list.
Proof. unfold gz_path_of. now rewrite with_suffix_gz. Qed.

Lemma gz_path_of_ne (p : path) : gz_path_of p ≠ p.
Proof.
  rewrite gz_path_of_name. destruct p as [|x p] using rev_ind; [discriminate|].
  unfold path_name. rewrite removelast_last, last_last.
  intros E. apply app_inv_head in E. injection E as E.
  apply (f_equal String.length) in E. rewrite string_length_append in E.
  simpl in E. lia.
Qed.

(** * Further theorems: the compressed copy *)

(** X16. [_gzip_csv_copy] opens whatever file is at the source path, a
    CSV or a gzip file. It fails, leaving the disk as it was, exactly
    when the path has no name or holds no file. Otherwise it returns the
    source's path with [.gz] appended to its name, a path different from
    the source; the gzip file there decompresses to the source file; the
    source is still in place exactly when [remove_original] is off; and
    every file at another path is as before. *)
Theorem gzip_copy_next_to_source (csv_path : path) (remove_original : bool)
    (d : disk) :
  match gzip_csv_copy csv_path remove_original d with
  | (Copied g, d') =>
      g = (removelast csv_path ++ [String.append (path_name csv_path) ".gz"])%list
      ∧ g ≠ csv_path
      ∧ ∃ src, disk_file d csv_path = Some src
               ∧ disk_file d' g = Some (Gzip src)
               ∧ disk_file d' csv_path
                 = (if remove_original then None else Some src)
               ∧ ∀ q, q ≠ csv_path → q ≠ g → disk_file d' q = disk_file d q
  | (CopyValueError, d') => d' = d ∧ path_name csv_path = ""
  | (CopyOSError, d') =>
      d' = d ∧ path_name csv_path ≠ "" ∧ disk_file d csv_path = None
  end.
Proof.
  unfold gzip_csv_copy.
  destruct (String.eqb_spec (path_name csv_path) "") as [E|E]; [now split|].
  destruct (disk_file d csv_path) as [src|] eqn:Hf; [|now split].
  split; [apply gz_path_of_name|]. split; [apply gz_path_of_ne|].
  exists src. split; [reflexivity|].
  pose proof (gz_path_of_ne csv_path) as Hne.
  unfold disk_file in *.
  destruct remove_original; simpl; repeat split;
    try (intros q H1 H2);
    repeat first [ rewrite lookup_delete_eq
                 | rewrite lookup_insert_eq
                 | rewrite lookup_delete_ne by congruence
                 | rewrite lookup_insert_ne by congruence ];
    first [reflexivity | exact Hf].
Qed.
